(** * Calendar Assistant: the aggregation logic of [cal.py]

    A shallow embedding of the three views of the dashboard (upcoming
    events, event creation, activity analytics) and of the helper
    [create_calendar_heatmap], with the properties of the grouping and
    counting code.

    Conventions.
    - Python exceptions are the [Raise] results of the [Result] type; the
      views run in a monad [M] that threads the log of remote calls and the
      widgets rendered so far, and may stop with an uncaught exception.
    - [datetime.date] is the record [Date]; [datetime.datetime] is
      [DateTime], with an optional UTC offset (aware or naive).  The
      calendar arithmetic and the two parsers follow the reference
      implementation of the [datetime] module.
    - A Python [float] number of minutes is an exact rational ([Q]).  The
      comparisons of [categorize_duration] against 15, 30, 60 and 120 agree
      with the exact ones, since the rounded quotient of a whole number of
      microseconds is monotone and the four thresholds are representable;
      the mean is the exact quotient where pandas rounds it.
    - Dictionaries are [gmap]s; the JSON objects of the remote service,
      whose keys are fixed, are records with optional fields; a data frame
      is the list of its rows.
    - The remote service is a pair of functions that answer the two kinds
      of request, either with a result or with an exception.
    - A widget keeps the data it shows (a date, a record, the rows of a
      chart) rather than the formatted text; the welcome page and the
      footer are left out, and of the sidebar only what its buttons do to
      the token file and to the session ([Auth]). *)

From Stdlib Require Import ZArith QArith Lqa Lia String Ascii Sorted.
From stdpp Require Import gmap strings list fin_maps.

Local Open Scope Z_scope.

(** ** Exceptions *)

Inductive exn : Type :=
| ValueError
| TypeError
| KeyError
| RemoteError (msg : string).

Inductive Result (A : Type) : Type :=
| Ok (a : A)
| Raise (e : exn).
Arguments Ok {A} a.
Arguments Raise {A} e.

Definition rbind {A B} (r : Result A) (k : A -> Result B) : Result B :=
  match r with
  | Ok a => k a
  | Raise e => Raise e
  end.

Notation "'let?' x ':=' r 'in' k" := (rbind r (fun x => k))
  (at level 10, x name, r at level 100, k at level 200).

Definition of_option {A} (e : exn) (o : option A) : Result A :=
  match o with
  | Some a => Ok a
  | None => Raise e
  end.

(** ** The proleptic Gregorian calendar of [datetime] *)

Module Calendar.

Record Date : Type := mkDate { year : Z; month : Z; day : Z }.

#[global] Instance Date_eq_dec : EqDecision Date.
Proof. solve_decision. Defined.

#[global] Instance Date_countable : Countable Date.
Proof.
  apply (inj_countable' (fun d => (year d, month d, day d))
                        (fun t => mkDate t.1.1 t.1.2 t.2)).
  by intros [].
Defined.

(** [datetime.MINYEAR] and [datetime.MAXYEAR]. *)
Definition MINYEAR : Z := 1.
Definition MAXYEAR : Z := 9999.

Definition is_leap (y : Z) : bool :=
  (y mod 4 =? 0) && (negb (y mod 100 =? 0) || (y mod 400 =? 0)).

Definition days_in_month (y m : Z) : Z :=
  if m =? 2 then (if is_leap y then 29 else 28)
  else if (m =? 4) || (m =? 6) || (m =? 9) || (m =? 11) then 30
  else 31.

(** Number of days before January 1st of year [y]. *)
Definition days_before_year (y : Z) : Z :=
  let p := y - 1 in p * 365 + p / 4 - p / 100 + p / 400.

(** Number of days of the year [y] before the first day of month [m]. *)
Definition days_before_month (y m : Z) : Z :=
  (match m with
   | 1 => 0 | 2 => 31 | 3 => 59 | 4 => 90 | 5 => 120 | 6 => 151
   | 7 => 181 | 8 => 212 | 9 => 243 | 10 => 273 | 11 => 304 | _ => 334
   end) + (if (2 <? m) && is_leap y then 1 else 0).

(** The check of the [date] constructor. *)
Definition valid_date (d : Date) : bool :=
  (MINYEAR <=? year d) && (year d <=? MAXYEAR) &&
  (1 <=? month d) && (month d <=? 12) &&
  (1 <=? day d) && (day d <=? days_in_month (year d) (month d)).

(** [date.toordinal()]: January 1st of year 1 is day 1. *)
Definition toordinal (d : Date) : Z :=
  days_before_year (year d) + days_before_month (year d) (month d) + day d.

(** [date.weekday()]: Monday is 0, Sunday is 6. *)
Definition weekday (d : Date) : Z := (toordinal d + 6) mod 7.

(** The order of [date] objects: by year, then month, then day. *)
Definition date_leb (a b : Date) : bool :=
  (year a <? year b) ||
  ((year a =? year b) &&
   ((month a <? month b) || ((month a =? month b) && (day a <=? day b)))).

(** The day after [d] ([d + timedelta(days=1)]). *)
Definition next_day (d : Date) : Date :=
  if day d <? days_in_month (year d) (month d)
  then mkDate (year d) (month d) (day d + 1)
  else if month d <? 12 then mkDate (year d) (month d + 1) 1
  else mkDate (year d + 1) 1 1.

Fixpoint add_days (n : nat) (d : Date) : Date :=
  match n with
  | O => d
  | S k => add_days k (next_day d)
  end.

(** A [datetime]: a date, a time of day, and the UTC offset in microseconds
    of an aware value ([None] for a naive one). *)
Record DateTime : Type := mkDateTime {
  dt_date : Date;
  hour : Z;
  minute : Z;
  second : Z;
  microsecond : Z;
  utcoffset : option Z
}.

(** Microseconds of the wall-clock reading since the start of day 0. *)
Definition wall_micros (t : DateTime) : Z :=
  ((toordinal (dt_date t) * 86400 + hour t * 3600 + minute t * 60 + second t)
   * 1000000) + microsecond t.

(** The instant of an aware value, as microseconds in UTC. *)
Definition utc_micros (t : DateTime) (off : Z) : Z :=
  wall_micros t - off.

(** [a - b] on datetimes: a [timedelta], here in microseconds.  Mixing a
    naive and an aware value raises [TypeError]. *)
Definition sub_datetime (a b : DateTime) : Result Z :=
  match utcoffset a, utcoffset b with
  | None, None => Ok (wall_micros a - wall_micros b)
  | Some oa, Some ob => Ok (utc_micros a oa - utc_micros b ob)
  | _, _ => Raise TypeError
  end.

(** [timedelta.total_seconds() / 60]. *)
Definition minutes_of_micros (us : Z) : Q := us # 60000000.

End Calendar.
Export Calendar.

(** ** Strings and the parsers of [datetime] *)

Module Parse.

Local Open Scope string_scope.
Local Open Scope Z_scope.

(** [c in s] for a one-character string [c]. *)
Fixpoint contains (c : ascii) (s : string) : bool :=
  match s with
  | EmptyString => false
  | String x r => if Ascii.eqb x c then true else contains c r
  end.

(** [s.replace(c, by)] for a one-character string [c]. *)
Fixpoint replace (c : ascii) (by_ : string) (s : string) : string :=
  match s with
  | EmptyString => EmptyString
  | String x r =>
      if Ascii.eqb x c then by_ ++ replace c by_ r
      else String x (replace c by_ r)
  end.

Definition len (s : string) : Z := Z.of_nat (String.length s).

(** The slice [s[i:]]. *)
Fixpoint drop (i : nat) (s : string) : string :=
  match i, s with
  | O, _ => s
  | S k, String _ r => drop k r
  | S _, EmptyString => EmptyString
  end.

(** The slice [s[:i]]. *)
Fixpoint take (i : nat) (s : string) : string :=
  match i, s with
  | S k, String x r => String x (take k r)
  | _, _ => EmptyString
  end.

Definition digit (c : ascii) : option Z :=
  let n := Z.of_N (N_of_ascii c) in
  if (48 <=? n) && (n <=? 57) then Some (n - 48) else None.

(** The value of a string made of ASCII digits only (at least one). *)
Fixpoint number_from (acc : Z) (s : string) : option Z :=
  match s with
  | EmptyString => Some acc
  | String c r =>
      match digit c with
      | Some d => number_from (acc * 10 + d) r
      | None => None
      end
  end.

Definition number (s : string) : option Z :=
  match s with
  | EmptyString => None
  | _ => number_from 0 s
  end.

(** The character at position [i], if any. *)
Definition char_at (i : nat) (s : string) : option ascii := String.get i s.

Definition is_char (c : ascii) (o : option ascii) : bool :=
  match o with
  | Some x => Ascii.eqb x c
  | None => false
  end.

(** [_parse_isoformat_date]: exactly [YYYY-MM-DD]. *)
Definition parse_isoformat_date (s : string) : option (Z * Z * Z) :=
  if negb (len s =? 10) then None
  else if negb (is_char "-" (char_at 4 s) && is_char "-" (char_at 7 s)) then None
  else
    y ← number (take 4 s);
    m ← number (take 2 (drop 5 s));
    d ← number (take 2 (drop 8 s));
    Some (y, m, d).

(** [_parse_hh_mm_ss_ff]: [HH[:MM[:SS[.fff[fff]]]]], as hour, minute,
    second, microsecond. *)
Definition parse_fraction (s : string) : option Z :=
  match s with
  | EmptyString => Some 0
  | String c f =>
      if negb (Ascii.eqb c ".") then None
      else if len f =? 3 then (λ n, n * 1000) <$> number f
      else if len f =? 6 then number f
      else None
  end.

Definition parse_hh_mm_ss_ff (s : string) : option (Z * Z * Z * Z) :=
  h ← number (take 2 s);
  if len s <? 2 then None
  else if len s =? 2 then Some (h, 0, 0, 0)
  else if negb (is_char ":" (char_at 2 s)) then None
  else
    m ← number (take 2 (drop 3 s));
    if len s <? 5 then None
    else if len s =? 5 then Some (h, m, 0, 0)
    else if negb (is_char ":" (char_at 5 s)) then None
    else
      sec ← number (take 2 (drop 6 s));
      if len s <? 8 then None
      else
        us ← parse_fraction (drop 8 s);
        Some (h, m, sec, us).

(** Position of the first sign character of the time string, following
    [tstr.find('-') + 1 or tstr.find('+') + 1]: a minus sign anywhere wins
    over a plus sign. *)
Fixpoint find (c : ascii) (s : string) : option nat :=
  match s with
  | EmptyString => None
  | String x r => if Ascii.eqb x c then Some O else S <$> find c r
  end.

Definition tz_pos (s : string) : option nat :=
  match find "-" s with
  | Some i => Some i
  | None => find "+" s
  end.

(** The offset of a time-zone suffix, in microseconds east of UTC; the
    [timezone] constructor wants it strictly within one day. *)
Definition parse_tz (sign : ascii) (s : string) : option Z :=
  if negb ((len s =? 5) || (len s =? 8) || (len s =? 15)) then None
  else
    '(h, m, sec, us) ← parse_hh_mm_ss_ff s;
    let off := ((h * 3600 + m * 60 + sec) * 1000000 + us) in
    let off := if Ascii.eqb sign "-" then - off else off in
    if (-86400000000 <? off) && (off <? 86400000000) then Some off else None.

(** [_parse_isoformat_time]. *)
Definition parse_isoformat_time (s : string)
  : option (Z * Z * Z * Z * option Z) :=
  if len s <? 2 then None
  else
    match tz_pos s with
    | None =>
        '(h, m, sec, us) ← parse_hh_mm_ss_ff s;
        Some (h, m, sec, us, None)
    | Some i =>
        '(h, m, sec, us) ← parse_hh_mm_ss_ff (take i s);
        sign ← char_at i s;
        off ← parse_tz sign (drop (S i) s);
        Some (h, m, sec, us, Some off)
    end.

Definition valid_time (h m sec us : Z) : bool :=
  (0 <=? h) && (h <? 24) && (0 <=? m) && (m <? 60) &&
  (0 <=? sec) && (sec <? 60) && (0 <=? us) && (us <? 1000000).

(** [datetime.fromisoformat], after the reference implementation of
    Python 3.7 to 3.10, on fields of ASCII digits: the first ten characters
    are the date, the eleventh is any separator, the rest is the time.
    [None] stands for [ValueError]. *)
Definition fromisoformat (s : string) : option DateTime :=
  '(y, mo, d) ← parse_isoformat_date (take 10 s);
  '(h, mi, sec, us, off) ←
    (match drop 11 s with
     | EmptyString => Some (0, 0, 0, 0, None)
     | t => parse_isoformat_time t
     end);
  let dte := mkDate y mo d in
  if valid_date dte && valid_time h mi sec us
  then Some (mkDateTime dte h mi sec us off)
  else None.

(** One or two digits, as the [%m] and [%d] directives of [strptime]
    take them ([1[0-2]|0[1-9]|[1-9]] and [3[01]|[12]\d|0[1-9]|[1-9]]);
    the value is checked by the caller. *)
Definition one_or_two_digits (s : string) : option (Z * string) :=
  match s with
  | String a (String b r) =>
      match digit a, digit b with
      | Some x, Some y => Some (x * 10 + y, r)
      | Some x, None => Some (x, String b r)
      | None, _ => None
      end
  | String a EmptyString => (λ x, (x, EmptyString)) <$> digit a
  | EmptyString => None
  end.

(** The [%d] directive also takes a space before a single digit. *)
Definition day_digits (s : string) : option (Z * string) :=
  match s with
  | String " " (String b r) => (λ x, (x, r)) <$> digit b
  | _ => one_or_two_digits s
  end.

(** [datetime.strptime(s, "%Y-%m-%d").date()]: four digits, a dash, a
    month, a dash, a day, and nothing more. *)
Definition strptime_ymd (s : string) : option Date :=
  y ← number (take 4 s);
  if negb (4 <=? len s) then None
  else if negb (is_char "-" (char_at 4 s)) then None
  else
    '(m, r) ← one_or_two_digits (drop 5 s);
    match r with
    | String c r' =>
        if negb (Ascii.eqb c "-") then None
        else
          '(d, r'') ← day_digits r';
          match r'' with
          | EmptyString =>
              let dte := mkDate y m d in
              if (1 <=? m) && (1 <=? d) && valid_date dte then Some dte else None
          | _ => None
          end
    | EmptyString => None
    end.

End Parse.

(** ** Events of the remote calendar *)

(** The [start] and [end] objects of an event: a timed event has
    [dateTime], an all-day event has [date]. *)
Record TimeSpec : Type := mkTimeSpec {
  dateTime : option string;
  date : option string
}.

Record Event : Type := mkEvent {
  start : TimeSpec;
  end_ : TimeSpec;
  summary : option string;
  description : option string;
  location : option string;
  colorId : option string
}.

(** [d.get(key, default)] on an optional field. *)
Definition get_or {A} (o : option A) (default : A) : A :=
  match o with
  | Some a => a
  | None => default
  end.

(** Truth value of a string or [None] in a condition. *)
Definition truthy (o : option string) : bool :=
  match o with
  | Some (String _ _) => true
  | _ => false
  end.

(** A [for] loop whose body may raise: the state is threaded through the
    elements from left to right and the first exception ends the loop. *)
Fixpoint for_each {A S} (body : S -> A -> Result S) (l : list A) (s : S)
  : Result S :=
  match l with
  | [] => Ok s
  | x :: r => let? s' := body s x in for_each body r s'
  end.

(** Sorting, as [sorted] and [sort_values] do it on keys that are all
    distinct: insertion into a list ordered by [lt]. *)
Fixpoint insert_by {A} (lt : A -> A -> bool) (x : A) (l : list A) : list A :=
  match l with
  | [] => [x]
  | y :: r => if lt x y then x :: y :: r else y :: insert_by lt x r
  end.

Definition sort_with {A} (lt : A -> A -> bool) (l : list A) : list A :=
  foldr (insert_by lt) [] (reverse l).

Definition sort_by {A} (key : A -> Z) (l : list A) : list A :=
  sort_with (λ x y, key x <? key y) l.

(** [event['start'].get('dateTime', event['start'].get('date'))]. *)
Definition start_marker (e : Event) : option string :=
  match dateTime (start e) with
  | Some s => Some s
  | None => date (start e)
  end.

(** The parse shared by the three loops over starts: a marker with a
    ["T"] is a date-time, any other a date; [None] has no [in]. *)
Definition parse_start (marker : option string) : Result (DateTime * bool) :=
  match marker with
  | None => Raise TypeError
  | Some s =>
      if Parse.contains "T" s
      then let? t := of_option ValueError
                       (Parse.fromisoformat (Parse.replace "Z" "+00:00" s)) in
           Ok (t, true)
      else let? d := of_option ValueError (Parse.strptime_ymd s) in
           Ok (mkDateTime d 0 0 0 0 None, false)
  end.

(** ** [create_calendar_heatmap] *)

Module Heatmap.

(** [pd.date_range(start, end)], daily: [start], [start] + 1 day, ... up to
    [end] included; empty when [end] is before [start]. *)
Fixpoint days_from (n : nat) (d : Date) : list Date :=
  match n with
  | O => []
  | S k => d :: days_from k (next_day d)
  end.

Definition date_range (start_date end_date : Date) : list Date :=
  days_from (Z.to_nat (toordinal end_date - toordinal start_date + 1))
            start_date.

(** The rows of [calendar_df]: a date and its count. *)
Definition calendar_df_init (start_date end_date : Date) : list (Date * Z) :=
  (λ d, (d, 0)) <$> date_range start_date end_date.

(** [calendar_df[calendar_df['date'].dt.date == event_date].index]. *)
Fixpoint index_of (event_date : Date) (i : nat) (df : list (Date * Z))
  : list nat :=
  match df with
  | [] => []
  | (d, _) :: r =>
      if decide (d = event_date) then i :: index_of event_date (S i) r
      else index_of event_date (S i) r
  end.

(** [calendar_df.loc[idx, 'count'] += 1]. *)
Definition increment (idx : list nat) (df : list (Date * Z))
  : list (Date * Z) :=
  foldr (λ i acc, alter (λ row, (row.1, row.2 + 1)) i acc) df idx.

Definition count_event (df : list (Date * Z)) (e : Event)
  : Result (list (Date * Z)) :=
  let? t := parse_start (start_marker e) in
  let event_date := dt_date t.1 in
  let idx := index_of event_date 0 df in
  if (0 <? Z.of_nat (length idx))%Z then Ok (increment idx df) else Ok df.

(** The data frame behind the chart. *)
Definition calendar_df (events_data : list Event) (start_date end_date : Date)
  : Result (list (Date * Z)) :=
  for_each count_event events_data (calendar_df_init start_date end_date).

End Heatmap.

(** ** The grouping loop of the upcoming view *)

Module Upcoming.

Record Display : Type := mkDisplay {
  d_time : string;
  d_summary : string;
  d_description : string;
  d_location : string;
  d_color : string
}.

Definition digit_char (n : Z) : ascii := ascii_of_N (Z.to_N (48 + n)).

Definition two_digits (n : Z) : string :=
  String (digit_char (n / 10)) (String (digit_char (n mod 10)) EmptyString).

(** [start_dt.strftime("%H:%M")]. *)
Definition strftime_HM (t : DateTime) : string :=
  (two_digits (hour t) ++ ":" ++ two_digits (minute t))%string.

Definition display_of (e : Event) (formatted_time : string) : Display :=
  {| d_time := formatted_time;
     d_summary := get_or (summary e) "Untitled Event";
     d_description := get_or (description e) "";
     d_location := get_or (location e) "";
     d_color := get_or (colorId e) "0" |}.

(** The date under which an event is filed and its time label. *)
Definition date_and_time (e : Event) : Result (Date * string) :=
  let? t := parse_start (start_marker e) in
  if t.2 then Ok (dt_date t.1, strftime_HM t.1)
  else Ok (dt_date t.1, "All day"%string).

Definition group_event (events_by_date : gmap Date (list Display)) (e : Event)
  : Result (gmap Date (list Display)) :=
  let? dt := date_and_time e in
  let event_date := dt.1 in
  let events_by_date :=
    match events_by_date !! event_date with
    | Some _ => events_by_date
    | None => <[event_date := []]> events_by_date
    end in
  let? bucket := of_option KeyError (events_by_date !! event_date) in
  Ok (<[event_date := bucket ++ [display_of e dt.2]]> events_by_date).

Definition events_by_date (events : list Event)
  : Result (gmap Date (list Display)) :=
  for_each group_event events ∅.

End Upcoming.

(** ** The loops of the analytics view *)

Module Analytics.

Local Open Scope string_scope.
Local Open Scope list_scope.
Local Open Scope Z_scope.

Definition days_order : list string :=
  ["Monday"; "Tuesday"; "Wednesday"; "Thursday"; "Friday"; "Saturday";
   "Sunday"].

(** [event_dt.strftime("%A")] in the default locale. *)
Definition strftime_A (t : DateTime) : string :=
  match weekday (dt_date t) with
  | 0 => "Monday"
  | 1 => "Tuesday"
  | 2 => "Wednesday"
  | 3 => "Thursday"
  | 4 => "Friday"
  | 5 => "Saturday"
  | _ => "Sunday"
  end%Z.

Definition day_counts_init : gmap string Z :=
  list_to_map ((λ d, (d, 0%Z)) <$> days_order).

(** The body of the weekday loop; [day_counts[day_name] += 1] reads the
    entry first and raises [KeyError] when it is missing. *)
Definition count_day (day_counts : gmap string Z) (e : Event)
  : Result (gmap string Z) :=
  let? t := parse_start (start_marker e) in
  let day_name := strftime_A t.1 in
  let? n := of_option KeyError (day_counts !! day_name) in
  Ok (<[day_name := (n + 1)%Z]> day_counts).

Definition day_counts (events : list Event) : Result (gmap string Z) :=
  for_each count_day events day_counts_init.

(** The [Count] column of [days_df]. *)
Definition days_df (day_counts : gmap string Z) : Result (list (string * Z)) :=
  for_each (λ acc day,
              let? n := of_option KeyError (day_counts !! day) in
              Ok (acc ++ [(day, n)]))
           days_order [].

(** A row of [timed_events]. *)
Record Timed : Type := mkTimed {
  t_summary : string;
  duration_minutes : Q
}.

Definition iso (s : string) : Result DateTime :=
  of_option ValueError (Parse.fromisoformat (Parse.replace "Z" "+00:00" s)).

Definition add_timed (timed_events : list Timed) (e : Event)
  : Result (list Timed) :=
  let start := dateTime (start e) in
  let end_ := dateTime (end_ e) in
  if truthy start && truthy end_ then
    let? start_dt := iso (get_or start "") in
    let? end_dt := iso (get_or end_ "") in
    let? delta := sub_datetime end_dt start_dt in
    Ok (timed_events ++
        [{| t_summary := get_or (summary e) "Untitled";
            duration_minutes := minutes_of_micros delta |}])
  else Ok timed_events.

Definition timed_events (events : list Event) : Result (list Timed) :=
  for_each add_timed events [].

Definition categorize_duration (minutes : Q) : string :=
  if Qle_bool minutes 15 then "0-15 minutes"
  else if Qle_bool minutes 30 then "16-30 minutes"
  else if Qle_bool minutes 60 then "31-60 minutes"
  else if Qle_bool minutes 120 then "1-2 hours"
  else "2+ hours".

Definition category_order : list string :=
  ["0-15 minutes"; "16-30 minutes"; "31-60 minutes"; "1-2 hours"; "2+ hours"].

(** Tally of a column: each distinct value with the number of its
    occurrences, in order of first occurrence. *)
Fixpoint tally_add (v : string) (t : list (string * Z)) : list (string * Z) :=
  match t with
  | [] => [(v, 1%Z)]
  | (w, n) :: r => if String.eqb w v then (w, (n + 1)%Z) :: r
                   else (w, n) :: tally_add v r
  end.

Definition tally (col : list string) : list (string * Z) :=
  foldl (λ t v, tally_add v t) [] col.

(** [Series.value_counts()]: the tally, most frequent value first.  The
    order among equal counts is of no consequence below, where the rows
    are sorted again on their labels, which are distinct. *)
Definition value_counts (col : list string) : list (string * Z) :=
  sort_by (λ row, (- row.2)%Z) (tally col).

(** The code of a label in [pd.Categorical(..., categories=cats)]: its
    position in [cats]; a label that is no category sorts last. *)
Fixpoint category_code (cats : list string) (v : string) : Z :=
  match cats with
  | [] => 0
  | c :: r => if String.eqb c v then 0 else (1 + category_code r v)%Z
  end.

(** [category_counts] after [sort_values('Duration')]. *)
Definition category_counts (timed_events : list Timed) : list (string * Z) :=
  let category := (λ r, categorize_duration (duration_minutes r)) <$> timed_events in
  sort_by (λ row, category_code category_order row.1) (value_counts category).

Definition Qsum (l : list Q) : Q := foldl Qplus 0%Q l.

(** [Series.mean()] of a column without missing values. *)
Definition mean (l : list Q) : Q := (Qsum l / inject_Z (Z.of_nat (length l)))%Q.

Definition avg_duration (timed_events : list Timed) : Q :=
  mean (duration_minutes <$> timed_events).

End Analytics.

(** ** The page: remote calls, widgets and the three views *)

Module Page.

Local Open Scope string_scope.
Local Open Scope list_scope.
Local Open Scope Z_scope.

(** Start or end of a new event: a date (all day) or a date and a time of
    day, both sent with the time zone UTC. *)
Inductive When : Type :=
| OnDate (d : Date)
| AtTime (d : Date) (h m : Z).

Record EventBody : Type := mkBody {
  b_summary : string;
  b_location : string;
  b_description : string;
  b_start : When;
  b_end : When;
  b_colorId : string;
  b_reminders : list Z
}.

(** The requests [events().list(...).execute()] and
    [events().insert(...).execute()]. *)
Inductive RemoteCall : Type :=
| EventsList (timeMin timeMax : Date) (maxResults : Z)
| EventsInsert (body : EventBody).

(** The remote service: what each request answers.  A list answer may
    lack [items]; an insert answer may lack [htmlLink]. *)
Record Service : Type := mkService {
  events_list : Date -> Date -> Z -> Result (option (list Event));
  events_insert : EventBody -> Result (option string)
}.

Inductive Widget : Type :=
| Title (s : string)
| Subheader (s : string)
| DateHeader (d : Date)
| Markdown (s : string)
| Info (s : string)
| Error (s : string)
| ErrorExn (s : string) (e : exn)
| Success (s : string)
| EventCard (r : Upcoming.Display)
| CreatedDetails (body : EventBody) (link : option string)
| MetricCount (label : string) (n : Z)
| MetricMinutes (label : string) (q : Q)
| HeatmapChart (rows : list (Date * Z))
| DayChart (rows : list (string * Z))
| DurationChart (rows : list (string * Z)).

(** What a run leaves behind: the remote calls made and the widgets
    rendered, both in order. *)
Record World : Type := mkWorld {
  calls : list RemoteCall;
  screen : list Widget
}.

Definition M (A : Type) : Type := World -> World * Result A.

Definition ret {A} (a : A) : M A := λ w, (w, Ok a).

Definition bind {A B} (m : M A) (k : A -> M B) : M B :=
  λ w, match m w with
       | (w', Ok a) => k a w'
       | (w', Raise e) => (w', Raise e)
       end.

Notation "'do' x <- m ;; k" := (bind m (λ x, k))
  (at level 10, x name, m at level 99, k at level 200).
Notation "'exec' m ;; k" := (bind m (λ _, k))
  (at level 10, m at level 99, k at level 200).

Definition lift {A} (r : Result A) : M A := λ w, (w, r).

Definition render (x : Widget) : M unit :=
  λ w, (mkWorld (calls w) (screen w ++ [x]), Ok tt).

Definition remote {A} (c : RemoteCall) (answer : Result A) : M A :=
  λ w, (mkWorld (calls w ++ [c]) (screen w), answer).

(** [try: m except Exception as e: handler(e)]. *)
Definition try_except {A} (m : M A) (handler : exn -> M A) : M A :=
  λ w, match m w with
       | (w', Ok a) => (w', Ok a)
       | (w', Raise e) => handler e w'
       end.

Fixpoint for_ {A} (l : list A) (body : A -> M unit) : M unit :=
  match l with
  | [] => ret tt
  | x :: r => exec body x ;; for_ r body
  end.

(** *** Upcoming events *)

Definition date_ltb (a b : Date) : bool := negb (date_leb b a).

Definition upcoming_view (service : Service) (start_date end_date : Date)
    (max_events : Z) : M unit :=
  exec render (Title "Upcoming Events") ;;
  do events_result <- remote (EventsList start_date end_date max_events)
                     (events_list service start_date end_date max_events) ;;
  let events := get_or events_result [] in
  match events with
  | [] => render (Info "No events found for the selected period.")
  | _ =>
      do events_by_date <- lift (Upcoming.events_by_date events) ;;
      for_ (sort_with date_ltb (map_to_list events_by_date).*1)
        (λ date,
           exec render (DateHeader date) ;;
           do bucket <- lift (of_option KeyError (events_by_date !! date)) ;;
           for_ bucket (λ event, render (EventCard event)))
  end.

(** *** Create new event *)

Record Form : Type := mkForm {
  event_title : string;
  event_date : Date;
  all_day : bool;
  event_time : Z * Z;
  duration_choice : string;
  duration_hours : Z;
  duration_mins : Z;
  event_description : string;
  event_location : string;
  event_color : string;
  notifications : list string;
  submit_button : bool
}.

Definition duration_options : gmap string Z :=
  list_to_map [("15 minutes", 15); ("30 minutes", 30); ("45 minutes", 45);
               ("1 hour", 60); ("1.5 hours", 90); ("2 hours", 120);
               ("3 hours", 180); ("Custom", -1)].

Definition colors : gmap string string :=
  list_to_map [("Default", "0"); ("Lavender", "1"); ("Sage", "2");
               ("Grape", "3"); ("Flamingo", "4"); ("Banana", "5");
               ("Tangerine", "6"); ("Peacock", "7"); ("Graphite", "8");
               ("Blueberry", "9"); ("Basil", "10"); ("Tomato", "11")].

Definition total_minutes (f : Form) : Result Z :=
  if String.eqb (duration_choice f) "Custom"
  then Ok (duration_hours f * 60 + duration_mins f)
  else of_option KeyError (duration_options !! duration_choice f).

(** [datetime.combine(d, time(h, m)) + timedelta(minutes=n)]. *)
Definition plus_minutes (d : Date) (h m n : Z) : When :=
  let t := h * 60 + m + n in
  AtTime (add_days (Z.to_nat (t / 1440)) d) ((t mod 1440) / 60) (t mod 60).

Definition reminder_minutes (notification : string) : list Z :=
  if String.eqb notification "10 minutes before" then [10]
  else if String.eqb notification "30 minutes before" then [30]
  else if String.eqb notification "1 hour before" then [60]
  else if String.eqb notification "1 day before" then [1440]
  else [].

(** The variable [total_minutes] after the form: it is set for a timed
    event only, and only read for one. *)
Definition form_minutes (f : Form) : Result Z :=
  if all_day f then Ok 0 else total_minutes f.

Definition create_view (service : Service) (f : Form) : M unit :=
  exec render (Title "Create New Event") ;;
  do total_minutes <- lift (form_minutes f) ;;
  if submit_button f then
    if String.eqb (event_title f) "" then
      render (Error "Please enter an event title")
    else
      let when_ :=
        if all_day f
        then (OnDate (event_date f), OnDate (next_day (event_date f)))
        else (AtTime (event_date f) (event_time f).1 (event_time f).2,
              plus_minutes (event_date f) (event_time f).1 (event_time f).2
                           total_minutes) in
      let reminders := concat (reminder_minutes <$> notifications f) in
      do color <- lift (of_option KeyError (colors !! event_color f)) ;;
      let event := {| b_summary := event_title f;
                      b_location := event_location f;
                      b_description := event_description f;
                      b_start := when_.1;
                      b_end := when_.2;
                      b_colorId := color;
                      b_reminders := reminders |} in
      try_except
        (do created_event <- remote (EventsInsert event)
                               (events_insert service event) ;;
         exec render (Success "Event created successfully!") ;;
         render (CreatedDetails event created_event))
        (λ e, render (ErrorExn "Failed to create event: " e))
  else ret tt.

(** *** Activity analytics *)

(** The analysis of the timed events, after the loop that collects them. *)
Definition duration_analysis (timed_events : list Analytics.Timed) : M unit :=
  match timed_events with
  | _ :: _ =>
      exec render (DurationChart (Analytics.category_counts timed_events)) ;;
      render (MetricMinutes "Average Event Duration"
                (Analytics.avg_duration timed_events))
  | [] => render (Info "No timed events found for duration analysis.")
  end.

(** What the view does with the events it fetched. *)
Definition analyse (events : list Event) (analytics_start analytics_end : Date)
  : M unit :=
  match events with
  | [] => render (Info "No events found for the selected period.")
  | _ =>
      exec render (MetricCount "Total Events" (Z.of_nat (length events))) ;;
      exec render (Subheader "Calendar Activity Heatmap") ;;
      exec render (Markdown "This heatmap shows your calendar activity pattern. Darker colors indicate more events scheduled on that day.") ;;
      do heatmap <- lift (Heatmap.calendar_df events analytics_start analytics_end) ;;
      exec render (HeatmapChart heatmap) ;;
      exec render (Subheader "Event Distribution by Day of Week") ;;
      do day_counts <- lift (Analytics.day_counts events) ;;
      do days_df <- lift (Analytics.days_df day_counts) ;;
      exec render (DayChart days_df) ;;
      exec render (Subheader "Event Duration Analysis") ;;
      do timed_events <- lift (Analytics.timed_events events) ;;
      duration_analysis timed_events
  end.

Definition analytics_view (service : Service)
    (analytics_start analytics_end : Date) : M unit :=
  exec render (Title "Calendar Activity Analytics") ;;
  exec render (Subheader "Select Date Range") ;;
  if date_leb analytics_start analytics_end then
    do events_result <- remote (EventsList analytics_start analytics_end 1000)
                       (events_list service analytics_start analytics_end 1000) ;;
    analyse (get_or events_result []) analytics_start analytics_end
  else render (Error "End date must be after start date").

(** *** One run of the script for a connected session *)

Inductive View : Type :=
| Upcoming_ (start_date end_date : Date) (max_events : Z)
| Create (f : Form)
| Analytics_ (analytics_start analytics_end : Date).

Definition run_view (service : Service) (v : View) : World * Result unit :=
  (match v with
   | Upcoming_ s e n => upcoming_view service s e n
   | Create f => create_view service f
   | Analytics_ s e => analytics_view service s e
   end) (mkWorld [] []).

End Page.

(** * Vocabulary of the properties *)


Import Analytics Upcoming Heatmap Page.

Local Open Scope string_scope.
Local Open Scope list_scope.
Local Open Scope Z_scope.

(** ** Timed events and their durations *)

(** An event has both time stamps. *)
Definition has_both (e : Event) : bool :=
  bool_decide (is_Some (dateTime (start e))) &&
  bool_decide (is_Some (dateTime (end_ e))).

(** The two time stamps of [e] are [a] and [b], and [b - a] is [delta]
    microseconds. *)
Definition stamps (e : Event) (a b : DateTime) (delta : Z) : Prop :=
  ∃ s t, dateTime (start e) = Some s ∧ dateTime (end_ e) = Some t ∧
         iso s = Ok a ∧ iso t = Ok b ∧ sub_datetime b a = Ok delta.

(** The time stamps of a timed event are well formed and comparable. *)
Definition well_timed (e : Event) : Prop :=
  has_both e = true -> ∃ a b delta, stamps e a b delta.

(** End minus start in minutes, for an event with two good time stamps. *)
Definition minutes_between (e : Event) : Q :=
  match dateTime (start e), dateTime (end_ e) with
  | Some s, Some t =>
      match iso s, iso t with
      | Ok a, Ok b =>
          match sub_datetime b a with
          | Ok delta => minutes_of_micros delta
          | Raise _ => 0
          end
      | _, _ => 0
      end
  | _, _ => 0
  end.

Definition timed_row (e : Event) : Timed :=
  {| t_summary := get_or (summary e) "Untitled";
     duration_minutes := minutes_between e |}.

(** The five ranges. *)
Definition in_bucket (label : string) (m : Q) : Prop :=
  (label = "0-15 minutes" ∧ m <= 15)%Q ∨
  (label = "16-30 minutes" ∧ 15 < m ∧ m <= 30)%Q ∨
  (label = "31-60 minutes" ∧ 30 < m ∧ m <= 60)%Q ∨
  (label = "1-2 hours" ∧ 60 < m ∧ m <= 120)%Q ∨
  (label = "2+ hours" ∧ 120 < m)%Q.

Definition Zsum (l : list Z) : Z := foldr Z.add 0%Z l.

(** ** The example of two meetings *)

(** The start and end time stamps of [e] read as [a] and [b]. *)
Definition starts_ends (e : Event) (a b : DateTime) : Prop :=
  ∃ s t, dateTime (start e) = Some s ∧ dateTime (end_ e) = Some t ∧
         iso s = Ok a ∧ iso t = Ok b.

(** The count shown for a label: that of its row, nothing without a row. *)
Definition bucket_count (label : string) (rows : list (string * Z)) : Z :=
  match list_find (λ row, row.1 = label) rows with
  | Some (_, row) => row.2
  | None => 0
  end.

Definition timed_event (s t : string) : Event :=
  {| start := mkTimeSpec (Some s) None;
     end_ := mkTimeSpec (Some t) None;
     summary := Some "Meeting";
     description := None; location := None; colorId := None |}.

Definition all_day_event (s t : string) : Event :=
  {| start := mkTimeSpec None (Some s);
     end_ := mkTimeSpec None (Some t);
     summary := Some "Holiday";
     description := None; location := None; colorId := None |}.

Definition two_meetings : list Event :=
  [timed_event "2024-01-15T09:00:00Z" "2024-01-15T09:30:00Z";
   timed_event "2024-01-15T10:00:00Z" "2024-01-15T11:00:00Z"].

(** C2, as the specification words it: one event in "16-30 minutes", none
    in "31-60 minutes", one in "1-2 hours", average 45. *)
Definition example_as_specified : Prop :=
  ∃ te,
    timed_events two_meetings = Ok te ∧
    bucket_count "16-30 minutes" (category_counts te) = 1 ∧
    bucket_count "31-60 minutes" (category_counts te) = 0 ∧
    bucket_count "1-2 hours" (category_counts te) = 1 ∧
    (avg_duration te == 45)%Q.

(** ** End minus start *)

(** Microseconds of the time of day. *)
Definition clock_micros (t : DateTime) : Z :=
  ((hour t * 60 + minute t) * 60 + second t) * 1000000 + microsecond t.

(** The UTC offset of a time stamp in microseconds; a naive one has none. *)
Definition offset_micros (t : DateTime) : Z := default 0 (utcoffset t).

(** The date [d2] is [n] days after [d1] (before it, for a negative [n]),
    counted one day at a time. *)
Definition days_apart (d1 d2 : Date) (n : Z) : Prop :=
  (0 <= n ∧ add_days (Z.to_nat n) d1 = d2) ∨
  (n < 0 ∧ add_days (Z.to_nat (- n)) d2 = d1).

(** Microseconds from the instant of [a] to the instant of [b], the date of
    [b] being [n] days after that of [a]. *)
Definition elapsed_micros (a b : DateTime) (n : Z) : Z :=
  n * 86400000000 + (clock_micros b - clock_micros a)
  - (offset_micros b - offset_micros a).

(** The event lasts [m] minutes: its end minus its start. *)
Definition lasts (e : Event) (m : Q) : Prop :=
  ∃ a b n, starts_ends e a b ∧
           (utcoffset a = None <-> utcoffset b = None) ∧
           days_apart (dt_date a) (dt_date b) n ∧
           m = (elapsed_micros a b n # 60000000).

(** ** Weekday labels *)

(** The start marker of the event can be read. *)
Definition well_started (e : Event) : Prop :=
  ∃ t, parse_start (start_marker e) = Ok t.

(** The weekday label of an event. *)
Definition weekday_label (e : Event) : option string :=
  match parse_start (start_marker e) with
  | Ok t => Some (strftime_A t.1)
  | Raise _ => None
  end.

(** The events with the label [day]. *)
Definition on_day (day : string) (events : list Event) : list Event :=
  filter (λ e, weekday_label e = Some day) events.

(** The state of the weekday loop after the events [done_]. *)
Definition day_counts_after (done_ : list Event) (dc : gmap string Z) : Prop :=
  ∀ day, dc !! day =
         if bool_decide (day ∈ days_order)
         then Some (Z.of_nat (length (on_day day done_)))
         else None.

(** ** Date buckets *)

(** The date an event is filed under. *)
Definition event_date_of (e : Event) : option Date :=
  match date_and_time e with
  | Ok dt => Some dt.1
  | Raise _ => None
  end.

(** The display record of an event. *)
Definition card (e : Event) : Display :=
  match date_and_time e with
  | Ok dt => display_of e dt.2
  | Raise _ => display_of e ""
  end.

(** The events filed under [d], in the order of the input. *)
Definition bucket_events (d : Date) (events : list Event) : list Event :=
  filter (λ e, event_date_of e = Some d) events.

(** The state of the grouping loop after the events [done_]. *)
Definition grouped_after (done_ : list Event) (m : gmap Date (list Display))
  : Prop :=
  ∀ d, m !! d = match bucket_events d done_ with
                | [] => None
                | es => Some (card <$> es)
                end.

(** The instant at which an event starts, in microseconds: that of the
    time stamp, in UTC when it has an offset; midnight for a date. *)
Definition start_instant (e : Event) : option Z :=
  match parse_start (start_marker e) with
  | Ok t => Some (match utcoffset t.1 with
                  | Some off => utc_micros t.1 off
                  | None => wall_micros t.1
                  end)
  | Raise _ => None
  end.

(** [a] does not start after [b]. *)
Definition chronological (a b : Event) : Prop :=
  match start_instant a, start_instant b with
  | Some x, Some y => x <= y
  | _, _ => False
  end.

(** ** Days of the heatmap *)

(** Month and day of a date are in range. *)
Definition valid_md (d : Date) : Prop :=
  1 <= month d <= 12 ∧ 1 <= day d <= days_in_month (year d) (month d).

(** The date under which the heatmap counts an event. *)
Definition heat_date (e : Event) : option Date :=
  match parse_start (start_marker e) with
  | Ok t => Some (dt_date t.1)
  | Raise _ => None
  end.

(** The events counted on the day [d]. *)
Definition events_on (d : Date) (events : list Event) : list Event :=
  filter (λ e, heat_date e = Some d) events.

(** The date of the event is one of [days]. *)
Definition falls_within (days : list Date) (e : Event) : Prop :=
  match heat_date e with
  | Some d => d ∈ days
  | None => False
  end.

#[global] Instance falls_within_dec (days : list Date) (e : Event) :
  Decision (falls_within days e).
Proof. unfold falls_within. destruct (heat_date e); apply _. Defined.

(** The events whose date is one of [days]. *)
Definition events_within (days : list Date) (events : list Event) : list Event :=
  filter (falls_within days) events.

Definition bump (x : Date) (row : Date * Z) : Date * Z :=
  if decide (row.1 = x) then (row.1, row.2 + 1) else row.

(** The rows of the frame after the events [done_]. *)
Definition rows_after (days : list Date) (done_ : list Event) : list (Date * Z) :=
  (λ d, (d, Z.of_nat (length (events_on d done_)))) <$> days.

(** The date of the event is from [start_date] to [end_date]. *)
Definition in_range (start_date end_date : Date) (e : Event) : bool :=
  match heat_date e with
  | Some d => date_leb start_date d && date_leb d end_date
  | None => false
  end.

(** ** Widgets of the analytics *)

(** What [duration_analysis] puts on the screen. *)
Definition duration_widgets (te : list Timed) : list Widget :=
  match te with
  | [] => [Info "No timed events found for duration analysis."]
  | _ => [DurationChart (category_counts te);
          MetricMinutes "Average Event Duration" (avg_duration te)]
  end.

(** What [analyse] puts on the screen for events that can be read. *)
Definition analysis_widgets (events : list Event)
    (analytics_start analytics_end : Date) : list Widget :=
  match events with
  | [] => [Info "No events found for the selected period."]
  | _ =>
      [MetricCount "Total Events" (Z.of_nat (length events));
       Subheader "Calendar Activity Heatmap";
       Markdown "This heatmap shows your calendar activity pattern. Darker colors indicate more events scheduled on that day.";
       HeatmapChart (rows_after (date_range analytics_start analytics_end) events);
       Subheader "Event Distribution by Day of Week";
       DayChart ((λ day, (day, Z.of_nat (length (on_day day events))))
                   <$> days_order);
       Subheader "Event Duration Analysis"]
      ++ duration_widgets
           (timed_row <$> filter (λ e, has_both e = true) events)
  end.

(** ** Remote calls *)

(** A computation that makes no remote call. *)
Definition quiet {A} (m : M A) : Prop := ∀ w, calls (m w).1 = calls w.

(** The event sent by the creation view for a form that can be sent. *)
Definition body_of (f : Form) (n : Z) (color : string) : EventBody :=
  {| b_summary := event_title f;
     b_location := event_location f;
     b_description := event_description f;
     b_start := if all_day f then OnDate (event_date f)
                else AtTime (event_date f) (event_time f).1 (event_time f).2;
     b_end := if all_day f then OnDate (next_day (event_date f))
              else plus_minutes (event_date f) (event_time f).1
                                (event_time f).2 n;
     b_colorId := color;
     b_reminders := concat (reminder_minutes <$> notifications f) |}.

Definition failing_service : Service :=
  {| events_list := λ _ _ _, Raise (RemoteError "connection reset");
     events_insert := λ _, Raise (RemoteError "connection reset") |}.

(** ** A sample of fetched events *)

Definition sample_events : list Event :=
  two_meetings ++ [all_day_event "2024-01-17" "2024-01-18"].

(** ** Forms of the creation view *)

(** A form as the creation view shows it first: a one-hour meeting at
    09:00 with the default reminder. *)
Definition sample_form (title : string) : Form :=
  {| event_title := title;
     event_date := mkDate 2024 1 15;
     all_day := false;
     event_time := (9, 0);
     duration_choice := "1 hour";
     duration_hours := 1;
     duration_mins := 0;
     event_description := "";
     event_location := "";
     event_color := "Default";
     notifications := ["10 minutes before"];
     submit_button := true |}.

(** ** Rows of the duration chart *)

(** The number of occurrences of [v] in a column. *)
Definition occurrences (v : string) (col : list string) : Z :=
  Z.of_nat (length (filter (λ x, x = v) col)).

(** The number of timed rows in the bucket [label]. *)
Definition bucket_size (label : string) (te : list Timed) : Z :=
  Z.of_nat (length (filter
    (λ r, categorize_duration (duration_minutes r) = label) te)).

(** ** The screen of the upcoming view *)

(** The widgets of one date: its header and the cards of its events. *)
Definition date_widgets (events : list Event) (d : Date) : list Widget :=
  DateHeader d :: (EventCard <$> (card <$> bucket_events d events)).

(** A service that answers every list request with the sample and accepts
    every insert. *)
Definition sample_service : Service :=
  {| events_list := λ _ _ _, Ok (Some sample_events);
     events_insert := λ _, Ok (Some "https://calendar.example/event") |}.

(** ** Authentication and the session *)

Module Auth.

(** The credentials object, as far as the code looks at it: its [valid] and
    [expired] properties, its refresh token, and the access token that
    tells one state of the object from another. *)
Record Creds : Type := mkCreds {
  access_token : string;
  valid : bool;
  expired : bool;
  refresh_token : option string
}.

(** The identity provider and the client library: what [creds.refresh]
    makes of the credentials, what the login flow in the browser
    ([from_client_secrets_file] and [run_local_server]) returns, and what
    [build] returns for given credentials. *)
Record Provider : Type := mkProvider {
  refresh : Creds -> Result Creds;
  login : Result Creds;
  build : Creds -> Result Service
}.

(** [get_calendar_service], on the content of the file [token.pickle]
    ([None] when the file does not exist): the content of the file
    afterwards, and the service or the exception.  Credentials that are
    valid are used as they are; credentials that are expired and have a
    refresh token are refreshed; in every other case the login flow runs.
    New credentials are written to the file before the service is built. *)
Definition get_calendar_service (idp : Provider) (token_pickle : option Creds)
  : option Creds * Result Service :=
  let obtain (fresh : Result Creds) :=
    match fresh with
    | Ok c => (Some c, build idp c)
    | Raise e => (token_pickle, Raise e)
    end in
  match token_pickle with
  | Some creds =>
      if valid creds then (token_pickle, build idp creds)
      else if expired creds && truthy (refresh_token creds)
           then obtain (refresh idp creds)
           else obtain (login idp)
  | None => obtain (login idp)
  end.

(** [st.session_state]. *)
Record Session : Type := mkSession {
  service : option Service;
  view : string
}.

(** The state after a click on "Connect to Google Calendar": the service
    is stored when [get_calendar_service] returns, and the session is left
    as it is when it raises. *)
Definition connect (idp : Provider) (st : option Creds * Session)
  : option Creds * Session :=
  match get_calendar_service idp st.1 with
  | (file, Ok svc) => (file, mkSession (Some svc) (view st.2))
  | (file, Raise _) => (file, st.2)
  end.

(** The state after a click on "Logout": the file is removed when it
    exists and the service is forgotten. *)
Definition logout (st : option Creds * Session) : option Creds * Session :=
  (None, mkSession None (view st.2)).

(** The state after a click on a navigation button. *)
Definition navigate (key : string) (st : option Creds * Session)
  : option Creds * Session :=
  (st.1, mkSession (service st.2) key).

End Auth.

(** A provider that refreshes every token and has no browser for the login
    flow, and one that can do neither. *)
Definition refreshing_provider : Auth.Provider :=
  Auth.mkProvider
    (λ c, Ok (Auth.mkCreds "t2" true false (Auth.refresh_token c)))
    (Raise (RemoteError "no browser"))
    (λ _, Ok sample_service).

Definition failing_provider : Auth.Provider :=
  Auth.mkProvider (λ _, Raise (RemoteError "revoked"))
                  (Raise (RemoteError "no browser"))
                  (λ _, Ok sample_service).

(** ** What the creation view sends *)

Module Format.

Definition four_digits (n : Z) : string :=
  String (digit_char (n / 1000))
    (String (digit_char (n / 100 mod 10)) (two_digits (n mod 100))).

Definition six_digits (n : Z) : string :=
  (two_digits (n / 10000)%Z ++ two_digits (n / 100 mod 100)%Z
   ++ two_digits (n mod 100)%Z)%string.

(** [d.strftime('%Y-%m-%d')], for the years from 1000 on, which take four
    digits. *)
Definition strftime_Ymd (d : Date) : string :=
  (four_digits (year d) ++ "-" ++ two_digits (month d) ++ "-"
   ++ two_digits (day d))%string.

(** The time of day of [isoformat]: the microseconds are written when they
    are not zero. *)
Definition format_time (h m s us : Z) : string :=
  (two_digits h ++ ":" ++ two_digits m ++ ":" ++ two_digits s
   ++ (if (us =? 0)%Z then "" else "." ++ six_digits us))%string.

(** The UTC offset of [isoformat], from microseconds east of UTC. *)
Definition format_offset (off : Z) : string :=
  let a := Z.abs off in
  let s := a / 1000000 in
  ((if (off <? 0)%Z then "-" else "+")
   ++ two_digits (s / 3600)%Z ++ ":" ++ two_digits (s / 60 mod 60)%Z
   ++ (if ((s mod 60 =? 0) && (a mod 1000000 =? 0))%Z then ""
       else ":" ++ two_digits (s mod 60)%Z
            ++ (if (a mod 1000000 =? 0)%Z then ""
                else "." ++ six_digits (a mod 1000000)%Z)))%string.

(** [t.isoformat()]. *)
Definition isoformat (t : DateTime) : string :=
  (four_digits (year (dt_date t)) ++ "-" ++ two_digits (month (dt_date t))
   ++ "-" ++ two_digits (day (dt_date t)) ++ "T"
   ++ format_time (hour t) (minute t) (second t) (microsecond t)
   ++ match utcoffset t with
      | Some off => format_offset off
      | None => ""
      end)%string.

(** The [start] or [end] object of the event sent: a date for an all-day
    event, the [isoformat] of the naive date and time otherwise (the
    ['timeZone': 'UTC'] entry is left out). *)
Definition when_payload (w : When) : TimeSpec :=
  match w with
  | OnDate d => {| dateTime := None; date := Some (strftime_Ymd d) |}
  | AtTime d h m =>
      {| dateTime := Some (isoformat (mkDateTime d h m 0 0 None));
         date := None |}
  end.

End Format.

(** The event of the body [b], as a service that stores the body as it is
    would list it. *)
Definition stored (b : EventBody) : Event :=
  {| start := Format.when_payload (b_start b);
     end_ := Format.when_payload (b_end b);
     summary := Some (b_summary b);
     description := Some (b_description b);
     location := Some (b_location b);
     colorId := Some (b_colorId b) |}.

(** The date, the date and time, and the time label that a start stands
    for, and the starts for which the formats above are the ones of
    Python: a date of the calendar, from the year 1000 on for [strftime],
    and a time of day. *)
Definition when_datetime (w : When) : DateTime :=
  match w with
  | OnDate d => mkDateTime d 0 0 0 0 None
  | AtTime d h m => mkDateTime d h m 0 0 None
  end.

Definition when_label (w : When) : string :=
  match w with
  | OnDate _ => "All day"
  | AtTime _ h m => (two_digits h ++ ":" ++ two_digits m)%string
  end.

Definition when_timed (w : When) : bool :=
  match w with
  | OnDate _ => false
  | AtTime _ _ _ => true
  end.

Definition when_valid (w : When) : Prop :=
  match w with
  | OnDate d => valid_date d = true ∧ 1000 <= year d
  | AtTime d h m => valid_date d = true ∧ 0 <= h < 24 ∧ 0 <= m < 60
  end.

(** A form for a one-hour meeting that starts at 23:30 on the last day of
    the year. *)
Definition late_form : Form :=
  {| event_title := "Fireworks";
     event_date := mkDate 2024 12 31;
     all_day := false;
     event_time := (23, 30);
     duration_choice := "1 hour";
     duration_hours := 1;
     duration_mins := 0;
     event_description := "";
     event_location := "";
     event_color := "Tomato";
     notifications := ["1 hour before"; "1 day before"];
     submit_button := true |}.

(** * Properties *)

(** ** Duration analysis *)

Lemma iso_nonempty (s : string) (a : DateTime) : iso s = Ok a -> truthy (Some s) = true.
Proof. destruct s; [discriminate|done]. Qed.

Lemma stamps_minutes (e : Event) (a b : DateTime) (delta : Z) :
  stamps e a b delta -> minutes_between e = minutes_of_micros delta.
Proof.
  intros (s & t & Hs & Ht & Ha & Hb & Hd).
  unfold minutes_between. by rewrite Hs, Ht, Ha, Hb, Hd.
Qed.

Lemma add_timed_timed (acc : list Timed) (e : Event) :
  has_both e = true -> well_timed e ->
  add_timed acc e = Ok (acc ++ [timed_row e]).
Proof.
  intros Hb Hw. destruct (Hw Hb) as (a & b & delta & Hst).
  pose proof (stamps_minutes _ _ _ _ Hst) as Hm.
  destruct Hst as (s & t & Hs & Ht & Ha & Hb' & Hd).
  unfold add_timed, timed_row. rewrite Hm, Hs, Ht.
  rewrite (iso_nonempty _ _ Ha), (iso_nonempty _ _ Hb'). simpl.
  by rewrite Ha, Hb'; simpl; rewrite Hd.
Qed.

Lemma add_timed_untimed (acc : list Timed) (e : Event) :
  has_both e = false -> add_timed acc e = Ok acc.
Proof.
  unfold has_both, add_timed. intros H.
  destruct (dateTime (start e)) as [s|], (dateTime (end_ e)) as [t|]; simpl;
    try done.
  by destruct s.
Qed.

Lemma timed_events_from (events : list Event) (acc : list Timed) :
  Forall well_timed events ->
  for_each add_timed events acc =
  Ok (acc ++ (timed_row <$> filter (λ e, has_both e = true) events)).
Proof.
  intros Hall. revert acc.
  induction Hall as [|e events Hw _ IH]; intros acc; simpl.
  - by rewrite app_nil_r.
  - destruct (has_both e) eqn:Hb.
    + rewrite add_timed_timed by done. simpl. rewrite IH.
      rewrite filter_cons_True by done. by rewrite fmap_cons, <- app_assoc.
    + rewrite add_timed_untimed by done. simpl. rewrite IH.
      by rewrite filter_cons_False by (by rewrite Hb).
Qed.

Lemma timed_events_spec (events : list Event) :
  Forall well_timed events ->
  timed_events events = Ok (timed_row <$> filter (λ e, has_both e = true) events).
Proof. intros H. unfold timed_events. by rewrite timed_events_from. Qed.

Lemma categorize_in_bucket (m : Q) (label : string) :
  in_bucket label m <-> categorize_duration m = label.
Proof.
  unfold in_bucket, categorize_duration.
  destruct (Qle_bool m 15) eqn:H15; [|destruct (Qle_bool m 30) eqn:H30;
    [|destruct (Qle_bool m 60) eqn:H60; [|destruct (Qle_bool m 120) eqn:H120]]];
  repeat match goal with
         | H : Qle_bool _ _ = true |- _ => apply Qle_bool_iff in H
         | H : Qle_bool _ _ = false |- _ =>
             apply not_true_iff_false in H; rewrite Qle_bool_iff in H;
             apply Qnot_le_lt in H
         end;
  (split; [intros [[-> ?]|[[-> ?]|[[-> ?]|[[-> ?]|[-> ?]]]]]; try done; lra
          | intros <-; intuition lra]).
Qed.

(** ** Counting rows *)

Lemma insert_by_perm {A} (lt : A -> A -> bool) (x : A) (l : list A) :
  insert_by lt x l ≡ₚ x :: l.
Proof.
  induction l as [|y l IH]; simpl; [done|].
  destruct (lt x y); [done|]. rewrite IH. apply Permutation_swap.
Qed.

Lemma sort_with_perm {A} (lt : A -> A -> bool) (l : list A) :
  sort_with lt l ≡ₚ l.
Proof.
  unfold sort_with. rewrite <- (reverse_Permutation l) at 2.
  induction (reverse l) as [|x r IH]; simpl; [done|].
  by rewrite insert_by_perm, IH.
Qed.

Lemma Zsum_perm (l1 l2 : list Z) : l1 ≡ₚ l2 -> Zsum l1 = Zsum l2.
Proof. induction 1; simpl; lia. Qed.

Lemma Zsum_app (l1 l2 : list Z) : Zsum (l1 ++ l2) = Zsum l1 + Zsum l2.
Proof. induction l1; simpl; lia. Qed.

Lemma tally_add_sum (v : string) (t : list (string * Z)) :
  Zsum (tally_add v t).*2 = Zsum t.*2 + 1.
Proof.
  induction t as [|[w n] t IH]; csimpl; [done|].
  destruct (String.eqb w v); csimpl; lia.
Qed.

Lemma tally_sum (col : list string) :
  Zsum (tally col).*2 = Z.of_nat (length col).
Proof.
  unfold tally.
  assert (G : ∀ t, Zsum (foldl (λ t v, tally_add v t) t col).*2
                   = Zsum t.*2 + Z.of_nat (length col)).
  { induction col as [|v col IH]; intros t; simpl; [lia|].
    rewrite IH, tally_add_sum. lia. }
  by rewrite G.
Qed.

Lemma category_counts_sum (te : list Timed) :
  Zsum (category_counts te).*2 = Z.of_nat (length te).
Proof.
  unfold category_counts, value_counts, sort_by.
  rewrite (Zsum_perm _ (tally ((λ r, categorize_duration (duration_minutes r)) <$> te)).*2).
  - by rewrite tally_sum, length_fmap.
  - apply fmap_Permutation. by rewrite !sort_with_perm.
Qed.

Lemma filter_length_lt {A} (P : A -> Prop) `{!∀ x, Decision (P x)}
    (l : list A) (x : A) :
  x ∈ l -> ¬ P x -> (length (filter P l) < length l)%nat.
Proof.
  intros Hx Hn. induction l as [|y l IH]; [by apply elem_of_nil in Hx|].
  pose proof (length_filter P l) as Hle.
  apply elem_of_cons in Hx as [<-|Hx].
  - rewrite filter_cons_False by done. simpl. lia.
  - specialize (IH Hx). destruct (decide (P y)).
    + rewrite filter_cons_True by done. simpl. lia.
    + rewrite filter_cons_False by done. simpl. lia.
Qed.

(** ** The duration buckets *)

(** C4. The counts of the duration buckets add up to the number of events
    with both time stamps; an all-day event adds to no bucket. *)
Theorem duration_counts_sum (events : list Event) :
  Forall well_timed events ->
  ∃ te,
    timed_events events = Ok te ∧
    Zsum (category_counts te).*2 =
      Z.of_nat (length (filter (λ e, has_both e = true) events)) ∧
    (∀ e acc, has_both e = false -> add_timed acc e = Ok acc) ∧
    ((∃ e, e ∈ events ∧ has_both e = false) ->
     Zsum (category_counts te).*2 < Z.of_nat (length events)).
Proof.
  intros Hall. eexists. split; [by apply timed_events_spec|].
  rewrite category_counts_sum, length_fmap. split; [done|]. split.
  - intros e acc. apply add_timed_untimed.
  - intros (e & He & Hb). apply inj_lt, (filter_length_lt _ _ e); [done|].
    by rewrite Hb.
Qed.

(** ** The example of two meetings *)

Lemma starts_ends_stamps (e : Event) (a b : DateTime) (delta : Z) :
  starts_ends e a b -> sub_datetime b a = Ok delta -> stamps e a b delta.
Proof. intros (s & t & ? & ? & ? & ?) ?. by exists s, t. Qed.

Lemma starts_ends_has_both (e : Event) (a b : DateTime) :
  starts_ends e a b -> has_both e = true.
Proof. intros (s & t & Hs & Ht & _). unfold has_both. by rewrite Hs, Ht. Qed.

Lemma same_day_delta (d : Date) (off : option Z) (h1 m1 h2 m2 : Z) :
  sub_datetime (mkDateTime d h2 m2 0 0 off) (mkDateTime d h1 m1 0 0 off)
  = Ok (((h2 * 60 + m2) - (h1 * 60 + m1)) * 60000000).
Proof.
  unfold sub_datetime, utc_micros, wall_micros; destruct off; simpl; f_equal; lia.
Qed.

(** C2, as the code has it.  Two meetings on one day, from 09:00 to 09:30
    and from 10:00 to 11:00, give one row "16-30 minutes" and one row
    "31-60 minutes" (sixty minutes are not more than sixty), no row for
    "1-2 hours", and an average of 45 minutes. *)
Theorem example_buckets (e1 e2 : Event) (d : Date) (off : option Z) :
  starts_ends e1 (mkDateTime d 9 0 0 0 off) (mkDateTime d 9 30 0 0 off) ->
  starts_ends e2 (mkDateTime d 10 0 0 0 off) (mkDateTime d 11 0 0 0 off) ->
  ∃ te,
    timed_events [e1; e2] = Ok te ∧
    category_counts te = [("16-30 minutes", 1); ("31-60 minutes", 1)] ∧
    bucket_count "16-30 minutes" (category_counts te) = 1 ∧
    bucket_count "31-60 minutes" (category_counts te) = 1 ∧
    bucket_count "1-2 hours" (category_counts te) = 0 ∧
    (avg_duration te == 45)%Q.
Proof.
  intros H1 H2.
  pose proof (starts_ends_stamps _ _ _ _ H1 (same_day_delta d off 9 0 9 30)) as S1.
  pose proof (starts_ends_stamps _ _ _ _ H2 (same_day_delta d off 10 0 11 0)) as S2.
  pose proof (starts_ends_has_both _ _ _ H1) as B1.
  pose proof (starts_ends_has_both _ _ _ H2) as B2.
  assert (Hall : Forall well_timed [e1; e2]).
  { repeat constructor; intros _; eauto. }
  eexists. split; [by apply timed_events_spec|].
  rewrite !filter_cons_True, filter_nil by done.
  unfold category_counts, avg_duration. rewrite !fmap_cons, !fmap_nil. simpl.
  rewrite (stamps_minutes _ _ _ _ S1), (stamps_minutes _ _ _ _ S2).
  repeat split.
Qed.

(** The example on the 15th of January 2024, with UTC time stamps. *)
Lemma example_buckets_witness :
  starts_ends (timed_event "2024-01-15T09:00:00Z" "2024-01-15T09:30:00Z")
    (mkDateTime (mkDate 2024 1 15) 9 0 0 0 (Some 0))
    (mkDateTime (mkDate 2024 1 15) 9 30 0 0 (Some 0)) ∧
  starts_ends (timed_event "2024-01-15T10:00:00Z" "2024-01-15T11:00:00Z")
    (mkDateTime (mkDate 2024 1 15) 10 0 0 0 (Some 0))
    (mkDateTime (mkDate 2024 1 15) 11 0 0 0 (Some 0)) ∧
  ∃ te,
    timed_events two_meetings = Ok te ∧
    category_counts te = [("16-30 minutes", 1); ("31-60 minutes", 1)] ∧
    bucket_count "16-30 minutes" (category_counts te) = 1 ∧
    bucket_count "31-60 minutes" (category_counts te) = 1 ∧
    bucket_count "1-2 hours" (category_counts te) = 0 ∧
    (avg_duration te == 45)%Q.
Proof.
  assert (H1 : starts_ends (timed_event "2024-01-15T09:00:00Z" "2024-01-15T09:30:00Z")
                 (mkDateTime (mkDate 2024 1 15) 9 0 0 0 (Some 0))
                 (mkDateTime (mkDate 2024 1 15) 9 30 0 0 (Some 0))).
  { eexists _, _. repeat split; vm_compute; reflexivity. }
  assert (H2 : starts_ends (timed_event "2024-01-15T10:00:00Z" "2024-01-15T11:00:00Z")
                 (mkDateTime (mkDate 2024 1 15) 10 0 0 0 (Some 0))
                 (mkDateTime (mkDate 2024 1 15) 11 0 0 0 (Some 0))).
  { eexists _, _. repeat split; vm_compute; reflexivity. }
  split; [exact H1|]. split; [exact H2|].
  exact (example_buckets _ _ _ _ H1 H2).
Defined.

(** C2, as the specification words it, does not hold: on the two meetings
    of the example the bucket "31-60 minutes" has one event, not none. *)
Lemma example_as_specified_fails : ¬ example_as_specified.
Proof.
  intros (te & Hte & _ & H & _).
  vm_compute in Hte. injection Hte as <-. vm_compute in H. discriminate.
Qed.

(** ** The weekday buckets *)

Lemma strftime_A_days_order (t : DateTime) : strftime_A t ∈ days_order.
Proof.
  unfold strftime_A, days_order.
  repeat case_match; rewrite !elem_of_cons; tauto.
Qed.

Lemma days_order_NoDup : NoDup days_order.
Proof. by apply (bool_decide_unpack _). Qed.

Lemma well_started_label (e : Event) :
  well_started e -> ∃ day, day ∈ days_order ∧ weekday_label e = Some day.
Proof.
  intros [t Ht]. exists (strftime_A t.1).
  split; [apply strftime_A_days_order|]. unfold weekday_label. by rewrite Ht.
Qed.

Lemma day_counts_init_after : day_counts_after [] day_counts_init.
Proof.
  intros day. unfold day_counts_init, days_order. simpl.
  rewrite !lookup_insert, lookup_empty.
  repeat (case_decide; [by subst|]).
  rewrite bool_decide_eq_false_2; [done|].
  rewrite !elem_of_cons, elem_of_nil. intuition congruence.
Qed.

Lemma count_day_after (done_ : list Event) (dc : gmap string Z) (e : Event) :
  day_counts_after done_ dc -> well_started e ->
  ∃ dc', count_day dc e = Ok dc' ∧ day_counts_after (done_ ++ [e]) dc'.
Proof.
  intros Hdc [t Ht]. unfold count_day. rewrite Ht. simpl.
  pose proof (Hdc (strftime_A t.1)) as Hl.
  rewrite bool_decide_eq_true_2 in Hl by apply strftime_A_days_order.
  rewrite Hl. simpl. eexists. split; [done|].
  intros day. unfold on_day. rewrite filter_app, length_app.
  destruct (decide (strftime_A t.1 = day)) as [<-|Hne].
  - rewrite lookup_insert_eq.
    rewrite bool_decide_eq_true_2 by apply strftime_A_days_order.
    rewrite (filter_cons_True _ e) by (unfold weekday_label; by rewrite Ht).
    simpl. f_equal. unfold on_day. lia.
  - rewrite lookup_insert_ne by done. rewrite Hdc.
    rewrite (filter_cons_False _ e)
      by (unfold weekday_label; rewrite Ht; congruence).
    simpl. by rewrite Nat.add_0_r.
Qed.

Lemma day_counts_from (events done_ : list Event) (dc : gmap string Z) :
  day_counts_after done_ dc -> Forall well_started events ->
  ∃ dc', for_each count_day events dc = Ok dc' ∧
         day_counts_after (done_ ++ events) dc'.
Proof.
  intros Hdc Hall. revert done_ dc Hdc.
  induction Hall as [|e events He _ IH]; intros done_ dc Hdc; simpl.
  - exists dc. by rewrite app_nil_r.
  - destruct (count_day_after _ _ _ Hdc He) as (dc1 & -> & Hdc1). simpl.
    destruct (IH _ _ Hdc1) as (dc' & ? & ?). exists dc'.
    by rewrite cons_middle, app_assoc.
Qed.

(** Over a list of distinct keys, exactly one is the given member. *)
Lemma Zsum_indicator_0 {K} `{EqDecision K} (ks : list K) (k : K) :
  k ∉ ks -> Zsum ((λ x, if decide (k = x) then 1 else 0) <$> ks) = 0.
Proof.
  induction ks as [|y ks IH]; [done|]. csimpl. intros Hk.
  apply not_elem_of_cons in Hk as [? ?].
  rewrite decide_False by done. by rewrite IH.
Qed.

Lemma Zsum_indicator {K} `{EqDecision K} (ks : list K) (k : K) :
  NoDup ks -> k ∈ ks ->
  Zsum ((λ x, if decide (k = x) then 1 else 0) <$> ks) = 1.
Proof.
  induction 1 as [|x ks Hx Hnd IH]; intros Hk; [by apply elem_of_nil in Hk|].
  csimpl. destruct (decide (k = x)) as [->|Hne].
  - by rewrite Zsum_indicator_0.
  - apply elem_of_cons in Hk as [?|Hk]; [done|]. by rewrite IH.
Qed.

Lemma on_day_total (events : list Event) :
  Forall well_started events ->
  Zsum ((λ day, Z.of_nat (length (on_day day events))) <$> days_order)
  = Z.of_nat (length events).
Proof.
  induction 1 as [|e events He _ IH]; [done|].
  destruct (well_started_label e He) as (k & Hk & Hlab).
  pose proof (Zsum_indicator days_order k days_order_NoDup Hk) as H1.
  transitivity (Zsum ((λ x, if decide (k = x) then 1 else 0) <$> days_order)
                + Zsum ((λ day, Z.of_nat (length (on_day day events))) <$> days_order));
    [|rewrite H1, IH; simpl; lia].
  clear H1 IH Hk. unfold on_day.
  induction days_order as [|day ds IHd]; [done|]. csimpl. rewrite IHd.
  destruct (decide (k = day)) as [->|Hne].
  - rewrite filter_cons_True by done. simpl length. lia.
  - rewrite filter_cons_False by congruence. lia.
Qed.

Lemma days_df_after (events : list Event) (dc : gmap string Z) :
  day_counts_after events dc ->
  days_df dc =
  Ok ((λ day, (day, Z.of_nat (length (on_day day events)))) <$> days_order).
Proof.
  intros Hdc. unfold days_df, days_order. simpl.
  by rewrite !Hdc.
Qed.

(** C3. The weekday loop returns on events whose start can be read; every
    event has exactly one of the seven weekday labels; the count of a label
    is the number of events with that label; and the seven counts of the
    chart add up to the number of events. *)
Theorem weekday_buckets (events : list Event) :
  Forall well_started events ->
  ∃ dc rows,
    day_counts events = Ok dc ∧
    days_df dc = Ok rows ∧
    rows.*1 = days_order ∧
    (∀ e, e ∈ events ->
          exists! day, day ∈ days_order ∧ weekday_label e = Some day) ∧
    (∀ day, day ∈ days_order ->
            dc !! day = Some (Z.of_nat (length (on_day day events)))) ∧
    Zsum rows.*2 = Z.of_nat (length events).
Proof.
  intros Hall.
  destruct (day_counts_from events [] _ day_counts_init_after Hall)
    as (dc & Hrun & Hdc).
  simpl in Hdc. exists dc. eexists. split; [exact Hrun|].
  split; [by apply days_df_after|]. split; [|split; [|split]].
  - rewrite <- list_fmap_compose. apply list_fmap_id.
  - intros e He. rewrite Forall_forall in Hall.
    destruct (well_started_label e (Hall e He)) as (day & Hin & Hlab).
    exists day. split; [done|]. intros day' [_ Hlab']. congruence.
  - intros day Hin. by rewrite Hdc, bool_decide_eq_true_2.
  - rewrite <- list_fmap_compose. by apply on_day_total.
Qed.

(** ** The date buckets of the upcoming view *)

Lemma well_started_date_and_time (e : Event) :
  well_started e -> ∃ dt, date_and_time e = Ok dt.
Proof.
  intros [t Ht]. unfold date_and_time. rewrite Ht. simpl.
  destruct t.2; eauto.
Qed.

Lemma group_event_after (done_ : list Event) (m : gmap Date (list Display))
    (e : Event) :
  grouped_after done_ m -> well_started e ->
  ∃ m', group_event m e = Ok m' ∧ grouped_after (done_ ++ [e]) m'.
Proof.
  intros Hm He. destruct (well_started_date_and_time e He) as [[d tl] Hdt].
  unfold group_event. rewrite Hdt. simpl.
  assert (Hcard : card e = display_of e tl) by (unfold card; by rewrite Hdt).
  assert (Hdate : event_date_of e = Some d)
    by (unfold event_date_of; by rewrite Hdt).
  pose proof (Hm d) as Hd.
  set (m1 := match m !! d with Some _ => m | None => <[d:=[]]> m end).
  assert (Hm1 : m1 !! d = Some (card <$> bucket_events d done_)).
  { unfold m1. destruct (m !! d) as [b|] eqn:Hl.
    - rewrite Hl. destruct (bucket_events d done_); [done|]. by rewrite Hd.
    - rewrite lookup_insert_eq. by destruct (bucket_events d done_). }
  rewrite Hm1. simpl. eexists. split; [done|].
  intros d'. unfold bucket_events. rewrite filter_app.
  destruct (decide (d = d')) as [<-|Hne].
  - rewrite lookup_insert_eq, filter_cons_True, filter_nil by done.
    fold (bucket_events d done_). rewrite <- Hcard.
    destruct (bucket_events d done_); [done|]. csimpl. by rewrite fmap_app.
  - rewrite lookup_insert_ne by done.
    rewrite filter_cons_False, filter_nil, app_nil_r by congruence.
    fold (bucket_events d' done_). rewrite <- Hm. unfold m1.
    destruct (m !! d); [done|]. by rewrite lookup_insert_ne.
Qed.

Lemma events_by_date_from (events done_ : list Event)
    (m : gmap Date (list Display)) :
  grouped_after done_ m -> Forall well_started events ->
  ∃ m', for_each group_event events m = Ok m' ∧
        grouped_after (done_ ++ events) m'.
Proof.
  intros Hm Hall. revert done_ m Hm.
  induction Hall as [|e events He _ IH]; intros done_ m Hm; simpl.
  - exists m. by rewrite app_nil_r.
  - destruct (group_event_after _ _ _ Hm He) as (m1 & -> & Hm1). simpl.
    destruct (IH _ _ Hm1) as (m' & ? & ?). exists m'.
    by rewrite cons_middle, app_assoc.
Qed.

(** The grouping loop returns the events of each date, in input order. *)
Lemma events_by_date_spec (events : list Event) :
  Forall well_started events ->
  ∃ m, events_by_date events = Ok m ∧ grouped_after events m.
Proof.
  intros Hall. apply (events_by_date_from events [] ∅); [|done].
  intros d. by rewrite lookup_empty.
Qed.

Lemma grouped_bucket (events : list Event) (m : gmap Date (list Display))
    (d : Date) (bucket : list Display) :
  grouped_after events m -> m !! d = Some bucket ->
  bucket = card <$> bucket_events d events ∧ bucket_events d events ≠ [].
Proof.
  intros Hm Hl. rewrite Hm in Hl.
  destruct (bucket_events d events); [done|]. by injection Hl as <-.
Qed.


Lemma chronological_trans : Transitive chronological.
Proof.
  intros a b c. unfold chronological.
  destruct (start_instant a), (start_instant b), (start_instant c);
    try done; lia.
Defined.

Lemma StronglySorted_filter {A} (R : A -> A -> Prop) (P : A -> Prop)
    `{!∀ x, Decision (P x)} (l : list A) :
  StronglySorted R l -> StronglySorted R (filter P l).
Proof.
  induction 1 as [|x l Hl IH Hx]; [constructor|].
  destruct (decide (P x)).
  - rewrite filter_cons_True by done. constructor; [done|].
    rewrite Forall_forall in Hx |- *. intros y Hy.
    apply Hx. by apply list_elem_of_filter in Hy as [_ ?].
  - by rewrite filter_cons_False.
Qed.

(** C7. When the events come sorted by an order of their starts, the
    grouping keeps that order: every bucket holds the records of a
    subsequence of the input that is sorted.  This holds for any transitive
    order, and so for [chronological], the order of the start instants in
    which the list request returns the events. *)
Theorem bucket_order (R : Event -> Event -> Prop) (events : list Event) :
  Transitive R ->
  Forall well_started events ->
  Sorted R events ->
  ∃ m,
    events_by_date events = Ok m ∧
    ∀ d bucket,
      m !! d = Some bucket ->
      ∃ es, bucket = card <$> es ∧
            es = bucket_events d events ∧
            sublist es events ∧
            StronglySorted R es.
Proof.
  intros HR Hall Hsorted.
  destruct (events_by_date_spec events Hall) as (m & Hrun & Hm).
  exists m. split; [done|]. intros d bucket Hl.
  destruct (grouped_bucket _ _ _ _ Hm Hl) as [-> _].
  eexists. split; [done|]. split; [done|]. split.
  - apply sublist_filter.
  - apply StronglySorted_filter. apply Sorted.Sorted_StronglySorted; [|done].
    intros a b c. apply HR.
Qed.

(** ** The calendar *)

Lemma valid_date_md (d : Date) : valid_date d = true -> valid_md d.
Proof. unfold valid_date, valid_md. lia. Qed.

Lemma days_before_year_succ (y : Z) :
  days_before_year (y + 1) =
  days_before_year y + 365 + (if is_leap y then 1 else 0).
Proof.
  unfold days_before_year, is_leap.
  replace (y + 1 - 1) with y by lia.
  destruct (y mod 4 =? 0) eqn:H4, (y mod 100 =? 0) eqn:H100,
           (y mod 400 =? 0) eqn:H400; simpl;
    Z.div_mod_to_equations; lia.
Qed.

Lemma month_cases (m : Z) :
  1 <= m <= 12 ->
  m = 1 ∨ m = 2 ∨ m = 3 ∨ m = 4 ∨ m = 5 ∨ m = 6 ∨
  m = 7 ∨ m = 8 ∨ m = 9 ∨ m = 10 ∨ m = 11 ∨ m = 12.
Proof. lia. Qed.

Ltac each_month m H :=
  destruct (month_cases m H) as
    [->|[->|[->|[->|[->|[->|[->|[->|[->|[->|[->| ->]]]]]]]]]]].

Lemma days_before_month_succ (y m : Z) :
  1 <= m <= 11 ->
  days_before_month y (m + 1) = days_before_month y m + days_in_month y m.
Proof.
  intros H. assert (H' : 1 <= m <= 12) by lia.
  each_month m H'; try lia;
    unfold days_before_month, days_in_month; destruct (is_leap y); reflexivity.
Qed.

Lemma days_before_month_mono (y m1 m2 : Z) :
  1 <= m1 -> m1 <= m2 -> m2 <= 12 ->
  days_before_month y m1 <= days_before_month y m2.
Proof.
  intros H1 H12 H2.
  assert (Ha : 1 <= m1 <= 12) by lia. assert (Hb : 1 <= m2 <= 12) by lia.
  each_month m1 Ha; each_month m2 Hb; try lia;
    unfold days_before_month; destruct (is_leap y); simpl; lia.
Qed.

Lemma days_in_month_bounds (y m : Z) : 28 <= days_in_month y m <= 31.
Proof.
  unfold days_in_month.
  destruct (m =? 2), (is_leap y),
    ((m =? 4) || (m =? 6) || (m =? 9) || (m =? 11)); lia.
Qed.

Lemma day_of_year_bound (d : Date) :
  valid_md d ->
  1 <= days_before_month (year d) (month d) + day d
    <= 365 + (if is_leap (year d) then 1 else 0).
Proof.
  destruct d as [y m d]. unfold valid_md. simpl. intros [Hm Hd].
  each_month m Hm; revert Hd; unfold days_before_month, days_in_month;
    destruct (is_leap y); simpl; lia.
Qed.

Lemma days_before_year_mono (y1 y2 : Z) :
  y1 <= y2 -> days_before_year y1 <= days_before_year y2.
Proof.
  intros H. unfold days_before_year. Z.div_mod_to_equations. lia.
Qed.

Lemma toordinal_next_day (d : Date) :
  valid_md d -> toordinal (next_day d) = toordinal d + 1.
Proof.
  destruct d as [y m d]. unfold valid_md, next_day, toordinal. simpl.
  intros [Hm Hd]. destruct (d <? days_in_month y m) eqn:Hlt; simpl; [lia|].
  assert (d = days_in_month y m) as -> by lia.
  destruct (m <? 12) eqn:Hm12; simpl.
  - rewrite days_before_month_succ by lia. lia.
  - assert (m = 12) as -> by lia. rewrite days_before_year_succ.
    unfold days_before_month, days_in_month. destruct (is_leap y); simpl; lia.
Qed.

Lemma next_day_valid (d : Date) : valid_md d -> valid_md (next_day d).
Proof.
  destruct d as [y m d]. unfold valid_md, next_day. simpl. intros [Hm Hd].
  destruct (d <? days_in_month y m) eqn:Hlt; simpl; [lia|].
  destruct (m <? 12) eqn:Hm12; simpl.
  - pose proof (days_in_month_bounds y (m + 1)). lia.
  - pose proof (days_in_month_bounds (y + 1) 1). lia.
Qed.

(** [toordinal] is strictly monotone for the order of dates. *)
Lemma toordinal_leb (a b : Date) :
  valid_md a -> valid_md b ->
  date_leb a b = true <-> toordinal a <= toordinal b.
Proof.
  intros Ha Hb.
  pose proof (day_of_year_bound a Ha) as Da.
  pose proof (day_of_year_bound b Hb) as Db.
  destruct a as [ya ma da], b as [yb mb db].
  unfold valid_md, date_leb, toordinal in *. simpl in *.
  destruct (Z.lt_trichotomy ya yb) as [Hy|[->|Hy]].
  - pose proof (days_before_year_succ ya).
    pose proof (days_before_year_mono (ya + 1) yb). split; lia.
  - destruct (Z.lt_trichotomy ma mb) as [Hm|[->|Hm]].
    + pose proof (days_before_month_succ yb ma).
      pose proof (days_before_month_mono yb (ma + 1) mb). split; lia.
    + split; lia.
    + pose proof (days_before_month_succ yb mb).
      pose proof (days_before_month_mono yb (mb + 1) ma). split; lia.
  - pose proof (days_before_year_succ yb).
    pose proof (days_before_year_mono (yb + 1) ya). split; lia.
Qed.

Lemma toordinal_inj (a b : Date) :
  valid_md a -> valid_md b -> toordinal a = toordinal b -> a = b.
Proof.
  intros Ha Hb Heq.
  pose proof (proj2 (toordinal_leb a b Ha Hb)) as H1.
  pose proof (proj2 (toordinal_leb b a Hb Ha)) as H2.
  destruct a as [ya ma da], b as [yb mb db].
  unfold date_leb in *. simpl in *.
  assert (ya = yb ∧ ma = mb ∧ da = db) as (-> & -> & ->) by lia. done.
Qed.

(** ** The heatmap *)

Lemma elem_of_days_from (n : nat) (d x : Date) :
  valid_md d ->
  x ∈ days_from n d <->
  valid_md x ∧ toordinal d <= toordinal x < toordinal d + Z.of_nat n.
Proof.
  revert d. induction n as [|n IH]; intros d Hd; cbn [days_from].
  - rewrite elem_of_nil. lia.
  - rewrite elem_of_cons, (IH _ (next_day_valid d Hd)), toordinal_next_day by done.
    clear IH. split.
    + intros [->|[? ?]]; split; try done; lia.
    + intros [Hx Hr]. destruct (decide (toordinal x = toordinal d)) as [Heq|].
      * left. by apply toordinal_inj.
      * right. split; [done|lia].
Qed.

Lemma days_from_NoDup (n : nat) (d : Date) : valid_md d -> NoDup (days_from n d).
Proof.
  revert d. induction n as [|n IH]; intros d Hd; simpl; [constructor|].
  constructor; [|by apply IH, next_day_valid].
  rewrite (elem_of_days_from _ _ _ (next_day_valid d Hd)), toordinal_next_day by done.
  lia.
Qed.

(** The days of the range are the dates from [start_date] to [end_date]. *)
Lemma elem_of_date_range (start_date end_date x : Date) :
  valid_md start_date -> valid_md end_date -> valid_md x ->
  x ∈ date_range start_date end_date <->
  date_leb start_date x = true ∧ date_leb x end_date = true.
Proof.
  intros Hs He Hx. unfold date_range.
  rewrite elem_of_days_from, !toordinal_leb by done.
  split; [intros [_ ?]|intros ?; split; [done|]]; lia.
Qed.

Lemma date_range_NoDup (start_date end_date : Date) :
  valid_md start_date -> NoDup (date_range start_date end_date).
Proof. apply days_from_NoDup. Qed.

Lemma increment_index_of (x : Date) (df pre : list (Date * Z)) :
  increment (index_of x (length pre) df) (pre ++ df) = pre ++ (bump x <$> df).
Proof.
  revert pre. induction df as [|[d c] df IH]; intros pre; [done|].
  assert (Hnext : increment (index_of x (S (length pre)) df) (pre ++ (d, c) :: df)
                  = pre ++ (d, c) :: (bump x <$> df)).
  { specialize (IH (pre ++ [(d, c)])).
    rewrite length_app, Nat.add_1_r, <- !app_assoc in IH. exact IH. }
  csimpl. unfold bump at 1. simpl. destruct (decide (d = x)) as [->|Hne].
  - unfold increment in *. simpl. rewrite Hnext.
    replace (length pre) with (length pre + 0)%nat at 1 by lia.
    by rewrite alter_app_r.
  - exact Hnext.
Qed.

Lemma count_event_bump (df : list (Date * Z)) (e : Event) (t : DateTime * bool) :
  parse_start (start_marker e) = Ok t ->
  count_event df e = Ok (bump (dt_date t.1) <$> df).
Proof.
  intros Ht. unfold count_event. rewrite Ht. simpl.
  pose proof (increment_index_of (dt_date t.1) df []) as H. simpl in H.
  destruct (index_of (dt_date t.1) 0 df) as [|i idx].
  - simpl. by rewrite <- H.
  - assert ((0 <? Z.of_nat (length (i :: idx))) = true) as ->
      by (apply Z.ltb_lt; cbn [length]; lia).
    by rewrite H.
Qed.

Lemma calendar_df_from (days : list Date) (events done_ : list Event) :
  Forall well_started events ->
  for_each count_event events (rows_after days done_)
  = Ok (rows_after days (done_ ++ events)).
Proof.
  intros Hall. revert done_.
  induction Hall as [|e events [t Ht] _ IH]; intros done_; simpl.
  - by rewrite app_nil_r.
  - rewrite (count_event_bump _ _ _ Ht). simpl.
    replace (bump (dt_date t.1) <$> rows_after days done_)
      with (rows_after days (done_ ++ [e])).
    + rewrite IH. by rewrite <- app_assoc.
    + unfold rows_after. rewrite <- list_fmap_compose.
      apply list_fmap_ext. intros _ d _. simpl. unfold bump, events_on. simpl.
      rewrite filter_app, length_app.
      destruct (decide (d = dt_date t.1)) as [->|Hne].
      * rewrite (filter_cons_True _ e) by (unfold heat_date; by rewrite Ht).
        simpl. f_equal. lia.
      * rewrite (filter_cons_False _ e)
          by (unfold heat_date; rewrite Ht; congruence).
        simpl. by rewrite Nat.add_0_r.
Qed.

Lemma calendar_df_spec (events : list Event) (start_date end_date : Date) :
  Forall well_started events ->
  calendar_df events start_date end_date
  = Ok (rows_after (date_range start_date end_date) events).
Proof.
  intros Hall. unfold calendar_df, calendar_df_init.
  by rewrite <- (calendar_df_from _ events [] Hall).
Qed.

Lemma events_on_total (days : list Date) (events : list Event) :
  NoDup days ->
  Zsum ((λ d, Z.of_nat (length (events_on d events))) <$> days)
  = Z.of_nat (length (events_within days events)).
Proof.
  intros Hnd.
  induction events as [|e events IH]; simpl.
  - clear Hnd. induction days as [|d ds IHd]; [done|]. csimpl in *. by rewrite IHd.
  - set (ind := λ d : Date, if decide (heat_date e = Some d) then 1 else 0).
    transitivity (Zsum (ind <$> days)
                  + Zsum ((λ d, Z.of_nat (length (events_on d events))) <$> days)).
    { clear. unfold events_on. induction days as [|d ds IHd]; [done|]. csimpl.
      rewrite IHd. unfold ind at 2. destruct (decide (heat_date e = Some d)).
      - rewrite filter_cons_True by done. simpl length. lia.
      - rewrite filter_cons_False by done. lia. }
    rewrite IH. unfold events_within.
    destruct (decide (falls_within days e)) as [Hin|Hno].
    + rewrite filter_cons_True by done. simpl length.
      unfold falls_within in Hin. destruct (heat_date e) as [d|] eqn:Hd; [|done].
      assert (Zsum (ind <$> days) = 1) as ->; [|lia].
      rewrite <- (Zsum_indicator days d Hnd Hin). f_equal.
      apply list_fmap_ext. intros _ x _. unfold ind.
      destruct (decide (d = x)) as [->|]; [by rewrite decide_True|].
      rewrite decide_False; [done|congruence].
    + rewrite filter_cons_False by done.
      assert (Zsum (ind <$> days) = 0) as ->; [|lia].
      clear IH. induction days as [|x ds IHd]; [done|]. csimpl.
      apply NoDup_cons in Hnd as [? ?]. rewrite IHd; [|done|].
      * unfold ind. rewrite decide_False; [done|].
        intros Hx. apply Hno. unfold falls_within. rewrite Hx. by left.
      * intros Hin. apply Hno. unfold falls_within in *.
        destruct (heat_date e); [by right|done].
Qed.

Lemma rows_after_total (days : list Date) (events : list Event) :
  NoDup days ->
  Zsum (rows_after days events).*2
  = Z.of_nat (length (events_within days events)).
Proof.
  intros Hnd. unfold rows_after. rewrite <- list_fmap_compose.
  by rewrite <- events_on_total.
Qed.

Lemma fromisoformat_valid (s : string) (t : DateTime) :
  Parse.fromisoformat s = Some t -> valid_date (dt_date t) = true.
Proof.
  unfold Parse.fromisoformat. intros H.
  destruct (Parse.parse_isoformat_date _) as [[[y mo] d]|]; [|done].
  simpl in H.
  destruct (match Parse.drop 11 s with
            | EmptyString => _
            | String _ _ => _
            end) as [[[[[h mi] sec] us] off]|]; [|done].
  simpl in H.
  destruct (valid_date (mkDate y mo d)) eqn:Hv; [|done].
  destruct (Parse.valid_time h mi sec us); [|done].
  by injection H as <-.
Qed.

Lemma strptime_ymd_valid (s : string) (d : Date) :
  Parse.strptime_ymd s = Some d -> valid_date d = true.
Proof.
  unfold Parse.strptime_ymd. intros H.
  repeat (case_match; simplify_option_eq; try done).
  lazymatch goal with H : _ && _ && valid_date _ = true |- _ =>
    by apply andb_prop in H as [_ ?] end.
Qed.

Lemma parse_start_valid (marker : option string) (t : DateTime * bool) :
  parse_start marker = Ok t -> valid_md (dt_date t.1).
Proof.
  unfold parse_start. intros H. apply valid_date_md.
  destruct marker as [s|]; [|done]. destruct (Parse.contains _ s).
  - destruct (Parse.fromisoformat _) as [x|] eqn:Hx; [|done].
    injection H as <-. by apply fromisoformat_valid in Hx.
  - destruct (Parse.strptime_ymd s) as [x|] eqn:Hx; [|done].
    injection H as <-. by apply strptime_ymd_valid in Hx.
Qed.

Lemma heat_date_valid (e : Event) (d : Date) : heat_date e = Some d -> valid_md d.
Proof.
  unfold heat_date. destruct (parse_start _) as [t|] eqn:Ht; [|done].
  intros [= <-]. by apply parse_start_valid in Ht.
Qed.

Lemma falls_within_in_range (start_date end_date : Date) (e : Event) :
  valid_md start_date -> valid_md end_date ->
  falls_within (date_range start_date end_date) e
  <-> in_range start_date end_date e = true.
Proof.
  intros Hs He. unfold falls_within, in_range.
  destruct (heat_date e) as [d|] eqn:Hd; [|done].
  rewrite elem_of_date_range by eauto using heat_date_valid.
  by rewrite andb_true_iff.
Qed.

Lemma bump_outside (x : Date) (rows : list (Date * Z)) :
  x ∉ rows.*1 -> bump x <$> rows = rows.
Proof.
  induction rows as [|[d c] rows IH]; [done|]. csimpl. intros Hx.
  apply not_elem_of_cons in Hx as [? ?]. rewrite IH by done.
  unfold bump. simpl. by rewrite decide_False.
Qed.

(** C10. The frame has one row per day from [start_date] to [end_date];
    the count of a day is the number of events of that date; an event whose
    date is outside the range changes no row; so the counts add up to the
    number of events whose date is in the range, which is less than the
    number of events as soon as one event is outside. *)
Theorem heatmap_counts (events : list Event) (start_date end_date : Date) :
  Forall well_started events ->
  valid_md start_date -> valid_md end_date ->
  ∃ df,
    calendar_df events start_date end_date = Ok df ∧
    df = (λ d, (d, Z.of_nat (length (events_on d events))))
           <$> date_range start_date end_date ∧
    (∀ d, valid_md d ->
          d ∈ date_range start_date end_date <->
          date_leb start_date d = true ∧ date_leb d end_date = true) ∧
    (∀ e rows,
       e ∈ events -> in_range start_date end_date e = false ->
       rows.*1 = date_range start_date end_date ->
       count_event rows e = Ok rows) ∧
    Zsum df.*2 =
      Z.of_nat (length (filter (λ e, in_range start_date end_date e = true)
                               events)) ∧
    ((∃ e, e ∈ events ∧ in_range start_date end_date e = false) ->
     Zsum df.*2 < Z.of_nat (length events)).
Proof.
  intros Hall Hs He. eexists. split; [by apply calendar_df_spec|].
  split; [done|]. split; [|split].
  - intros d Hd. by apply elem_of_date_range.
  - intros e rows Hin Hout Hrows. rewrite Forall_forall in Hall.
    destruct (Hall e Hin) as [t Ht]. rewrite (count_event_bump _ _ _ Ht).
    f_equal. apply bump_outside. rewrite Hrows. intros Hmem.
    assert (Hw : falls_within (date_range start_date end_date) e)
      by (unfold falls_within, heat_date; by rewrite Ht).
    apply falls_within_in_range in Hw; [congruence|done..].
  - assert (Hsum : Zsum (rows_after (date_range start_date end_date) events).*2
                   = Z.of_nat (length (filter
                       (λ e, in_range start_date end_date e = true) events))).
    { rewrite rows_after_total by by apply date_range_NoDup.
      unfold events_within. do 2 f_equal. apply list_filter_iff.
      intros e. by apply falls_within_in_range. }
    split; [exact Hsum|]. rewrite Hsum.
    intros (e & Hin & Hout). apply inj_lt, (filter_length_lt _ _ e); [done|].
    by rewrite Hout.
Qed.

(** ** The duration of a row: end minus start *)

Lemma toordinal_add_days (n : nat) (d : Date) :
  valid_md d ->
  valid_md (add_days n d) ∧ toordinal (add_days n d) = toordinal d + Z.of_nat n.
Proof.
  revert d. induction n as [|n IH]; intros d Hd; cbn [add_days].
  - split; [done|lia].
  - destruct (IH _ (next_day_valid d Hd)) as [Hv Ho]. split; [done|].
    rewrite Ho, toordinal_next_day by done. lia.
Qed.

Lemma days_apart_ordinal (d1 d2 : Date) (n : Z) :
  valid_md d1 -> valid_md d2 ->
  days_apart d1 d2 n <-> n = toordinal d2 - toordinal d1.
Proof.
  intros H1 H2. unfold days_apart. split.
  - intros [[Hn <-]|[Hn <-]].
    + destruct (toordinal_add_days (Z.to_nat n) d1 H1) as [_ ->]. lia.
    + destruct (toordinal_add_days (Z.to_nat (- n)) d2 H2) as [_ ->]. lia.
  - intros ->. destruct (Z.le_gt_cases 0 (toordinal d2 - toordinal d1)) as [Hle|Hlt].
    + left. split; [done|].
      destruct (toordinal_add_days (Z.to_nat (toordinal d2 - toordinal d1)) d1 H1)
        as [Hv Ho].
      apply toordinal_inj; [done..|]. rewrite Ho. lia.
    + right. split; [done|].
      destruct (toordinal_add_days (Z.to_nat (- (toordinal d2 - toordinal d1))) d2 H2)
        as [Hv Ho].
      apply toordinal_inj; [done..|]. rewrite Ho. lia.
Qed.

Lemma iso_valid (s : string) (a : DateTime) : iso s = Ok a -> valid_md (dt_date a).
Proof.
  unfold iso. destruct (Parse.fromisoformat _) as [x|] eqn:Hx; [|done].
  intros [= <-]. by apply valid_date_md, (fromisoformat_valid _ _ Hx).
Qed.

Lemma starts_ends_valid (e : Event) (a b : DateTime) :
  starts_ends e a b -> valid_md (dt_date a) ∧ valid_md (dt_date b).
Proof. intros (s & t & _ & _ & Ha & Hb). eauto using iso_valid. Qed.

Lemma starts_ends_unique (e : Event) (a b a' b' : DateTime) :
  starts_ends e a b -> starts_ends e a' b' -> a = a' ∧ b = b'.
Proof.
  intros (s & t & Hs & Ht & Ha & Hb) (s' & t' & Hs' & Ht' & Ha' & Hb').
  split; congruence.
Qed.

(** What [sub_datetime] computes is the time elapsed from one stamp to the
    other, whether both are naive or both aware. *)
Lemma sub_datetime_elapsed (a b : DateTime) (delta : Z) :
  valid_md (dt_date a) -> valid_md (dt_date b) ->
  sub_datetime b a = Ok delta ->
  (utcoffset a = None <-> utcoffset b = None) ∧
  delta = elapsed_micros a b (toordinal (dt_date b) - toordinal (dt_date a)).
Proof.
  intros Ha Hb. unfold sub_datetime, elapsed_micros, offset_micros, clock_micros,
    utc_micros, wall_micros.
  destruct (utcoffset b) as [ob|], (utcoffset a) as [oa|]; try done;
    intros [= <-]; (split; [done|]); simpl; lia.
Qed.

Lemma stamps_lasts (e : Event) (a b : DateTime) (delta : Z) :
  stamps e a b delta -> lasts e (minutes_of_micros delta).
Proof.
  intros (s & t & Hs & Ht & Ha & Hb & Hd).
  pose proof (iso_valid _ _ Ha) as Hva. pose proof (iso_valid _ _ Hb) as Hvb.
  destruct (sub_datetime_elapsed a b delta Hva Hvb Hd) as [Haw ->].
  exists a, b, (toordinal (dt_date b) - toordinal (dt_date a)).
  split; [by exists s, t|]. split; [done|]. split; [|done].
  by apply days_apart_ordinal.
Qed.

Lemma lasts_unique (e : Event) (m1 m2 : Q) : lasts e m1 -> lasts e m2 -> m1 = m2.
Proof.
  intros (a & b & n & Hse & _ & Hn & ->) (a' & b' & n' & Hse' & _ & Hn' & ->).
  destruct (starts_ends_unique _ _ _ _ _ Hse Hse') as [<- <-].
  destruct (starts_ends_valid _ _ _ Hse) as [Hva Hvb].
  apply days_apart_ordinal in Hn, Hn'; [|done..]. congruence.
Qed.

Lemma timed_rows_last (events : list Event) :
  Forall well_timed events ->
  Forall2 (λ e r, t_summary r = get_or (summary e) "Untitled" ∧
                  lasts e (duration_minutes r))
          (filter (λ e, has_both e = true) events)
          (timed_row <$> filter (λ e, has_both e = true) events).
Proof.
  intros Hall. apply Forall2_fmap_r, Forall_Forall2_diag.
  rewrite Forall_forall. intros e He.
  apply list_elem_of_filter in He as [Hb He].
  rewrite Forall_forall in Hall. destruct (Hall e He Hb) as (a & b & delta & Hst).
  split; [done|]. cbn [timed_row duration_minutes].
  rewrite (stamps_minutes _ _ _ _ Hst). by apply (stamps_lasts _ a b).
Qed.

Lemma Qsum_from (acc : Q) (l : list Q) :
  (foldl Qplus acc l == acc + foldr Qplus 0 l)%Q.
Proof.
  revert acc. induction l as [|x l IH]; intros acc; simpl.
  - ring.
  - rewrite IH. ring.
Qed.

Lemma Qsum_foldr (l : list Q) : (Qsum l == foldr Qplus 0 l)%Q.
Proof. unfold Qsum. rewrite Qsum_from. ring. Qed.

Lemma lasts_minutes_between (events : list Event) :
  Forall well_timed events ->
  Forall2 lasts (filter (λ e, has_both e = true) events)
          (minutes_between <$> filter (λ e, has_both e = true) events).
Proof.
  intros Hall. apply Forall2_fmap_r, Forall_Forall2_diag.
  rewrite Forall_forall. intros e He.
  apply list_elem_of_filter in He as [Hb He].
  rewrite Forall_forall in Hall. destruct (Hall e He Hb) as (a & b & delta & Hst).
  change (lasts e (minutes_between e)).
  rewrite (stamps_minutes _ _ _ _ Hst). by apply (stamps_lasts _ a b).
Qed.

(** C1. Only the events with both a start and an end time stamp enter the
    duration analysis, one row each and in order; the duration of a row is
    end minus start in minutes: the days from the date of the start to the
    date of the end, the difference of the two times of day and that of the
    two UTC offsets, in microseconds, over sixty million, and no other
    number; a duration falls in the range of a label exactly when
    [categorize_duration] answers that label, so every row has one bucket
    among the five, which do not overlap; the events without one of the time
    stamps give no row. *)
Theorem duration_bucketing (events : list Event) :
  Forall well_timed events ->
  ∃ te,
    timed_events events = Ok te ∧
    te = timed_row <$> filter (λ e, has_both e = true) events ∧
    Forall2 (λ e r, t_summary r = get_or (summary e) "Untitled" ∧
                    lasts e (duration_minutes r))
            (filter (λ e, has_both e = true) events) te ∧
    (∀ e m1 m2, lasts e m1 -> lasts e m2 -> m1 = m2) ∧
    (∀ e, e ∈ events -> has_both e = true ->
          ∃ a b delta, stamps e a b delta ∧
            duration_minutes (timed_row e) = (delta # 60000000)) ∧
    (∀ r, r ∈ te -> categorize_duration (duration_minutes r) ∈ category_order) ∧
    (∀ m label, in_bucket label m <-> categorize_duration m = label) ∧
    NoDup category_order.
Proof.
  intros Hall. eexists. split; [by apply timed_events_spec|].
  split; [done|]. split; [by apply timed_rows_last|].
  split; [apply lasts_unique|]. split; [|split; [|split]].
  - intros e He Hb. rewrite Forall_forall in Hall.
    destruct (Hall e He Hb) as (a & b & delta & Hst).
    exists a, b, delta. split; [done|]. simpl. by rewrite (stamps_minutes _ _ _ _ Hst).
  - intros r _. unfold categorize_duration, category_order.
    repeat case_match; rewrite !elem_of_cons; tauto.
  - apply categorize_in_bucket.
  - by apply (bool_decide_unpack _).
Qed.

(** ** The average duration *)

Lemma avg_duration_timed_row (timed : list Event) :
  avg_duration (timed_row <$> timed)
  = (Qsum (minutes_between <$> timed) / inject_Z (Z.of_nat (length timed)))%Q.
Proof.
  unfold avg_duration, mean.
  by rewrite <- list_fmap_compose, !length_fmap.
Qed.

Lemma duration_analysis_run (te : list Timed) (w : World) :
  duration_analysis te w
  = (mkWorld (calls w) (screen w ++ duration_widgets te), Ok tt).
Proof.
  destruct te as [|r te]; [done|].
  unfold duration_analysis, duration_widgets, bind, render. simpl.
  by rewrite <- app_assoc.
Qed.

Lemma analyse_run (events : list Event) (analytics_start analytics_end : Date)
    (w : World) :
  Forall well_started events ->
  Forall well_timed events ->
  analyse events analytics_start analytics_end w
  = (mkWorld (calls w)
       (screen w ++ analysis_widgets events analytics_start analytics_end),
     Ok tt).
Proof.
  intros Hs Ht.
  destruct (day_counts_from events [] _ day_counts_init_after Hs)
    as (dc & Hdc & Hafter).
  pose proof (days_df_after _ _ Hafter) as Hdf.
  pose proof (calendar_df_spec events analytics_start analytics_end Hs) as Hcal.
  pose proof (timed_events_spec events Ht) as Hte.
  fold (day_counts events) in Hdc. simpl in Hdf.
  unfold analyse, analysis_widgets.
  destruct events as [|e0 evs]; [done|].
  unfold bind, render, lift. simpl calls. simpl screen.
  rewrite Hcal, Hdc, Hdf, Hte, duration_analysis_run. simpl.
  by rewrite <- !app_assoc.
Qed.

Lemma metric_in_duration_widgets (te : list Timed) (label : string) (a : Q) :
  MetricMinutes label a ∈ duration_widgets te <->
  te ≠ [] ∧ label = "Average Event Duration" ∧ a = avg_duration te.
Proof.
  unfold duration_widgets. destruct te as [|r te].
  - rewrite list_elem_of_singleton. split; [discriminate|by intros [? _]].
  - rewrite !elem_of_cons, elem_of_nil. split.
    + intros [?|[[= -> ->]|[]]]; [discriminate|done].
    + intros (_ & -> & ->). right. by left.
Qed.

Lemma metric_in_analysis_widgets (events : list Event) (s e : Date)
    (label : string) (a : Q) :
  MetricMinutes label a ∈ analysis_widgets events s e <->
  MetricMinutes label a
    ∈ duration_widgets (timed_row <$> filter (λ e, has_both e = true) events)
  ∧ events ≠ [].
Proof.
  unfold analysis_widgets. destruct events as [|e0 evs].
  - rewrite list_elem_of_singleton. split; [discriminate|by intros [_ ?]].
  - rewrite elem_of_app, !elem_of_cons, elem_of_nil. split.
    + intros [Hin|Hin]; [|done].
      repeat (destruct Hin as [Hin|Hin]; [discriminate|]). done.
    + intros [Hin _]. by right.
Qed.

(** C5. On events that can be read, the analytics of the fetched events run
    to the end; the metric of the average duration is on the screen exactly
    when some event has both time stamps; and its value is the sum of the
    durations of those events, each its end minus its start in minutes,
    divided by their number. *)
Theorem average_duration (events : list Event)
    (analytics_start analytics_end : Date) :
  Forall well_started events ->
  Forall well_timed events ->
  let timed := filter (λ e, has_both e = true) events in
  ∃ w,
    analyse events analytics_start analytics_end (mkWorld [] []) = (w, Ok tt) ∧
    ((∃ label a, MetricMinutes label a ∈ screen w) <-> timed ≠ []) ∧
    (∀ label a,
       MetricMinutes label a ∈ screen w ->
       label = "Average Event Duration" ∧
       a = (Qsum (minutes_between <$> timed)
            / inject_Z (Z.of_nat (length timed)))%Q ∧
       ∃ durations,
         Forall2 lasts timed durations ∧
         (a == foldr Qplus 0 durations
               / inject_Z (Z.of_nat (length timed)))%Q).
Proof.
  intros Hs Ht timed. eexists. split; [by apply analyse_run|].
  cbn [screen app]. split.
  - split.
    + intros (label & a & Hin).
      apply metric_in_analysis_widgets in Hin as [Hin _].
      apply metric_in_duration_widgets in Hin as [Hne _].
      intros Hnil. apply Hne. fold timed. by rewrite Hnil.
    + intros Hne. exists "Average Event Duration", (avg_duration (timed_row <$> timed)).
      apply metric_in_analysis_widgets. split.
      * apply metric_in_duration_widgets. split; [|done].
        fold timed. by destruct timed.
      * intros ->. by apply Hne.
  - intros label a Hin.
    apply metric_in_analysis_widgets in Hin as [Hin _].
    apply metric_in_duration_widgets in Hin as (_ & -> & ->).
    split; [done|]. split; [apply avg_duration_timed_row|].
    exists (minutes_between <$> timed). split; [by apply lasts_minutes_between|].
    rewrite avg_duration_timed_row. by rewrite Qsum_foldr.
Qed.

(** ** Remote calls of the views *)

Lemma quiet_ret {A} (a : A) : quiet (ret a).
Proof. done. Qed.

Lemma quiet_lift {A} (r : Result A) : quiet (lift r).
Proof. done. Qed.

Lemma quiet_render (x : Widget) : quiet (render x).
Proof. done. Qed.

Lemma quiet_bind {A B} (m : M A) (k : A -> M B) :
  quiet m -> (∀ a, quiet (k a)) -> quiet (bind m k).
Proof.
  intros Hm Hk w. unfold bind. specialize (Hm w).
  destruct (m w) as [w' [a|e]]; simpl in *; [|done].
  by rewrite Hk.
Qed.

Lemma quiet_for {A} (l : list A) (body : A -> M unit) :
  (∀ x, quiet (body x)) -> quiet (for_ l body).
Proof.
  intros Hb. induction l as [|x l IH]; simpl; [apply quiet_ret|].
  apply quiet_bind; [apply Hb|]. by intros _.
Qed.

Create HintDb quiet.
#[local] Hint Resolve quiet_ret quiet_lift quiet_render quiet_for : quiet.

(** After its one request, the upcoming view makes no other. *)
Lemma upcoming_view_calls (service : Service) (start_date end_date : Date)
    (max_events : Z) :
  calls (run_view service (Upcoming_ start_date end_date max_events)).1
  = [EventsList start_date end_date max_events].
Proof.
  unfold run_view, upcoming_view.
  unfold bind at 1. simpl. unfold bind at 1. simpl.
  destruct (events_list service start_date end_date max_events) as [items|err];
    [|done].
  match goal with |- calls (?m ?w).1 = _ =>
    assert (Hq : quiet m); [|by rewrite Hq] end.
  destruct (get_or items []) as [|e0 evs]; [auto with quiet|].
  apply quiet_bind; [auto with quiet|]. intros m.
  apply quiet_for. intros d.
  repeat (apply quiet_bind; [auto with quiet|intros ?]).
  auto with quiet.
Qed.

(** A failure of the list request of the upcoming view leaves the view as
    an exception, with nothing rendered for it. *)
Lemma upcoming_view_list_failure (service : Service)
    (start_date end_date : Date) (max_events : Z) (err : exn) :
  events_list service start_date end_date max_events = Raise err ->
  run_view service (Upcoming_ start_date end_date max_events)
  = (mkWorld [EventsList start_date end_date max_events]
             [Title "Upcoming Events"],
     Raise err).
Proof.
  intros H. unfold run_view, upcoming_view, bind, render, remote. simpl.
  by rewrite H.
Qed.

(** The same for the list request of the analytics view. *)
Lemma analytics_view_list_failure (service : Service)
    (analytics_start analytics_end : Date) (err : exn) :
  date_leb analytics_start analytics_end = true ->
  events_list service analytics_start analytics_end 1000 = Raise err ->
  run_view service (Analytics_ analytics_start analytics_end)
  = (mkWorld [EventsList analytics_start analytics_end 1000]
             [Title "Calendar Activity Analytics"; Subheader "Select Date Range"],
     Raise err).
Proof.
  intros Hle H. unfold run_view, analytics_view, bind, render, remote. simpl.
  by rewrite Hle, H.
Qed.

(** X9. The analytics view checks its dates before it fetches: with an end
    date before the start date it makes no remote call, shows the error
    message and ends normally. *)
Lemma analytics_view_invalid_range (service : Service)
    (analytics_start analytics_end : Date) :
  date_leb analytics_start analytics_end = false ->
  run_view service (Analytics_ analytics_start analytics_end)
  = (mkWorld []
             [Title "Calendar Activity Analytics"; Subheader "Select Date Range";
              Error "End date must be after start date"],
     Ok tt).
Proof.
  intros Hle. unfold run_view, analytics_view, bind, render. simpl.
  by rewrite Hle.
Qed.

(** The creation view checks the title before it inserts. *)
Lemma create_view_empty_title (service : Service) (f : Form) (n : Z) :
  form_minutes f = Ok n ->
  submit_button f = true -> event_title f = "" ->
  run_view service (Create f)
  = (mkWorld [] [Title "Create New Event"; Error "Please enter an event title"],
     Ok tt).
Proof.
  intros Hn Hs Ht. unfold run_view, create_view, bind, render, lift. simpl.
  by rewrite Hn, Hs, Ht.
Qed.

(** A failure of the insert request is caught: the view ends normally with
    an error message, after the one request. *)
Lemma create_view_insert_failure (service : Service) (f : Form) (n : Z)
    (color : string) (err : exn) :
  submit_button f = true -> event_title f ≠ "" ->
  form_minutes f = Ok n -> colors !! event_color f = Some color ->
  events_insert service (body_of f n color) = Raise err ->
  run_view service (Create f)
  = (mkWorld [EventsInsert (body_of f n color)]
             [Title "Create New Event"; ErrorExn "Failed to create event: " err],
     Ok tt).
Proof.
  intros Hs Ht Hn Hc Hr. apply String.eqb_neq in Ht.
  unfold run_view, create_view, bind, render, remote, try_except, lift, ret.
  simpl. rewrite Hn, Hs, Ht, Hc. unfold body_of in *.
  destruct (all_day f); simpl; by rewrite Hr.
Qed.

(** C8, where the code departs from it.  When the list request fails, the
    upcoming view and the analytics view end with the exception of the
    request and render no error message; only the failure of an insert
    request is caught. *)
Theorem list_failure_uncaught :
  run_view failing_service (Upcoming_ (mkDate 2024 1 14) (mkDate 2024 1 28) 10)
  = (mkWorld [EventsList (mkDate 2024 1 14) (mkDate 2024 1 28) 10]
             [Title "Upcoming Events"],
     Raise (RemoteError "connection reset")) ∧
  run_view failing_service (Analytics_ (mkDate 2023 10 16) (mkDate 2024 1 14))
  = (mkWorld [EventsList (mkDate 2023 10 16) (mkDate 2024 1 14) 1000]
             [Title "Calendar Activity Analytics"; Subheader "Select Date Range"],
     Raise (RemoteError "connection reset")).
Proof.
  split.
  - by apply upcoming_view_list_failure.
  - by apply analytics_view_list_failure.
Qed.

(** C9, where the code departs from it.  The upcoming view sends its list
    request also when the end date is before the start date, whatever the
    service answers; the analytics view and the creation view check first. *)
Theorem upcoming_view_fetches_reversed_range (service : Service) :
  date_leb (mkDate 2024 1 20) (mkDate 2024 1 14) = false ∧
  calls (run_view service
           (Upcoming_ (mkDate 2024 1 20) (mkDate 2024 1 14) 10)).1
  = [EventsList (mkDate 2024 1 20) (mkDate 2024 1 14) 10].
Proof. split; [done|apply upcoming_view_calls]. Qed.

Lemma quiet_duration_analysis (te : list Timed) : quiet (duration_analysis te).
Proof. intros w. by rewrite duration_analysis_run. Qed.

Lemma quiet_analyse (events : list Event) (s e : Date) : quiet (analyse events s e).
Proof.
  unfold analyse. destruct events as [|e0 evs]; [apply quiet_render|].
  repeat (apply quiet_bind; [apply quiet_render || apply quiet_lift|intros ?]).
  apply quiet_duration_analysis.
Qed.

(** X10. No view makes more than one remote call, whatever the service
    answers: a request that failed is never sent again. *)
Lemma one_call_per_view (service : Service) (v : View) :
  (length (calls (run_view service v).1) <= 1)%nat.
Proof.
  destruct v as [s e n|f|s e].
  - by rewrite upcoming_view_calls.
  - unfold run_view, create_view, bind, render, remote, try_except, lift, ret.
    simpl. destruct (form_minutes f); [|simpl; lia].
    destruct (submit_button f); [|simpl; lia].
    destruct (String.eqb _ _); [simpl; lia|].
    destruct (colors !! _); simpl; [|lia].
    destruct (events_insert _ _); simpl; lia.
  - unfold run_view, analytics_view.
    unfold bind at 1. simpl. unfold bind at 1. simpl.
    destruct (date_leb s e); [|simpl; lia].
    unfold bind, remote. simpl.
    destruct (events_list service s e 1000) as [items|err]; [|simpl; lia].
    by rewrite quiet_analyse.
Qed.

(** ** The sample is well formed *)

Lemma sample_well_timed : Forall well_timed sample_events.
Proof.
  repeat constructor; intros Hb; try discriminate Hb;
    eexists _, _, _, _, _; repeat split; vm_compute; reflexivity.
Defined.

Lemma sample_well_started : Forall well_started sample_events.
Proof. repeat constructor; eexists; vm_compute; reflexivity. Defined.

Lemma sample_chronological : Sorted chronological sample_events.
Proof. repeat constructor; by vm_compute. Defined.

Lemma sample_valid_range :
  valid_md (mkDate 2024 1 14) ∧ valid_md (mkDate 2024 1 16).
Proof. repeat split; by vm_compute. Defined.

(** ** The theorems on the sample

    Each theorem with a hypothesis is applied to [sample_events], whose
    hypotheses hold by computation. *)

Lemma duration_bucketing_witness :
  Forall well_timed sample_events ∧
  ∃ te,
    timed_events sample_events = Ok te ∧
    te = timed_row <$> filter (λ e, has_both e = true) sample_events ∧
    Forall2 (λ e r, t_summary r = get_or (summary e) "Untitled" ∧
                    lasts e (duration_minutes r))
            (filter (λ e, has_both e = true) sample_events) te ∧
    (∀ e m1 m2, lasts e m1 -> lasts e m2 -> m1 = m2) ∧
    (∀ e, e ∈ sample_events -> has_both e = true ->
          ∃ a b delta, stamps e a b delta ∧
            duration_minutes (timed_row e) = (delta # 60000000)) ∧
    (∀ r, r ∈ te -> categorize_duration (duration_minutes r) ∈ category_order) ∧
    (∀ m label, in_bucket label m <-> categorize_duration m = label) ∧
    NoDup category_order.
Proof.
  split; [exact sample_well_timed|].
  exact (duration_bucketing sample_events sample_well_timed).
Defined.

Lemma duration_counts_sum_witness :
  Forall well_timed sample_events ∧
  ∃ te,
    timed_events sample_events = Ok te ∧
    Zsum (category_counts te).*2 =
      Z.of_nat (length (filter (λ e, has_both e = true) sample_events)) ∧
    (∀ e acc, has_both e = false -> add_timed acc e = Ok acc) ∧
    ((∃ e, e ∈ sample_events ∧ has_both e = false) ->
     Zsum (category_counts te).*2 < Z.of_nat (length sample_events)).
Proof.
  split; [exact sample_well_timed|].
  exact (duration_counts_sum sample_events sample_well_timed).
Defined.

Lemma weekday_buckets_witness :
  Forall well_started sample_events ∧
  ∃ dc rows,
    day_counts sample_events = Ok dc ∧
    days_df dc = Ok rows ∧
    rows.*1 = days_order ∧
    (∀ e, e ∈ sample_events ->
          exists! day, day ∈ days_order ∧ weekday_label e = Some day) ∧
    (∀ day, day ∈ days_order ->
            dc !! day = Some (Z.of_nat (length (on_day day sample_events)))) ∧
    Zsum rows.*2 = Z.of_nat (length sample_events).
Proof.
  split; [exact sample_well_started|].
  exact (weekday_buckets sample_events sample_well_started).
Defined.

Lemma average_duration_witness :
  Forall well_started sample_events ∧
  Forall well_timed sample_events ∧
  let timed := filter (λ e, has_both e = true) sample_events in
  ∃ w,
    analyse sample_events (mkDate 2024 1 14) (mkDate 2024 1 16) (mkWorld [] [])
    = (w, Ok tt) ∧
    ((∃ label a, MetricMinutes label a ∈ screen w) <-> timed ≠ []) ∧
    (∀ label a,
       MetricMinutes label a ∈ screen w ->
       label = "Average Event Duration" ∧
       a = (Qsum (minutes_between <$> timed)
            / inject_Z (Z.of_nat (length timed)))%Q ∧
       ∃ durations,
         Forall2 lasts timed durations ∧
         (a == foldr Qplus 0 durations
               / inject_Z (Z.of_nat (length timed)))%Q).
Proof.
  split; [exact sample_well_started|]. split; [exact sample_well_timed|].
  exact (average_duration sample_events (mkDate 2024 1 14) (mkDate 2024 1 16)
           sample_well_started sample_well_timed).
Defined.


Lemma bucket_order_witness :
  Transitive chronological ∧
  Forall well_started sample_events ∧
  Sorted chronological sample_events ∧
  ∃ m,
    events_by_date sample_events = Ok m ∧
    ∀ d bucket,
      m !! d = Some bucket ->
      ∃ es, bucket = card <$> es ∧
            es = bucket_events d sample_events ∧
            sublist es sample_events ∧
            StronglySorted chronological es.
Proof.
  split; [exact chronological_trans|].
  split; [exact sample_well_started|]. split; [exact sample_chronological|].
  exact (bucket_order chronological sample_events chronological_trans
           sample_well_started sample_chronological).
Defined.

Lemma heatmap_counts_witness :
  Forall well_started sample_events ∧
  valid_md (mkDate 2024 1 14) ∧ valid_md (mkDate 2024 1 16) ∧
  ∃ df,
    calendar_df sample_events (mkDate 2024 1 14) (mkDate 2024 1 16) = Ok df ∧
    df = (λ d, (d, Z.of_nat (length (events_on d sample_events))))
           <$> date_range (mkDate 2024 1 14) (mkDate 2024 1 16) ∧
    (∀ d, valid_md d ->
          d ∈ date_range (mkDate 2024 1 14) (mkDate 2024 1 16) <->
          date_leb (mkDate 2024 1 14) d = true ∧
          date_leb d (mkDate 2024 1 16) = true) ∧
    (∀ e rows,
       e ∈ sample_events ->
       in_range (mkDate 2024 1 14) (mkDate 2024 1 16) e = false ->
       rows.*1 = date_range (mkDate 2024 1 14) (mkDate 2024 1 16) ->
       count_event rows e = Ok rows) ∧
    Zsum df.*2 =
      Z.of_nat (length (filter
        (λ e, in_range (mkDate 2024 1 14) (mkDate 2024 1 16) e = true)
        sample_events)) ∧
    ((∃ e, e ∈ sample_events ∧
           in_range (mkDate 2024 1 14) (mkDate 2024 1 16) e = false) ->
     Zsum df.*2 < Z.of_nat (length sample_events)).
Proof.
  split; [exact sample_well_started|].
  split; [exact (proj1 sample_valid_range)|].
  split; [exact (proj2 sample_valid_range)|].
  exact (heatmap_counts sample_events (mkDate 2024 1 14) (mkDate 2024 1 16)
           sample_well_started (proj1 sample_valid_range)
           (proj2 sample_valid_range)).
Defined.

(** On the sample, the heatmap from January 14th to 16th counts the two
    meetings of the 15th and leaves out the holiday of the 17th. *)
Example heatmap_sample :
  calendar_df sample_events (mkDate 2024 1 14) (mkDate 2024 1 16)
  = Ok [(mkDate 2024 1 14, 0); (mkDate 2024 1 15, 2); (mkDate 2024 1 16, 0)].
Proof. reflexivity. Qed.

Example day_counts_sample :
  (let? dc := day_counts sample_events in days_df dc)
  = Ok [("Monday", 2); ("Tuesday", 0); ("Wednesday", 1); ("Thursday", 0);
        ("Friday", 0); ("Saturday", 0); ("Sunday", 0)].
Proof. by vm_compute. Qed.

Example events_by_date_sample :
  (let? m := events_by_date sample_events in
   Ok (sort_with date_ltb (map_to_list m).*1, m !! mkDate 2024 1 15))
  = Ok ([mkDate 2024 1 15; mkDate 2024 1 17],
        Some [mkDisplay "09:00" "Meeting" "" "" "0";
              mkDisplay "10:00" "Meeting" "" "" "0"]).
Proof. by vm_compute. Qed.

(** * Further properties of the code *)

(** ** Unreadable starts *)

Lemma group_event_ok (m m' : gmap Date (list Display)) (e : Event) :
  group_event m e = Ok m' -> well_started e.
Proof.
  unfold group_event, date_and_time, well_started.
  destruct (parse_start (start_marker e)) as [t|]; [eauto|done].
Qed.

Lemma count_day_ok (dc dc' : gmap string Z) (e : Event) :
  count_day dc e = Ok dc' -> well_started e.
Proof.
  unfold count_day, well_started.
  destruct (parse_start (start_marker e)) as [t|]; [eauto|done].
Qed.

Lemma count_event_ok (df df' : list (Date * Z)) (e : Event) :
  count_event df e = Ok df' -> well_started e.
Proof.
  unfold count_event, well_started.
  destruct (parse_start (start_marker e)) as [t|]; [eauto|done].
Qed.

Lemma for_each_ok_Forall {A S} (body : S -> A -> Result S) (P : A -> Prop)
    (l : list A) (s s' : S) :
  (∀ s1 s2 x, body s1 x = Ok s2 -> P x) ->
  for_each body l s = Ok s' -> Forall P l.
Proof.
  intros Hb. revert s. induction l as [|x l IH]; intros s Hrun; [constructor|].
  simpl in Hrun. destruct (body s x) as [s1|] eqn:Hx; [|done].
  constructor; eauto.
Qed.

(** A loop stops with the exception of the first element on which its body
    raises. *)
Lemma for_each_first_raise {A S} (body : S -> A -> Result S)
    (good rest : list A) (bad : A) (s s1 : S) (err : exn) :
  for_each body good s = Ok s1 -> body s1 bad = Raise err ->
  for_each body (good ++ bad :: rest) s = Raise err.
Proof.
  revert s. induction good as [|x good IH]; intros s Hgood Hbad; simpl in *.
  - injection Hgood as ->. by rewrite Hbad.
  - destruct (body s x) as [s2|]; [|done]. simpl in *. by apply IH.
Qed.

(** X1. Each of the three loops over the starts of the events (grouping by
    date, weekday counts, heatmap counts) returns a result exactly when the
    start of every event can be read. *)
Theorem loops_return_iff_readable (events : list Event)
    (start_date end_date : Date) :
  ((∃ m, events_by_date events = Ok m) <-> Forall well_started events) ∧
  ((∃ dc, day_counts events = Ok dc) <-> Forall well_started events) ∧
  ((∃ df, calendar_df events start_date end_date = Ok df)
   <-> Forall well_started events).
Proof.
  split; [|split]; split.
  - intros [m Hm]. eapply for_each_ok_Forall; [apply group_event_ok|exact Hm].
  - intros H. destruct (events_by_date_spec events H) as (m & ? & _). eauto.
  - intros [dc Hdc]. eapply for_each_ok_Forall; [apply count_day_ok|exact Hdc].
  - intros H.
    destruct (day_counts_from events [] _ day_counts_init_after H) as (dc & ? & _).
    eauto.
  - intros [df Hdf]. eapply for_each_ok_Forall; [apply count_event_ok|exact Hdf].
  - intros H. rewrite calendar_df_spec by done. eauto.
Qed.

(** X2. When the events before the first unreadable start are readable, each
    of the three loops ends with the exception of that start: [TypeError]
    for an event with neither [dateTime] nor [date], [ValueError] for a
    string that its parser refuses ([fromisoformat] with a ["T"],
    [strptime] without); the results computed so far are lost. *)
Theorem loops_raise_at_first_unreadable (good rest : list Event) (bad : Event)
    (err : exn) (start_date end_date : Date) :
  Forall well_started good ->
  parse_start (start_marker bad) = Raise err ->
  (err = TypeError ∨ err = ValueError) ∧
  (start_marker bad = None -> err = TypeError) ∧
  (∀ s, start_marker bad = Some s ->
        err = ValueError ∧
        if Parse.contains "T" s
        then Parse.fromisoformat (Parse.replace "Z" "+00:00" s) = None
        else Parse.strptime_ymd s = None) ∧
  events_by_date (good ++ bad :: rest) = Raise err ∧
  day_counts (good ++ bad :: rest) = Raise err ∧
  calendar_df (good ++ bad :: rest) start_date end_date = Raise err.
Proof.
  intros Hgood Hbad. split; [|split; [|split; [|split; [|split]]]].
  - unfold parse_start in Hbad. destruct (start_marker bad) as [s|]; [|naive_solver].
    destruct (Parse.contains _ s);
      [destruct (Parse.fromisoformat _)|destruct (Parse.strptime_ymd s)];
      simpl in Hbad; naive_solver.
  - intros Hnone. rewrite Hnone in Hbad. simpl in Hbad. congruence.
  - intros s Hs. rewrite Hs in Hbad. unfold parse_start in Hbad.
    destruct (Parse.contains "T" s);
      [destruct (Parse.fromisoformat _)|destruct (Parse.strptime_ymd s)];
      simpl in Hbad; split; congruence.
  - destruct (events_by_date_spec good Hgood) as (m & Hm & _).
    eapply for_each_first_raise; [exact Hm|].
    unfold group_event, date_and_time. by rewrite Hbad.
  - destruct (day_counts_from good [] _ day_counts_init_after Hgood)
      as (dc & Hdc & _).
    eapply for_each_first_raise; [exact Hdc|].
    unfold count_day. by rewrite Hbad.
  - pose proof (calendar_df_spec good start_date end_date Hgood) as Hdf.
    unfold calendar_df.
    eapply for_each_first_raise; [exact Hdf|].
    unfold count_event. by rewrite Hbad.
Qed.

Lemma loops_raise_at_first_unreadable_witness :
  Forall well_started two_meetings ∧
  parse_start (start_marker (all_day_event "tomorrow" "")) = Raise ValueError ∧
  (ValueError = TypeError ∨ ValueError = ValueError) ∧
  (start_marker (all_day_event "tomorrow" "") = None -> ValueError = TypeError) ∧
  (∀ s, start_marker (all_day_event "tomorrow" "") = Some s ->
        ValueError = ValueError ∧
        if Parse.contains "T" s
        then Parse.fromisoformat (Parse.replace "Z" "+00:00" s) = None
        else Parse.strptime_ymd s = None) ∧
  events_by_date (two_meetings ++ all_day_event "tomorrow" "" :: [])
    = Raise ValueError ∧
  day_counts (two_meetings ++ all_day_event "tomorrow" "" :: [])
    = Raise ValueError ∧
  calendar_df (two_meetings ++ all_day_event "tomorrow" "" :: [])
    (mkDate 2024 1 14) (mkDate 2024 1 16) = Raise ValueError.
Proof.
  assert (H1 : Forall well_started two_meetings)
    by (repeat constructor; eexists; vm_compute; reflexivity).
  assert (H2 : parse_start (start_marker (all_day_event "tomorrow" ""))
               = Raise ValueError) by reflexivity.
  split; [exact H1|]. split; [exact H2|].
  exact (loops_raise_at_first_unreadable two_meetings []
           (all_day_event "tomorrow" "") ValueError
           (mkDate 2024 1 14) (mkDate 2024 1 16) H1 H2).
Defined.

(** ** Edges of the duration loop *)

(** X3. The duration loop passes over an event, leaving its rows as they
    are, exactly when the start or the end has no [dateTime] or an empty
    one. *)
Theorem add_timed_skips_iff (acc : list Timed) (e : Event) :
  add_timed acc e = Ok acc <->
  dateTime (start e) = None ∨ dateTime (start e) = Some "" ∨
  dateTime (end_ e) = None ∨ dateTime (end_ e) = Some "".
Proof.
  unfold add_timed.
  destruct (dateTime (start e)) as [[|c s]|], (dateTime (end_ e)) as [[|c' t]|];
    simpl; try (split; [intros _|done]; tauto).
  split; [|intros [?|[?|[?|?]]]; done].
  destruct (iso _); simpl; [|done]. destruct (iso _); simpl; [|done].
  destruct (sub_datetime _ _); simpl; [|done].
  intros [= H]. apply (f_equal length) in H. rewrite length_app in H.
  simpl in H. lia.
Qed.

(** X4. A timed event of which one time stamp carries a UTC offset and the
    other none makes the duration loop raise [TypeError], whatever follows
    it, when the events before it are well timed. *)
Theorem mixed_offsets_raise (good rest : list Event) (e : Event)
    (s t : string) (a b : DateTime) :
  Forall well_timed good ->
  dateTime (start e) = Some s -> dateTime (end_ e) = Some t ->
  iso s = Ok a -> iso t = Ok b ->
  (utcoffset a = None <-> utcoffset b ≠ None) ->
  timed_events (good ++ e :: rest) = Raise TypeError.
Proof.
  intros Hgood Hs Ht Ha Hb Hmix.
  pose proof (timed_events_spec good Hgood) as Hrun.
  eapply for_each_first_raise; [exact Hrun|].
  unfold add_timed. rewrite Hs, Ht.
  rewrite (iso_nonempty _ _ Ha), (iso_nonempty _ _ Hb). simpl.
  rewrite Ha, Hb. simpl. unfold sub_datetime.
  destruct (utcoffset a), (utcoffset b); simpl; try done; exfalso.
  - assert (Some z = None) by (by apply Hmix). done.
  - assert (@None Z ≠ None) by (by apply Hmix). done.
Qed.

Lemma mixed_offsets_raise_witness :
  Forall well_timed two_meetings ∧
  dateTime (start (timed_event "2024-01-16T09:00:00" "2024-01-16T10:00:00Z"))
    = Some "2024-01-16T09:00:00" ∧
  dateTime (end_ (timed_event "2024-01-16T09:00:00" "2024-01-16T10:00:00Z"))
    = Some "2024-01-16T10:00:00Z" ∧
  iso "2024-01-16T09:00:00" = Ok (mkDateTime (mkDate 2024 1 16) 9 0 0 0 None) ∧
  iso "2024-01-16T10:00:00Z"
    = Ok (mkDateTime (mkDate 2024 1 16) 10 0 0 0 (Some 0)) ∧
  timed_events
    (two_meetings ++
     timed_event "2024-01-16T09:00:00" "2024-01-16T10:00:00Z" :: sample_events)
  = Raise TypeError.
Proof.
  assert (H : Forall well_timed two_meetings).
  { repeat constructor; intros _;
      eexists _, _, _, _, _; repeat split; vm_compute; reflexivity. }
  split; [exact H|]. repeat (split; [reflexivity|]).
  refine (mixed_offsets_raise two_meetings sample_events
            (timed_event "2024-01-16T09:00:00" "2024-01-16T10:00:00Z")
            "2024-01-16T09:00:00" "2024-01-16T10:00:00Z"
            (mkDateTime (mkDate 2024 1 16) 9 0 0 0 None)
            (mkDateTime (mkDate 2024 1 16) 10 0 0 0 (Some 0))
            H eq_refl eq_refl eq_refl eq_refl _).
  simpl. split; [intros _|]; done.
Defined.

(** ** The time label of a record *)

Lemma strftime_HM_not_all_day (t : DateTime) : strftime_HM t ≠ "All day".
Proof. unfold strftime_HM, two_digits. simpl. discriminate. Qed.

(** X5. In the list of upcoming events, the record of an event whose start
    can be read is labelled "All day" exactly when its start marker has no
    ["T"], that is, when it is read as a date; otherwise the label is the
    time of day of the time stamp, as two digits, a colon and two digits. *)
Theorem all_day_label (e : Event) (s : string) :
  well_started e -> start_marker e = Some s ->
  (d_time (card e) = "All day" <-> Parse.contains "T" s = false) ∧
  (Parse.contains "T" s = true ->
   ∃ t, Parse.fromisoformat (Parse.replace "Z" "+00:00" s) = Some t ∧
        d_time (card e) = strftime_HM t ∧
        String.length (d_time (card e)) = 5%nat).
Proof.
  intros [t Ht] Hs. unfold card, date_and_time. rewrite Ht. simpl.
  unfold parse_start in Ht. rewrite Hs in Ht.
  destruct (Parse.contains _ s).
  - destruct (Parse.fromisoformat _) as [x|]; [|done]. injection Ht as <-.
    simpl. split.
    + split; [|done]. intros H. by apply strftime_HM_not_all_day in H.
    + intros _. exists x. by split.
  - destruct (Parse.strptime_ymd s) as [x|]; [|done]. injection Ht as <-.
    simpl. by split.
Qed.

Lemma all_day_label_witness :
  well_started (all_day_event "2024-01-17" "2024-01-18") ∧
  start_marker (all_day_event "2024-01-17" "2024-01-18") = Some "2024-01-17" ∧
  (d_time (card (all_day_event "2024-01-17" "2024-01-18")) = "All day"
   <-> Parse.contains "T" "2024-01-17" = false) ∧
  (Parse.contains "T" "2024-01-17" = true ->
   ∃ t, Parse.fromisoformat (Parse.replace "Z" "+00:00" "2024-01-17") = Some t ∧
        d_time (card (all_day_event "2024-01-17" "2024-01-18")) = strftime_HM t ∧
        String.length (d_time (card (all_day_event "2024-01-17" "2024-01-18")))
        = 5%nat).
Proof.
  assert (H : well_started (all_day_event "2024-01-17" "2024-01-18"))
    by (eexists; vm_compute; reflexivity).
  split; [exact H|]. split; [reflexivity|].
  exact (all_day_label _ _ H eq_refl).
Defined.

(** ** The creation view *)

Lemma duration_options_values (k : string) (n : Z) :
  duration_options !! k = Some n ->
  (k = "Custom" ∧ n = -1) ∨ (k ≠ "Custom" ∧ 15 <= n <= 180).
Proof.
  unfold duration_options. simpl. rewrite !lookup_insert, lookup_empty.
  repeat (case_decide; [intros [= <-]; subst; right; split; [done|lia]|]).
  case_decide; [|done]. intros [= <-]. subst. by left.
Qed.

(** X6. The duration the creation view works with is never negative: the
    entry -1 of the option "Custom" is never used as a duration.  With the
    hours and minutes within the bounds of their inputs, the duration is at
    most 10 hours 59 minutes. *)
Theorem form_minutes_bounds (f : Form) (n : Z) :
  0 <= duration_hours f <= 10 -> 0 <= duration_mins f <= 59 ->
  form_minutes f = Ok n -> 0 <= n <= 659.
Proof.
  intros Hh Hm. unfold form_minutes, total_minutes.
  destruct (all_day f); [intros [= <-]; lia|].
  destruct (String.eqb _ "Custom") eqn:Hc; [intros [= <-]; lia|].
  apply String.eqb_neq in Hc.
  destruct (duration_options !! _) as [x|] eqn:Hx; [|done].
  intros [= <-]. apply duration_options_values in Hx as [[? _]|[_ ?]]; [done|lia].
Qed.

Lemma form_minutes_bounds_witness :
  0 <= duration_hours (sample_form "Review") <= 10 ∧
  0 <= duration_mins (sample_form "Review") <= 59 ∧
  form_minutes (sample_form "Review") = Ok 60 ∧
  0 <= 60 <= 659.
Proof.
  assert (H1 : 0 <= duration_hours (sample_form "Review") <= 10) by (simpl; lia).
  assert (H2 : 0 <= duration_mins (sample_form "Review") <= 59) by (simpl; lia).
  assert (H3 : form_minutes (sample_form "Review") = Ok 60) by reflexivity.
  split; [exact H1|]. split; [exact H2|]. split; [exact H3|].
  exact (form_minutes_bounds (sample_form "Review") 60 H1 H2 H3).
Defined.

(** X7. For a submitted form with a title, the creation view makes exactly
    one insert request and always ends normally: when the request returns,
    the success message and the details of the event with the link of the
    answer are shown; when it raises, the exception is shown as an error
    message and nothing else. *)
Theorem create_view_outcome (service : Service) (f : Form) (n : Z)
    (color : string) :
  submit_button f = true -> event_title f ≠ "" ->
  form_minutes f = Ok n -> colors !! event_color f = Some color ->
  run_view service (Create f)
  = (mkWorld [EventsInsert (body_of f n color)]
       (Title "Create New Event" ::
        match events_insert service (body_of f n color) with
        | Ok link => [Success "Event created successfully!";
                      CreatedDetails (body_of f n color) link]
        | Raise err => [ErrorExn "Failed to create event: " err]
        end),
     Ok tt).
Proof.
  intros Hs Ht Hn Hc. apply String.eqb_neq in Ht.
  unfold run_view, create_view, bind, render, remote, try_except, lift, ret.
  simpl. rewrite Hn, Hs, Ht, Hc. unfold body_of.
  destruct (all_day f); simpl; by destruct (events_insert _ _).
Qed.

Lemma create_view_outcome_witness :
  submit_button (sample_form "Review") = true ∧
  event_title (sample_form "Review") ≠ "" ∧
  form_minutes (sample_form "Review") = Ok 60 ∧
  colors !! event_color (sample_form "Review") = Some "0" ∧
  run_view failing_service (Create (sample_form "Review"))
  = (mkWorld [EventsInsert (body_of (sample_form "Review") 60 "0")]
       (Title "Create New Event" ::
        match events_insert failing_service
                (body_of (sample_form "Review") 60 "0") with
        | Ok link => [Success "Event created successfully!";
                      CreatedDetails (body_of (sample_form "Review") 60 "0") link]
        | Raise err => [ErrorExn "Failed to create event: " err]
        end),
     Ok tt).
Proof.
  assert (H2 : event_title (sample_form "Review") ≠ "") by discriminate.
  assert (H4 : colors !! event_color (sample_form "Review") = Some "0")
    by (by vm_compute).
  split; [reflexivity|]. split; [exact H2|]. split; [reflexivity|].
  split; [exact H4|].
  exact (create_view_outcome failing_service (sample_form "Review") 60 "0"
           eq_refl H2 eq_refl H4).
Defined.

(** X8. The creation view sends nothing as long as the form is not
    submitted or its title is empty: no remote call is made, and the view
    ends normally. *)
Theorem create_view_not_sent (service : Service) (f : Form) (n : Z) :
  form_minutes f = Ok n ->
  submit_button f = false ∨ event_title f = "" ->
  let run := run_view service (Create f) in
  calls run.1 = [] ∧ run.2 = Ok tt ∧
  (submit_button f = true ->
   screen run.1 = [Title "Create New Event";
                   Error "Please enter an event title"]).
Proof.
  intros Hn Hor.
  unfold run_view, create_view, bind, render, remote, try_except, lift, ret.
  simpl. rewrite Hn. destruct (submit_button f); [|done].
  destruct Hor as [?|Ht]; [done|]. by rewrite Ht.
Qed.

Lemma create_view_not_sent_witness :
  form_minutes (sample_form "") = Ok 60 ∧
  (submit_button (sample_form "") = false ∨ event_title (sample_form "") = "") ∧
  let run := run_view failing_service (Create (sample_form "")) in
  calls run.1 = [] ∧ run.2 = Ok tt ∧
  (submit_button (sample_form "") = true ->
   screen run.1 = [Title "Create New Event";
                   Error "Please enter an event title"]).
Proof.
  split; [reflexivity|]. split; [right; reflexivity|].
  exact (create_view_not_sent failing_service (sample_form "") 60 eq_refl
           (or_intror eq_refl)).
Defined.

Lemma analytics_view_invalid_range_witness :
  date_leb (mkDate 2024 1 20) (mkDate 2024 1 14) = false ∧
  run_view failing_service (Analytics_ (mkDate 2024 1 20) (mkDate 2024 1 14))
  = (mkWorld []
             [Title "Calendar Activity Analytics"; Subheader "Select Date Range";
              Error "End date must be after start date"],
     Ok tt).
Proof.
  split; [reflexivity|].
  exact (analytics_view_invalid_range failing_service
           (mkDate 2024 1 20) (mkDate 2024 1 14) eq_refl).
Defined.

(** ** Insertion sort *)

Section SortWith.
Context {A : Type} (lt : A -> A -> bool).
Hypothesis lt_asym : ∀ x y, lt x y = true -> lt y x = false.
Hypothesis lt_le_trans : ∀ x y z, lt x y = true -> lt z y = false -> lt z x = false.

Lemma insert_by_sorted (x : A) (l : list A) :
  StronglySorted (λ a b, lt b a = false) l ->
  StronglySorted (λ a b, lt b a = false) (insert_by lt x l).
Proof.
  induction 1 as [|y r Hr IH Hy]; simpl.
  - repeat constructor.
  - destruct (lt x y) eqn:Hxy.
    + constructor; [by constructor|]. constructor; [by apply lt_asym|].
      rewrite Forall_forall in Hy |- *. intros z Hz.
      eapply lt_le_trans; [exact Hxy|]. by apply Hy.
    + constructor; [done|]. rewrite Forall_forall in Hy |- *. intros z Hz.
      apply (elem_of_Permutation_proper _ _ _ (insert_by_perm lt x r)) in Hz.
      apply elem_of_cons in Hz as [->|Hz]; [done|]. by apply Hy.
Qed.

Lemma sort_with_sorted (l : list A) :
  StronglySorted (λ a b, lt b a = false) (sort_with lt l).
Proof.
  unfold sort_with. induction (reverse l) as [|x r IH]; simpl; [constructor|].
  by apply insert_by_sorted.
Qed.
End SortWith.

Lemma StronglySorted_weaken {A} (R R' : A -> A -> Prop) (l : list A) :
  (∀ a b, a ∈ l -> b ∈ l -> R a b -> R' a b) ->
  StronglySorted R l -> StronglySorted R' l.
Proof.
  intros HR. induction 1 as [|x r Hr IH Hx]; constructor.
  - apply IH. intros a b Ha Hb. apply HR; by right.
  - rewrite Forall_forall in Hx |- *. intros y Hy.
    apply HR; [by left|by right|by apply Hx].
Qed.

Lemma sort_by_sorted {A} (key : A -> Z) (l : list A) :
  StronglySorted (λ a b, key a <= key b) (sort_by key l).
Proof.
  unfold sort_by.
  eapply StronglySorted_weaken; [|apply sort_with_sorted].
  - intros a b _ _ H. simpl in H. lia.
  - intros x y H. lia.
  - intros x y z H1 H2. lia.
Qed.

(** ** The rows of the duration chart *)

Lemma occurrences_snoc (v w : string) (col : list string) :
  occurrences w (col ++ [v])
  = occurrences w col + (if decide (v = w) then 1 else 0).
Proof.
  unfold occurrences. rewrite filter_app, length_app.
  destruct (decide (v = w)).
  - rewrite (filter_cons_True _ v) by done. simpl. lia.
  - rewrite (filter_cons_False _ v) by done. simpl. lia.
Qed.

Lemma tally_add_keys (v : string) (t : list (string * Z)) :
  ∀ w, w ∈ (tally_add v t).*1 <-> w = v ∨ w ∈ t.*1.
Proof.
  induction t as [|[x n] t IH]; intros w; csimpl.
  - rewrite elem_of_cons, elem_of_nil. tauto.
  - destruct (String.eqb x v) eqn:Hx; csimpl.
    + apply String.eqb_eq in Hx as ->. rewrite elem_of_cons. tauto.
    + rewrite !elem_of_cons, IH. tauto.
Qed.

Lemma tally_add_NoDup (v : string) (t : list (string * Z)) :
  NoDup t.*1 -> NoDup (tally_add v t).*1.
Proof.
  induction t as [|[x n] t IH]; csimpl; intros Hnd.
  - apply NoDup_singleton.
  - apply NoDup_cons in Hnd as [Hx Hnd].
    destruct (String.eqb x v) eqn:Hxv; csimpl.
    + by constructor.
    + apply String.eqb_neq in Hxv. constructor; [|by apply IH].
      rewrite tally_add_keys. intros [?|?]; done.
Qed.

Lemma elem_of_tally_add (v : string) (t : list (string * Z)) (w : string)
    (n : Z) :
  NoDup t.*1 ->
  (w, n) ∈ tally_add v t <->
  (w ≠ v ∧ (w, n) ∈ t) ∨
  (w = v ∧ ((∃ k, (v, k) ∈ t ∧ n = k + 1) ∨ ((v ∉ t.*1) ∧ n = 1))).
Proof.
  induction t as [|[x k] t IH]; csimpl; intros Hnd.
  - split.
    + intros H. apply list_elem_of_singleton in H as [= -> ->].
      right. split; [done|]. right. split; [apply not_elem_of_nil|done].
    + intros [[_ H]|[-> [(k & H & _)|[_ ->]]]];
        [by apply elem_of_nil in H|by apply elem_of_nil in H|].
      by apply list_elem_of_singleton.
  - apply NoDup_cons in Hnd as [Hx Hnd]. specialize (IH Hnd).
    assert (Hin : ∀ a b, (a, b) ∈ t -> a ∈ t.*1).
    { intros a b Hab. apply list_elem_of_fmap. by exists (a, b). }
    destruct (String.eqb x v) eqn:Hxv.
    + apply String.eqb_eq in Hxv as ->. rewrite !elem_of_cons. split.
      * intros [[= -> ->]|Hw].
        -- right. split; [done|]. left. exists k. split; [by left|done].
        -- left. split; [|by right]. intros ->. apply Hx. by eapply Hin.
      * intros [[Hne [[= ? ?]|Hw]]|[-> [(k' & Hk & ->)|[Hno _]]]].
        -- done.
        -- by right.
        -- left. apply elem_of_cons in Hk as [[= ->]|Hk]; [done|].
           exfalso. apply Hx. by eapply Hin.
        -- exfalso. apply Hno. by left.
    + apply String.eqb_neq in Hxv. rewrite !elem_of_cons, IH. split.
      * intros [[= -> ->]|[[Hne Hw]|[-> Hv]]].
        -- left. split; [done|by left].
        -- left. split; [done|by right].
        -- right. split; [done|]. destruct Hv as [(k' & Hk & ->)|[Hno ->]].
           ++ left. exists k'. split; [by right|done].
           ++ right. split; [|done]. intros [?|?]; [by subst|done].
      * intros [[Hne [[= -> ->]|Hw]]|[-> Hv]].
        -- by left.
        -- right. left. by split.
        -- right. right. split; [done|].
           destruct Hv as [(k' & Hk & ->)|[Hno ->]].
           ++ left. exists k'. split; [|done].
              apply elem_of_cons in Hk as [[= ? ?]|Hk]; done.
           ++ right. split; [|done]. intros ?. apply Hno. by right.
Qed.

(** The tally after the column [col]. *)
Lemma tally_spec (col : list string) :
  NoDup (tally col).*1 ∧
  ∀ w n, (w, n) ∈ tally col <-> n = occurrences w col ∧ 0 < n.
Proof.
  unfold tally. rewrite <- (reverse_involutive col).
  induction (reverse col) as [|v rc IH].
  - simpl. split; [constructor|]. intros w n. rewrite elem_of_nil.
    unfold occurrences. simpl. lia.
  - rewrite reverse_cons, foldl_app. simpl.
    destruct IH as [Hnd Hspec]. split; [by apply tally_add_NoDup|].
    intros w n. rewrite elem_of_tally_add by done.
    rewrite occurrences_snoc. destruct (decide (v = w)) as [->|Hne].
    + split.
      * intros [[? _]|[_ [(k & Hk & ->)|[Hno ->]]]]; [done| |].
        -- apply Hspec in Hk. lia.
        -- assert (¬ 0 < occurrences w (reverse rc)).
           { intros Hpos. apply Hno. apply list_elem_of_fmap.
             exists (w, occurrences w (reverse rc)). split; [done|].
             by apply Hspec. }
           assert (0 <= occurrences w (reverse rc)) by (unfold occurrences; lia).
           lia.
      * intros [-> Hpos]. right. split; [done|].
        destruct (decide (0 < occurrences w (reverse rc))) as [Hp|Hz].
        -- left. exists (occurrences w (reverse rc)). split; [|done].
           by apply Hspec.
        -- right. assert (0 <= occurrences w (reverse rc))
             by (unfold occurrences; lia).
           split; [|lia]. intros Hin. apply list_elem_of_fmap in Hin as ([a k] & -> & Hk).
           apply Hspec in Hk. simpl in *. lia.
    + rewrite Z.add_0_r, <- Hspec. split.
      * intros [[_ ?]|[? _]]; [done|]. by subst.
      * intros ?. left. split; [|done]. intros ->. done.
Qed.

Lemma occurrences_fmap (label : string) (te : list Timed) :
  occurrences label ((λ r, categorize_duration (duration_minutes r)) <$> te)
  = bucket_size label te.
Proof.
  unfold occurrences, bucket_size. f_equal.
  induction te as [|r te IH]; [done|]. csimpl.
  destruct (decide (categorize_duration (duration_minutes r) = label)).
  - rewrite !filter_cons_True by done. simpl. by rewrite IH.
  - by rewrite !filter_cons_False.
Qed.

Lemma categorize_duration_label (m : Q) : categorize_duration m ∈ category_order.
Proof.
  unfold categorize_duration, category_order.
  repeat case_match; rewrite !elem_of_cons; tauto.
Qed.

Lemma category_code_inj (a b : string) :
  a ∈ category_order -> b ∈ category_order ->
  category_code category_order a = category_code category_order b -> a = b.
Proof.
  unfold category_order. rewrite !elem_of_cons, !elem_of_nil.
  intros [->|[->|[->|[->|[->|[]]]]]] [->|[->|[->|[->|[->|[]]]]]] H;
    try done; by vm_compute in H.
Qed.

Lemma bucket_size_pos_label (label : string) (te : list Timed) :
  0 < bucket_size label te -> label ∈ category_order.
Proof.
  unfold bucket_size. intros Hpos.
  destruct (filter _ te) as [|r l] eqn:Hf; [simpl in Hpos; lia|].
  assert (Hr : r ∈ filter (λ r, categorize_duration (duration_minutes r) = label) te)
    by (rewrite Hf; by left).
  apply list_elem_of_filter in Hr as [<- _]. apply categorize_duration_label.
Qed.

(** X11. The rows of the duration chart: a label has a row exactly when
    some timed event falls in its bucket, and the count of the row is the
    number of those events, so an empty bucket has no row at all; no label
    has two rows; and the rows come in the order of the five categories. *)
Theorem category_counts_rows (te : list Timed) :
  (∀ label n,
     (label, n) ∈ category_counts te <->
     n = bucket_size label te ∧ 0 < n) ∧
  NoDup (category_counts te).*1 ∧
  StronglySorted
    (λ a b, category_code category_order a.1 < category_code category_order b.1)
    (category_counts te).
Proof.
  set (col := (λ r, categorize_duration (duration_minutes r)) <$> te).
  assert (Hperm : category_counts te ≡ₚ tally col).
  { unfold category_counts, value_counts, sort_by. by rewrite !sort_with_perm. }
  destruct (tally_spec col) as [Hnd Hspec].
  assert (Hrows : ∀ label n, (label, n) ∈ category_counts te <->
                             n = bucket_size label te ∧ 0 < n).
  { intros label n. rewrite Hperm, Hspec. unfold col.
    by rewrite occurrences_fmap. }
  assert (Hnd' : NoDup (category_counts te).*1) by (by rewrite Hperm).
  split; [exact Hrows|]. split; [exact Hnd'|].
  assert (Hsorted : StronglySorted
            (λ a b : string * Z, category_code category_order a.1
                                 <= category_code category_order b.1)
            (category_counts te)) by apply sort_by_sorted.
  assert (Hlab : ∀ row, row ∈ category_counts te -> row.1 ∈ category_order).
  { intros [l n] Hin. apply Hrows in Hin as [-> Hpos].
    by apply bucket_size_pos_label in Hpos. }
  revert Hsorted Hnd' Hlab. generalize (category_counts te). clear.
  induction 1 as [|x r Hr IH Hx]; intros Hnd Hlab; [constructor|].
  rewrite fmap_cons in Hnd. apply NoDup_cons in Hnd as [Hx1 Hnd].
  constructor.
  - apply IH; [done|]. intros row Hrow. apply Hlab. by right.
  - rewrite Forall_forall in Hx |- *. intros y Hy. specialize (Hx y Hy).
    assert (category_code category_order x.1 ≠ category_code category_order y.1).
    { intros Heq. apply category_code_inj in Heq;
        [|apply Hlab; by left|apply Hlab; by right].
      apply Hx1. rewrite Heq. apply list_elem_of_fmap. by exists y. }
    lia.
Qed.

(** ** The screen of the upcoming view *)

Lemma date_ltb_asym (x y : Date) : date_ltb x y = true -> date_ltb y x = false.
Proof. unfold date_ltb, date_leb. destruct x, y. simpl. lia. Qed.

Lemma date_ltb_le_trans (x y z : Date) :
  date_ltb x y = true -> date_ltb z y = false -> date_ltb z x = false.
Proof. unfold date_ltb, date_leb. destruct x, y, z. simpl. lia. Qed.

Lemma date_leb_antisym (x y : Date) :
  date_leb x y = true -> date_leb y x = true -> x = y.
Proof.
  unfold date_leb. destruct x as [a b c], y as [a' b' c']. simpl. intros H1 H2.
  assert (a = a' ∧ b = b' ∧ c = c') as (-> & -> & ->) by lia. done.
Qed.

Lemma for_render {A} (l : list A) (f : A -> Widget) (w : World) :
  for_ l (λ x, render (f x)) w
  = (mkWorld (calls w) (screen w ++ (f <$> l)), Ok tt).
Proof.
  revert w. induction l as [|x l IH]; intros w; simpl.
  - unfold ret. rewrite app_nil_r. by destruct w.
  - unfold bind, render at 1. rewrite IH. simpl. by rewrite <- app_assoc.
Qed.

Lemma for_widgets {A} (l : list A) (body : A -> M unit) (g : A -> list Widget) :
  (∀ x w, x ∈ l ->
          body x w = (mkWorld (calls w) (screen w ++ g x), Ok tt)) ->
  ∀ w, for_ l body w
       = (mkWorld (calls w) (screen w ++ flat_map g l), Ok tt).
Proof.
  induction l as [|x l IH]; intros Hb w; simpl.
  - unfold ret. rewrite app_nil_r. by destruct w.
  - unfold bind. rewrite Hb by (by left).
    rewrite IH by (intros y w' Hy; apply Hb; by right).
    simpl. by rewrite <- app_assoc.
Qed.

Lemma event_date_of_heat_date (e : Event) : event_date_of e = heat_date e.
Proof.
  unfold event_date_of, heat_date, date_and_time.
  destruct (parse_start (start_marker e)) as [t|]; [|done]. simpl.
  by destruct t.2.
Qed.

Lemma bucket_events_events_on (d : Date) (events : list Event) :
  bucket_events d events = events_on d events.
Proof.
  unfold bucket_events, events_on. apply list_filter_iff. intros e.
  by rewrite event_date_of_heat_date.
Qed.

Lemma filter_all {A} (P : A -> Prop) `{!∀ x, Decision (P x)} (l : list A) :
  Forall P l -> filter P l = l.
Proof.
  induction 1 as [|x l Hx _ IH]; [done|].
  by rewrite filter_cons_True, IH.
Qed.

(** X12. For a non-empty answer whose starts can all be read, the upcoming
    view ends normally after its one request and shows, under the title,
    one header per date that has an event, in strictly increasing order of
    date, each followed by the cards of the events of that date in the order
    of the answer; there are as many cards as events. *)
Theorem upcoming_view_display (service : Service) (start_date end_date : Date)
    (max_events : Z) (events : list Event) :
  events_list service start_date end_date max_events = Ok (Some events) ->
  events ≠ [] ->
  Forall well_started events ->
  ∃ dates,
    run_view service (Upcoming_ start_date end_date max_events)
    = (mkWorld [EventsList start_date end_date max_events]
         (Title "Upcoming Events" :: flat_map (date_widgets events) dates),
       Ok tt) ∧
    StronglySorted (λ a b, date_ltb a b = true) dates ∧
    (∀ d, d ∈ dates <-> ∃ e, e ∈ events ∧ event_date_of e = Some d) ∧
    Zsum ((λ d, Z.of_nat (length (bucket_events d events))) <$> dates)
    = Z.of_nat (length events).
Proof.
  intros Hlist Hne Hall.
  destruct (events_by_date_spec events Hall) as (m & Hrun & Hm).
  set (keys := (map_to_list m).*1).
  assert (Hkeys : ∀ d, d ∈ keys <-> bucket_events d events ≠ []).
  { intros d. unfold keys. rewrite list_elem_of_fmap. split.
    - intros ([d' b] & -> & Hin). apply elem_of_map_to_list in Hin. simpl.
      by apply (grouped_bucket _ _ _ _ Hm) in Hin as [_ ?].
    - intros Hb. pose proof (Hm d) as Hd.
      destruct (bucket_events d events) as [|x l] eqn:Hbe; [done|].
      eexists (d, _). split; [done|]. by apply elem_of_map_to_list. }
  assert (Hnd : NoDup keys) by apply NoDup_fst_map_to_list.
  set (dates := sort_with date_ltb keys).
  assert (Hperm : dates ≡ₚ keys) by apply sort_with_perm.
  assert (Hdates : ∀ d, d ∈ dates <-> ∃ e, e ∈ events ∧ event_date_of e = Some d).
  { intros d. rewrite Hperm, Hkeys. unfold bucket_events. split.
    - intros Hb. destruct (filter _ events) as [|x l] eqn:Hf; [done|].
      exists x.
      assert (Hx : x ∈ filter (λ e, event_date_of e = Some d) events)
        by (rewrite Hf; by left).
      apply list_elem_of_filter in Hx as [? ?]. by split.
    - intros (e & He & Hd) Hnil.
      assert (Hin : e ∈ filter (λ e, event_date_of e = Some d) events)
        by (by apply list_elem_of_filter).
      rewrite Hnil in Hin. by apply elem_of_nil in Hin. }
  exists dates. split; [|split; [|split; [exact Hdates|]]].
  - unfold run_view, upcoming_view.
    unfold bind at 1. simpl. unfold bind at 1. unfold remote at 1. simpl.
    rewrite Hlist. simpl. destruct events as [|e0 evs] eqn:E; [done|].
    rewrite <- E in *. unfold bind at 1, lift at 1. rewrite Hrun.
    fold keys. fold dates.
    rewrite (for_widgets dates _ (date_widgets events)); [done|].
    intros d w Hd. unfold bind at 1, render at 1. simpl.
    unfold bind at 1, lift at 1.
    rewrite Hperm in Hd. apply Hkeys in Hd.
    assert (Hl : m !! d = Some (card <$> bucket_events d events)).
    { rewrite Hm. by destruct (bucket_events d events). }
    rewrite Hl. cbn [of_option]. rewrite (for_render _ EventCard).
    cbn [calls screen]. unfold date_widgets. by rewrite <- app_assoc.
  - assert (Hs : StronglySorted (λ a b, date_ltb b a = false) dates).
    { apply sort_with_sorted;
        [apply date_ltb_asym|apply date_ltb_le_trans]. }
    assert (Hnd' : NoDup dates) by (by rewrite Hperm).
    clear -Hs Hnd'. induction Hs as [|x r Hr IH Hx]; [constructor|].
    apply NoDup_cons in Hnd' as [Hx1 Hnd']. constructor; [by apply IH|].
    rewrite Forall_forall in Hx |- *. intros y Hy. specialize (Hx y Hy).
    unfold date_ltb in *. apply negb_false_iff in Hx. apply negb_true_iff.
    destruct (date_leb y x) eqn:Hyx; [|done].
    exfalso. apply Hx1. by rewrite (date_leb_antisym x y).
  - assert ((λ d, Z.of_nat (length (bucket_events d events))) <$> dates
            = (λ d, Z.of_nat (length (events_on d events))) <$> dates) as ->.
    { apply list_fmap_ext. intros _ d _. by rewrite bucket_events_events_on. }
    rewrite events_on_total by (by rewrite Hperm).
    unfold events_within. rewrite filter_all; [done|].
    rewrite Forall_forall in Hall |- *. intros e He.
    destruct (well_started_date_and_time e (Hall e He)) as [dt Hdt].
    unfold falls_within. rewrite <- event_date_of_heat_date.
    unfold event_date_of. rewrite Hdt. apply Hdates.
    exists e. split; [done|]. unfold event_date_of. by rewrite Hdt.
Qed.

Lemma upcoming_view_display_witness :
  events_list sample_service (mkDate 2024 1 14) (mkDate 2024 1 28) 10
    = Ok (Some sample_events) ∧
  sample_events ≠ [] ∧
  Forall well_started sample_events ∧
  ∃ dates,
    run_view sample_service (Upcoming_ (mkDate 2024 1 14) (mkDate 2024 1 28) 10)
    = (mkWorld [EventsList (mkDate 2024 1 14) (mkDate 2024 1 28) 10]
         (Title "Upcoming Events" :: flat_map (date_widgets sample_events) dates),
       Ok tt) ∧
    StronglySorted (λ a b, date_ltb a b = true) dates ∧
    (∀ d, d ∈ dates <-> ∃ e, e ∈ sample_events ∧ event_date_of e = Some d) ∧
    Zsum ((λ d, Z.of_nat (length (bucket_events d sample_events))) <$> dates)
    = Z.of_nat (length sample_events).
Proof.
  assert (H2 : sample_events ≠ []) by discriminate.
  split; [reflexivity|]. split; [exact H2|]. split; [exact sample_well_started|].
  exact (upcoming_view_display sample_service (mkDate 2024 1 14)
           (mkDate 2024 1 28) 10 sample_events eq_refl H2 sample_well_started).
Defined.

(** ** The screen of the analytics view *)

(** X13. For a valid range and a non-empty answer that can be read, the
    analytics view ends normally after its one request; the metric of the
    total is the number of events of the answer; the bars of the weekday
    chart add up to that total; and the cells of the heatmap add up to at
    most that total, the events dated outside the range being left out. *)
Theorem analytics_view_totals (service : Service)
    (analytics_start analytics_end : Date) (events : list Event) :
  date_leb analytics_start analytics_end = true ->
  valid_md analytics_start ->
  events_list service analytics_start analytics_end 1000 = Ok (Some events) ->
  events ≠ [] ->
  Forall well_started events -> Forall well_timed events ->
  ∃ heat days rest,
    run_view service (Analytics_ analytics_start analytics_end)
    = (mkWorld [EventsList analytics_start analytics_end 1000]
         ([Title "Calendar Activity Analytics"; Subheader "Select Date Range";
           MetricCount "Total Events" (Z.of_nat (length events));
           Subheader "Calendar Activity Heatmap";
           Markdown "This heatmap shows your calendar activity pattern. Darker colors indicate more events scheduled on that day.";
           HeatmapChart heat;
           Subheader "Event Distribution by Day of Week";
           DayChart days;
           Subheader "Event Duration Analysis"] ++ rest),
       Ok tt) ∧
    heat.*1 = date_range analytics_start analytics_end ∧
    days.*1 = days_order ∧
    Zsum days.*2 = Z.of_nat (length events) ∧
    Zsum heat.*2 <= Z.of_nat (length events).
Proof.
  intros Hle Hs Hlist Hne Hall Htimed.
  exists (rows_after (date_range analytics_start analytics_end) events),
         ((λ day, (day, Z.of_nat (length (on_day day events)))) <$> days_order),
         (duration_widgets (timed_row <$> filter (λ e, has_both e = true) events)).
  split; [|split; [|split; [|split]]].
  - unfold run_view, analytics_view.
    unfold bind at 1. simpl. unfold bind at 1. simpl. rewrite Hle.
    unfold bind at 1, remote at 1. simpl. rewrite Hlist. simpl.
    rewrite analyse_run by done. simpl.
    unfold analysis_widgets. by destruct events.
  - unfold rows_after. rewrite <- list_fmap_compose. apply list_fmap_id.
  - rewrite <- list_fmap_compose. apply list_fmap_id.
  - rewrite <- list_fmap_compose. by apply on_day_total.
  - rewrite rows_after_total by (by apply date_range_NoDup).
    apply inj_le, length_filter.
Qed.

Lemma analytics_view_totals_witness :
  date_leb (mkDate 2024 1 14) (mkDate 2024 1 16) = true ∧
  valid_md (mkDate 2024 1 14) ∧
  events_list sample_service (mkDate 2024 1 14) (mkDate 2024 1 16) 1000
    = Ok (Some sample_events) ∧
  sample_events ≠ [] ∧
  Forall well_started sample_events ∧ Forall well_timed sample_events ∧
  ∃ heat days rest,
    run_view sample_service (Analytics_ (mkDate 2024 1 14) (mkDate 2024 1 16))
    = (mkWorld [EventsList (mkDate 2024 1 14) (mkDate 2024 1 16) 1000]
         ([Title "Calendar Activity Analytics"; Subheader "Select Date Range";
           MetricCount "Total Events" (Z.of_nat (length sample_events));
           Subheader "Calendar Activity Heatmap";
           Markdown "This heatmap shows your calendar activity pattern. Darker colors indicate more events scheduled on that day.";
           HeatmapChart heat;
           Subheader "Event Distribution by Day of Week";
           DayChart days;
           Subheader "Event Duration Analysis"] ++ rest),
       Ok tt) ∧
    heat.*1 = date_range (mkDate 2024 1 14) (mkDate 2024 1 16) ∧
    days.*1 = days_order ∧
    Zsum days.*2 = Z.of_nat (length sample_events) ∧
    Zsum heat.*2 <= Z.of_nat (length sample_events).
Proof.
  assert (H4 : sample_events ≠ []) by discriminate.
  split; [reflexivity|]. split; [exact (proj1 sample_valid_range)|].
  split; [reflexivity|]. split; [exact H4|].
  split; [exact sample_well_started|]. split; [exact sample_well_timed|].
  exact (analytics_view_totals sample_service (mkDate 2024 1 14)
           (mkDate 2024 1 16) sample_events eq_refl (proj1 sample_valid_range)
           eq_refl H4 sample_well_started sample_well_timed).
Defined.

(** ** Authentication *)

(** X14. When [get_calendar_service] returns a service, the token file
    holds afterwards the credentials the service was built from; when it
    raises, either the file is as it was before (the refresh or the login
    failed) or it holds the new credentials and it is [build] that raised. *)
Theorem token_file_after (idp : Auth.Provider) (file file' : option Auth.Creds)
    (r : Result Service) :
  Auth.get_calendar_service idp file = (file', r) ->
  match r with
  | Ok svc => ∃ c, file' = Some c ∧ Auth.build idp c = Ok svc
  | Raise e => file' = file ∨ ∃ c, file' = Some c ∧ Auth.build idp c = Raise e
  end.
Proof.
  unfold Auth.get_calendar_service.
  destruct file as [c|]; simpl.
  - destruct (Auth.valid c); simpl.
    + intros [= <- <-]. destruct (Auth.build idp c) eqn:Hb; eauto.
    + destruct (Auth.expired c && truthy (Auth.refresh_token c));
        [destruct (Auth.refresh idp c) as [c'|e]
        |destruct (Auth.login idp) as [c'|e]];
        intros [= <- <-]; try (by left);
        destruct (Auth.build idp c') eqn:Hb; eauto.
  - destruct (Auth.login idp) as [c'|e]; intros [= <- <-]; [|by left].
    destruct (Auth.build idp c') eqn:Hb; eauto.
Qed.

Lemma token_file_after_witness :
  Auth.get_calendar_service refreshing_provider
    (Some (Auth.mkCreds "t1" false true (Some "r")))
  = (Some (Auth.mkCreds "t2" true false (Some "r")), Ok sample_service) ∧
  ∃ c, Some (Auth.mkCreds "t2" true false (Some "r")) = Some c ∧
       Auth.build refreshing_provider c = Ok sample_service.
Proof.
  split; [reflexivity|].
  exact (token_file_after refreshing_provider
           (Some (Auth.mkCreds "t1" false true (Some "r")))
           (Some (Auth.mkCreds "t2" true false (Some "r")))
           (Ok sample_service) eq_refl).
Defined.

(** X15. With credentials in the token file that are valid, or expired
    with a refresh token, the login flow plays no part: the outcome is the
    same whatever the login would return.  Valid credentials are used as
    they are, without a refresh, and the file is left as it is. *)
Theorem cached_credentials_reused (idp : Auth.Provider) (c : Auth.Creds) :
  Auth.valid c = true ∨
  (Auth.expired c = true ∧ truthy (Auth.refresh_token c) = true) ->
  (∀ other_login,
     Auth.get_calendar_service idp (Some c)
     = Auth.get_calendar_service
         (Auth.mkProvider (Auth.refresh idp) other_login (Auth.build idp))
         (Some c)) ∧
  (Auth.valid c = true ->
   Auth.get_calendar_service idp (Some c) = (Some c, Auth.build idp c)).
Proof.
  unfold Auth.get_calendar_service. intros H. split.
  - intros other. simpl. destruct (Auth.valid c); [done|].
    destruct H as [?|[-> ->]]; done.
  - by intros ->.
Qed.

Lemma cached_credentials_reused_witness :
  (Auth.valid (Auth.mkCreds "t1" false true (Some "r")) = true ∨
   (Auth.expired (Auth.mkCreds "t1" false true (Some "r")) = true ∧
    truthy (Auth.refresh_token (Auth.mkCreds "t1" false true (Some "r")))
    = true)) ∧
  (∀ other_login,
     Auth.get_calendar_service refreshing_provider
       (Some (Auth.mkCreds "t1" false true (Some "r")))
     = Auth.get_calendar_service
         (Auth.mkProvider (Auth.refresh refreshing_provider) other_login
                          (Auth.build refreshing_provider))
         (Some (Auth.mkCreds "t1" false true (Some "r")))) ∧
  (Auth.valid (Auth.mkCreds "t1" false true (Some "r")) = true ->
   Auth.get_calendar_service refreshing_provider
     (Some (Auth.mkCreds "t1" false true (Some "r")))
   = (Some (Auth.mkCreds "t1" false true (Some "r")),
      Auth.build refreshing_provider (Auth.mkCreds "t1" false true (Some "r")))).
Proof.
  assert (H : Auth.valid (Auth.mkCreds "t1" false true (Some "r")) = true ∨
              (Auth.expired (Auth.mkCreds "t1" false true (Some "r")) = true ∧
               truthy (Auth.refresh_token
                         (Auth.mkCreds "t1" false true (Some "r"))) = true))
    by (right; split; reflexivity).
  split; [exact H|].
  exact (cached_credentials_reused refreshing_provider
           (Auth.mkCreds "t1" false true (Some "r")) H).
Defined.

(** X16. A failed authentication leaves the session without a service, and
    a successful one stores the service that was built; the chosen view is
    kept in both cases. *)
Theorem connect_outcome (idp : Auth.Provider) (file : option Auth.Creds)
    (session : Auth.Session) :
  Auth.service session = None ->
  let after := Auth.connect idp (file, session) in
  Auth.view after.2 = Auth.view session ∧
  match (Auth.get_calendar_service idp file).2 with
  | Ok svc => Auth.service after.2 = Some svc
  | Raise _ => Auth.service after.2 = None
  end.
Proof.
  intros Hnone. unfold Auth.connect. simpl.
  destruct (Auth.get_calendar_service idp file) as [file' [svc|e]]; simpl; eauto.
Qed.

Lemma connect_outcome_witness :
  Auth.service (Auth.mkSession None "upcoming") = None ∧
  let after :=
    Auth.connect failing_provider (None, Auth.mkSession None "upcoming") in
  Auth.view after.2 = Auth.view (Auth.mkSession None "upcoming") ∧
  match (Auth.get_calendar_service failing_provider None).2 with
  | Ok svc => Auth.service after.2 = Some svc
  | Raise _ => Auth.service after.2 = None
  end.
Proof.
  split; [reflexivity|].
  exact (connect_outcome failing_provider None
           (Auth.mkSession None "upcoming") eq_refl).
Defined.

(** X17. After a logout there is no token file and no service, and the next
    click on "Connect" goes through the login flow, whatever the file held
    before: its outcome is that of the login and of [build] alone. *)
Theorem logout_then_connect (idp : Auth.Provider) (file : option Auth.Creds)
    (session : Auth.Session) :
  let out := Auth.logout (file, session) in
  out.1 = None ∧ Auth.service out.2 = None ∧
  Auth.view out.2 = Auth.view session ∧
  Auth.connect idp out =
    match Auth.login idp with
    | Ok c =>
        match Auth.build idp c with
        | Ok svc => (Some c, Auth.mkSession (Some svc) (Auth.view session))
        | Raise _ => (Some c, Auth.mkSession None (Auth.view session))
        end
    | Raise _ => (None, Auth.mkSession None (Auth.view session))
    end.
Proof.
  unfold Auth.logout, Auth.connect, Auth.get_calendar_service. simpl.
  repeat split. destruct (Auth.login idp) as [c|e]; [|done].
  by destruct (Auth.build idp c).
Qed.

(** ** Reading back what the creation view sends *)

Lemma digit_cases (a : Z) :
  0 <= a <= 9 ->
  a = 0 ∨ a = 1 ∨ a = 2 ∨ a = 3 ∨ a = 4 ∨ a = 5 ∨ a = 6 ∨ a = 7 ∨ a = 8 ∨ a = 9.
Proof. lia. Qed.

Lemma digit_digit_char (a : Z) :
  0 <= a <= 9 -> Parse.digit (digit_char a) = Some a.
Proof.
  intros H.
  destruct (digit_cases a H) as [->|[->|[->|[->|[->|[->|[->|[->|[->| ->]]]]]]]]];
    reflexivity.
Qed.

Lemma digit_char_eqb (a : Z) (c : ascii) :
  0 <= a <= 9 -> Parse.digit c = None -> Ascii.eqb (digit_char a) c = false.
Proof.
  intros H Hc. destruct (Ascii.eqb_spec (digit_char a) c) as [<-|]; [|done].
  by rewrite digit_digit_char in Hc.
Qed.

Ltac read_digits :=
  repeat (cbn -[digit_char Parse.digit Z.mul Z.add];
          rewrite ?digit_digit_char, ?digit_char_eqb by (lia || reflexivity)).

Lemma parse_isoformat_date_digits (y1 y2 y3 y4 m1 m2 d1 d2 : Z) :
  0 <= y1 <= 9 -> 0 <= y2 <= 9 -> 0 <= y3 <= 9 -> 0 <= y4 <= 9 ->
  0 <= m1 <= 9 -> 0 <= m2 <= 9 -> 0 <= d1 <= 9 -> 0 <= d2 <= 9 ->
  Parse.parse_isoformat_date
    (String (digit_char y1) (String (digit_char y2) (String (digit_char y3)
    (String (digit_char y4) (String "-" (String (digit_char m1)
    (String (digit_char m2) (String "-" (String (digit_char d1)
    (String (digit_char d2) ""))))))))))
  = Some (((y1 * 10 + y2) * 10 + y3) * 10 + y4, m1 * 10 + m2, d1 * 10 + d2).
Proof.
  intros. unfold Parse.parse_isoformat_date, Parse.number. read_digits.
  repeat f_equal; lia.
Qed.

Lemma parse_isoformat_time_digits (h1 h2 n1 n2 s1 s2 : Z) :
  0 <= h1 <= 9 -> 0 <= h2 <= 9 -> 0 <= n1 <= 9 -> 0 <= n2 <= 9 ->
  0 <= s1 <= 9 -> 0 <= s2 <= 9 ->
  Parse.parse_isoformat_time
    (String (digit_char h1) (String (digit_char h2) (String ":"
    (String (digit_char n1) (String (digit_char n2) (String ":"
    (String (digit_char s1) (String (digit_char s2) ""))))))))
  = Some (h1 * 10 + h2, n1 * 10 + n2, s1 * 10 + s2, 0, None).
Proof.
  intros.
  unfold Parse.parse_isoformat_time, Parse.tz_pos, Parse.parse_hh_mm_ss_ff,
    Parse.number.
  read_digits. repeat f_equal; lia.
Qed.

Lemma valid_date_bounds (d : Date) :
  valid_date d = true ->
  1 <= year d <= 9999 ∧ 1 <= month d <= 12 ∧ 1 <= day d <= 31.
Proof.
  unfold valid_date, MINYEAR, MAXYEAR. intros H.
  pose proof (days_in_month_bounds (year d) (month d)). lia.
Qed.

Lemma isoformat_read_back (d : Date) (h m : Z) :
  valid_date d = true -> 0 <= h < 24 -> 0 <= m < 60 ->
  let s := Format.isoformat (mkDateTime d h m 0 0 None) in
  Parse.contains "T" s = true ∧
  Parse.replace "Z" "+00:00" s = s ∧
  Parse.fromisoformat s = Some (mkDateTime d h m 0 0 None).
Proof.
  intros Hd Hh Hm. pose proof (valid_date_bounds d Hd) as (Hy & Hmo & Hda).
  destruct d as [y mo da]. simpl in Hy, Hmo, Hda.
  cbv beta iota delta [Format.isoformat Format.four_digits Format.format_time
                       two_digits String.append dt_date year month day hour
                       minute second microsecond utcoffset Z.eqb].
  set (y1 := y / 1000). set (y2 := y / 100 mod 10).
  set (y3 := y mod 100 / 10). set (y4 := y mod 100 mod 10).
  set (m1 := mo / 10). set (m2 := mo mod 10).
  set (d1 := da / 10). set (d2 := da mod 10).
  set (h1 := h / 10). set (h2 := h mod 10).
  set (n1 := m / 10). set (n2 := m mod 10).
  set (s1 := 0 / 10). set (s2 := 0 mod 10).
  assert (0 <= y1 <= 9 ∧ 0 <= y2 <= 9 ∧ 0 <= y3 <= 9 ∧ 0 <= y4 <= 9 ∧
          0 <= m1 <= 9 ∧ 0 <= m2 <= 9 ∧ 0 <= d1 <= 9 ∧ 0 <= d2 <= 9 ∧
          0 <= h1 <= 9 ∧ 0 <= h2 <= 9 ∧ 0 <= n1 <= 9 ∧ 0 <= n2 <= 9 ∧
          0 <= s1 <= 9 ∧ 0 <= s2 <= 9)
    as (?&?&?&?&?&?&?&?&?&?&?&?&?&?)
    by (unfold y1, y2, y3, y4, m1, m2, d1, d2, h1, h2, n1, n2, s1, s2;
        Z.div_mod_to_equations; lia).
  assert (Hyear : ((y1 * 10 + y2) * 10 + y3) * 10 + y4 = y)
    by (unfold y1, y2, y3, y4; Z.div_mod_to_equations; lia).
  assert (Hmonth : m1 * 10 + m2 = mo)
    by (unfold m1, m2; Z.div_mod_to_equations; lia).
  assert (Hday : d1 * 10 + d2 = da)
    by (unfold d1, d2; Z.div_mod_to_equations; lia).
  assert (Hhour : h1 * 10 + h2 = h)
    by (unfold h1, h2; Z.div_mod_to_equations; lia).
  assert (Hmin : n1 * 10 + n2 = m)
    by (unfold n1, n2; Z.div_mod_to_equations; lia).
  assert (Hsec : s1 * 10 + s2 = 0) by reflexivity.
  clearbody y1 y2 y3 y4 m1 m2 d1 d2 h1 h2 n1 n2 s1 s2.
  split; [by read_digits|]. split; [by read_digits|].
  unfold Parse.fromisoformat. cbn -[digit_char Parse.digit Z.mul Z.add].
  rewrite parse_isoformat_date_digits, parse_isoformat_time_digits by done.
  cbn -[digit_char Parse.digit Z.mul Z.add valid_date Parse.valid_time].
  rewrite Hyear, Hmonth, Hday, Hhour, Hmin, Hsec, Hd.
  assert (Parse.valid_time h m 0 0 = true) as ->
    by (unfold Parse.valid_time; lia).
  done.
Qed.

Lemma day_digits_digit (a : Z) (rest : string) :
  0 <= a <= 9 ->
  Parse.day_digits (String (digit_char a) rest)
  = Parse.one_or_two_digits (String (digit_char a) rest).
Proof.
  intros H.
  destruct (digit_cases a H) as [->|[->|[->|[->|[->|[->|[->|[->|[->| ->]]]]]]]]];
    reflexivity.
Qed.

Lemma strftime_Ymd_read_back (d : Date) :
  valid_date d = true ->
  Parse.contains "T" (Format.strftime_Ymd d) = false ∧
  Parse.strptime_ymd (Format.strftime_Ymd d) = Some d.
Proof.
  intros Hd. pose proof (valid_date_bounds d Hd) as (Hy & Hmo & Hda).
  destruct d as [y mo da]. simpl in Hy, Hmo, Hda.
  cbv beta iota delta [Format.strftime_Ymd Format.four_digits two_digits
                       String.append year month day].
  set (y1 := y / 1000). set (y2 := y / 100 mod 10).
  set (y3 := y mod 100 / 10). set (y4 := y mod 100 mod 10).
  set (m1 := mo / 10). set (m2 := mo mod 10).
  set (d1 := da / 10). set (d2 := da mod 10).
  assert (0 <= y1 <= 9 ∧ 0 <= y2 <= 9 ∧ 0 <= y3 <= 9 ∧ 0 <= y4 <= 9 ∧
          0 <= m1 <= 9 ∧ 0 <= m2 <= 9 ∧ 0 <= d1 <= 9 ∧ 0 <= d2 <= 9)
    as (?&?&?&?&?&?&?&?)
    by (unfold y1, y2, y3, y4, m1, m2, d1, d2; Z.div_mod_to_equations; lia).
  assert (Hyear : ((0 * 10 + y1) * 10 + y2) * 10 + y3 = y / 10 ∧
                  (((0 * 10 + y1) * 10 + y2) * 10 + y3) * 10 + y4 = y)
    by (unfold y1, y2, y3, y4; Z.div_mod_to_equations; lia).
  assert (Hmonth : m1 * 10 + m2 = mo)
    by (unfold m1, m2; Z.div_mod_to_equations; lia).
  assert (Hday : d1 * 10 + d2 = da)
    by (unfold d1, d2; Z.div_mod_to_equations; lia).
  clearbody y1 y2 y3 y4 m1 m2 d1 d2.
  split; [by read_digits|].
  unfold Parse.strptime_ymd, Parse.number, Parse.one_or_two_digits.
  repeat (cbn -[digit_char Parse.digit Z.mul Z.add Parse.day_digits Parse.len];
          rewrite ?digit_digit_char, ?digit_char_eqb by (lia || reflexivity)).
  rewrite day_digits_digit by done.
  unfold Parse.one_or_two_digits. read_digits.
  match goal with |- context [Parse.len ?s] =>
    change (Parse.len s) with 10 end.
  cbn -[Z.mul Z.add valid_date].
  rewrite (proj2 Hyear), Hmonth, Hday, Hd.
  assert ((1 <=? mo) && (1 <=? da) = true) as -> by lia.
  done.
Qed.

(** X18. What the creation view sends as the start of an event is read
    back by the views as the same date and time: the start marker parses
    to the date (and the time of day) of the form, as a date-time for a
    timed event and as a date for an all-day one, and the list of upcoming
    events files the stored event under that date alone, with the time of
    the form, or "All day", as its label. *)
Theorem sent_start_read_back (b : EventBody) :
  when_valid (b_start b) ->
  parse_start (start_marker (stored b))
  = Ok (when_datetime (b_start b), when_timed (b_start b)) ∧
  events_by_date [stored b]
  = Ok {[ dt_date (when_datetime (b_start b)) :=
            [ {| d_time := when_label (b_start b);
                 d_summary := b_summary b;
                 d_description := b_description b;
                 d_location := b_location b;
                 d_color := b_colorId b |} ] ]}.
Proof.
  intros Hv.
  assert (Hp : parse_start (start_marker (stored b))
               = Ok (when_datetime (b_start b), when_timed (b_start b))).
  { unfold parse_start, start_marker, stored. cbn [start].
    destruct (b_start b) as [d|d h m];
      cbn [Format.when_payload dateTime date when_datetime when_timed
           when_valid] in *.
    - destruct Hv as [Hd _].
      destruct (strftime_Ymd_read_back d Hd) as [-> ->]. done.
    - destruct Hv as (Hd & Hh & Hm).
      destruct (isoformat_read_back d h m Hd Hh Hm) as (-> & -> & ->). done. }
  split; [exact Hp|].
  unfold events_by_date. simpl. unfold group_event, date_and_time.
  rewrite Hp. simpl.
  assert (Hl : (if when_timed (b_start b)
                then Ok (dt_date (when_datetime (b_start b)),
                         strftime_HM (when_datetime (b_start b)))
                else Ok (dt_date (when_datetime (b_start b)), "All day"))
               = Ok (dt_date (when_datetime (b_start b)), when_label (b_start b)))
    by (by destruct (b_start b)).
  rewrite Hl. simpl. rewrite lookup_empty, lookup_insert_eq. simpl.
  by rewrite insert_insert_eq, insert_empty.
Qed.

Lemma sent_start_read_back_witness :
  when_valid (b_start (body_of (sample_form "Review") 60 "0")) ∧
  parse_start (start_marker (stored (body_of (sample_form "Review") 60 "0")))
  = Ok (when_datetime (b_start (body_of (sample_form "Review") 60 "0")),
        when_timed (b_start (body_of (sample_form "Review") 60 "0"))) ∧
  events_by_date [stored (body_of (sample_form "Review") 60 "0")]
  = Ok {[ dt_date (when_datetime (b_start (body_of (sample_form "Review") 60 "0")))
          := [ {| d_time := when_label (b_start (body_of (sample_form "Review") 60 "0"));
                  d_summary := b_summary (body_of (sample_form "Review") 60 "0");
                  d_description := b_description (body_of (sample_form "Review") 60 "0");
                  d_location := b_location (body_of (sample_form "Review") 60 "0");
                  d_color := b_colorId (body_of (sample_form "Review") 60 "0") |} ] ]}.
Proof.
  assert (H : when_valid (b_start (body_of (sample_form "Review") 60 "0")))
    by (simpl; repeat split; (reflexivity || lia)).
  split; [exact H|].
  exact (sent_start_read_back (body_of (sample_form "Review") 60 "0") H).
Defined.

Lemma valid_date_iff (d : Date) :
  valid_date d = true <-> 1 <= year d <= 9999 ∧ valid_md d.
Proof. unfold valid_date, valid_md, MINYEAR, MAXYEAR. lia. Qed.

Lemma next_day_valid_date (d : Date) :
  valid_date d = true -> year d < 9999 -> valid_date (next_day d) = true.
Proof.
  rewrite !valid_date_iff. intros [Hy Hmd] Hlt. split; [|by apply next_day_valid].
  unfold next_day. repeat case_match; simpl; lia.
Qed.

(** X19. A timed event that the creation view sends for a duration of [n]
    minutes is measured by the duration analysis as lasting [n] minutes,
    also when it ends on the next day: the stored event gives one timed row,
    with the title of the form and the duration [n]. *)
Theorem sent_duration_read_back (f : Form) (n : Z) (color : string) :
  all_day f = false ->
  valid_date (event_date f) = true -> year (event_date f) < 9999 ->
  0 <= (event_time f).1 < 24 -> 0 <= (event_time f).2 < 60 ->
  0 <= n <= 659 ->
  ∃ row,
    timed_events [stored (body_of f n color)] = Ok [row] ∧
    t_summary row = event_title f ∧
    (duration_minutes row == inject_Z n)%Q ∧
    categorize_duration (duration_minutes row)
    = categorize_duration (inject_Z n).
Proof.
  intros Hall Hd Hy Hh Hm Hn.
  destruct (event_time f) as [h m] eqn:Ht. simpl in Hh, Hm.
  set (d := event_date f) in *.
  set (t := h * 60 + m + n).
  set (d' := add_days (Z.to_nat (t / 1440)) d).
  assert (Hk : t / 1440 = 0 ∨ t / 1440 = 1)
    by (unfold t; Z.div_mod_to_equations; lia).
  assert (Hd' : valid_date d' = true ∧ toordinal d' = toordinal d + t / 1440).
  { unfold d'. destruct Hk as [-> | ->]; simpl.
    - split; [done|lia].
    - split; [by apply next_day_valid_date|].
      apply toordinal_next_day. by apply valid_date_iff in Hd as [_ ?]. }
  destruct Hd' as [Hvd' Hord].
  assert (Hh' : 0 <= t mod 1440 / 60 < 24 ∧ 0 <= t mod 60 < 60)
    by (Z.div_mod_to_equations; lia).
  destruct Hh' as [Hh' Hm'].
  destruct (isoformat_read_back d h m Hd Hh Hm) as (_ & Hr1 & Hp1).
  destruct (isoformat_read_back d' _ _ Hvd' Hh' Hm') as (_ & Hr2 & Hp2).
  set (e := stored (body_of f n color)).
  assert (Hst : stamps e (mkDateTime d h m 0 0 None)
                  (mkDateTime d' (t mod 1440 / 60) (t mod 60) 0 0 None)
                  (n * 60000000)).
  { eexists _, _. unfold e, stored, body_of, plus_minutes. rewrite Hall, Ht.
    simpl. split; [reflexivity|]. split; [reflexivity|].
    unfold iso. fold d t d'. rewrite Hr1, Hp1, Hr2, Hp2. simpl.
    split; [done|]. split; [done|].
    unfold sub_datetime, wall_micros. simpl. f_equal. rewrite Hord.
    Z.div_mod_to_equations. lia. }
  assert (Hb : has_both e = true).
  { unfold has_both, e, stored, body_of, plus_minutes. by rewrite Hall, Ht. }
  exists (timed_row e). split; [|split; [|split]].
  - unfold timed_events. simpl.
    rewrite (add_timed_timed [] e Hb) by (intros _; eauto). done.
  - done.
  - simpl. rewrite (stamps_minutes _ _ _ _ Hst). unfold minutes_of_micros, Qeq.
    simpl. lia.
  - simpl. rewrite (stamps_minutes _ _ _ _ Hst).
    unfold categorize_duration.
    assert (Heq : (minutes_of_micros (n * 60000000) == inject_Z n)%Q)
      by (unfold minutes_of_micros, Qeq; simpl; lia).
    assert (Hle : ∀ q, Qle_bool (minutes_of_micros (n * 60000000)) q
                       = Qle_bool (inject_Z n) q).
    { intros q. apply eq_true_iff_eq. rewrite !Qle_bool_iff. by rewrite Heq. }
    by rewrite !Hle.
Qed.

Lemma sent_duration_read_back_witness :
  all_day late_form = false ∧
  valid_date (event_date late_form) = true ∧ year (event_date late_form) < 9999 ∧
  0 <= (event_time late_form).1 < 24 ∧ 0 <= (event_time late_form).2 < 60 ∧
  0 <= 60 <= 659 ∧
  ∃ row,
    timed_events [stored (body_of late_form 60 "11")] = Ok [row] ∧
    t_summary row = event_title late_form ∧
    (duration_minutes row == inject_Z 60)%Q ∧
    categorize_duration (duration_minutes row)
    = categorize_duration (inject_Z 60).
Proof.
  assert (H3 : year (event_date late_form) < 9999) by (simpl; lia).
  assert (H4 : 0 <= (event_time late_form).1 < 24) by (simpl; lia).
  assert (H5 : 0 <= (event_time late_form).2 < 60) by (simpl; lia).
  assert (H6 : 0 <= 60 <= 659) by lia.
  split; [reflexivity|]. split; [reflexivity|]. split; [exact H3|].
  split; [exact H4|]. split; [exact H5|]. split; [exact H6|].
  exact (sent_duration_read_back late_form 60 "11" eq_refl eq_refl H3 H4 H5 H6).
Defined.

Example late_form_stored :
  stored (body_of late_form 60 "11")
  = {| start := mkTimeSpec (Some "2024-12-31T23:30:00") None;
       end_ := mkTimeSpec (Some "2025-01-01T00:30:00") None;
       summary := Some "Fireworks";
       description := Some "";
       location := Some "";
       colorId := Some "11" |}.
Proof. reflexivity. Qed.

(** ** The days of the heatmap *)

Lemma days_from_length (n : nat) (d : Date) : length (days_from n d) = n.
Proof. revert d. induction n as [|n IH]; intros d; simpl; [done|]. by rewrite IH. Qed.

Lemma days_from_increasing (n : nat) (d : Date) :
  valid_md d -> StronglySorted (λ a b, date_ltb a b = true) (days_from n d).
Proof.
  revert d. induction n as [|n IH]; intros d Hd; simpl; constructor.
  - by apply IH, next_day_valid.
  - rewrite Forall_forall. intros x Hx.
    apply (elem_of_days_from _ _ _ (next_day_valid d Hd)) in Hx as [Hvx Hx].
    rewrite toordinal_next_day in Hx by done.
    unfold date_ltb. apply negb_true_iff.
    destruct (date_leb x d) eqn:Hle; [|done].
    apply toordinal_leb in Hle; [lia|done..].
Qed.

Lemma date_leb_refl (d : Date) : date_leb d d = true.
Proof. unfold date_leb. destruct d. simpl. lia. Qed.

Lemma days_from_lookup (n k : nat) (d : Date) :
  (k < n)%nat -> days_from n d !! k = Some (add_days k d).
Proof.
  revert k d. induction n as [|n IH]; intros k d Hk; [lia|].
  destruct k as [|k]; [done|]. cbn [days_from add_days]. apply IH. lia.
Qed.

Lemma elem_of_date_range_valid (start_date end_date x : Date) :
  valid_md start_date -> valid_md end_date ->
  x ∈ date_range start_date end_date <->
  valid_md x ∧ date_leb start_date x = true ∧ date_leb x end_date = true.
Proof.
  intros Hs He. split.
  - intros Hx. assert (Hv : valid_md x).
    { unfold date_range in Hx. by apply elem_of_days_from in Hx as [? _]. }
    split; [done|]. by apply elem_of_date_range.
  - intros (Hv & Hle). by apply elem_of_date_range.
Qed.

(** X20. The frame of the heatmap has one row for each day from
    [start_date] to [end_date] and no other row, in strictly increasing
    order of date: a date has a row exactly when it is a date of the
    calendar from [start_date] to [end_date]; row [k] is the day [k] days
    after [start_date]; both dates have a row when the start is not after
    the end, and the frame is empty, without any exception, when it is. *)
Theorem heatmap_rows (events : list Event) (start_date end_date : Date) :
  Forall well_started events ->
  valid_md start_date -> valid_md end_date ->
  ∃ df,
    calendar_df events start_date end_date = Ok df ∧
    Z.of_nat (length df)
    = Z.max 0 (toordinal end_date - toordinal start_date + 1) ∧
    StronglySorted (λ a b, date_ltb a b = true) df.*1 ∧
    (∀ d, d ∈ df.*1 <->
          valid_md d ∧ date_leb start_date d = true ∧ date_leb d end_date = true) ∧
    (∀ k, (k < length df)%nat -> df.*1 !! k = Some (add_days k start_date)) ∧
    (date_leb start_date end_date = true ->
     start_date ∈ df.*1 ∧ end_date ∈ df.*1) ∧
    (date_leb start_date end_date = false -> df = []).
Proof.
  intros Hall Hs He. eexists. split; [by apply calendar_df_spec|].
  assert (Hd : (rows_after (date_range start_date end_date) events).*1
               = date_range start_date end_date).
  { unfold rows_after. rewrite <- list_fmap_compose. apply list_fmap_id. }
  rewrite Hd. split; [|split; [|split; [|split; [|split]]]].
  - unfold rows_after, date_range. rewrite length_fmap, days_from_length. lia.
  - by apply days_from_increasing.
  - intros d. by apply elem_of_date_range_valid.
  - intros k Hk. unfold rows_after in Hk. rewrite length_fmap in Hk.
    unfold date_range in *. rewrite days_from_length in Hk.
    by apply days_from_lookup.
  - intros Hle. rewrite !elem_of_date_range by done.
    by rewrite !date_leb_refl, Hle.
  - intros Hlt. unfold rows_after, date_range.
    assert (toordinal end_date < toordinal start_date) as Hord.
    { destruct (Z.lt_ge_cases (toordinal end_date) (toordinal start_date));
        [done|].
      apply toordinal_leb in H; [congruence|done..]. }
    replace (Z.to_nat _) with 0%nat by lia. done.
Qed.

Lemma heatmap_rows_witness :
  Forall well_started sample_events ∧
  valid_md (mkDate 2024 1 14) ∧ valid_md (mkDate 2024 1 16) ∧
  ∃ df,
    calendar_df sample_events (mkDate 2024 1 14) (mkDate 2024 1 16) = Ok df ∧
    Z.of_nat (length df)
    = Z.max 0 (toordinal (mkDate 2024 1 16) - toordinal (mkDate 2024 1 14) + 1) ∧
    StronglySorted (λ a b, date_ltb a b = true) df.*1 ∧
    (∀ d, d ∈ df.*1 <->
          valid_md d ∧ date_leb (mkDate 2024 1 14) d = true
          ∧ date_leb d (mkDate 2024 1 16) = true) ∧
    (∀ k, (k < length df)%nat ->
          df.*1 !! k = Some (add_days k (mkDate 2024 1 14))) ∧
    (date_leb (mkDate 2024 1 14) (mkDate 2024 1 16) = true ->
     mkDate 2024 1 14 ∈ df.*1 ∧ mkDate 2024 1 16 ∈ df.*1) ∧
    (date_leb (mkDate 2024 1 14) (mkDate 2024 1 16) = false -> df = []).
Proof.
  split; [exact sample_well_started|].
  split; [exact (proj1 sample_valid_range)|].
  split; [exact (proj2 sample_valid_range)|].
  exact (heatmap_rows sample_events (mkDate 2024 1 14) (mkDate 2024 1 16)
           sample_well_started (proj1 sample_valid_range)
           (proj2 sample_valid_range)).
Defined.

(** ** Time stamps in UTC *)

Lemma digit_zero : Parse.digit "0" = Some 0.
Proof. reflexivity. Qed.

Lemma parse_isoformat_time_utc (h1 h2 n1 n2 s1 s2 : Z) :
  0 <= h1 <= 9 -> 0 <= h2 <= 9 -> 0 <= n1 <= 9 -> 0 <= n2 <= 9 ->
  0 <= s1 <= 9 -> 0 <= s2 <= 9 ->
  Parse.parse_isoformat_time
    (String (digit_char h1) (String (digit_char h2) (String ":"
    (String (digit_char n1) (String (digit_char n2) (String ":"
    (String (digit_char s1) (String (digit_char s2) "+00:00"))))))))
  = Some (h1 * 10 + h2, n1 * 10 + n2, s1 * 10 + s2, 0, Some 0).
Proof.
  intros.
  unfold Parse.parse_isoformat_time, Parse.tz_pos, Parse.parse_tz,
    Parse.parse_hh_mm_ss_ff, Parse.number.
  repeat (cbn -[digit_char Parse.digit Z.mul Z.add];
          rewrite ?digit_digit_char, ?digit_char_eqb, ?digit_zero
            by (lia || reflexivity)).
  repeat f_equal; lia.
Qed.

(** X21. A time stamp in the UTC form of the calendar service, the date
    and the time of day followed by ["Z"], is read by the views as that date
    and time with the offset zero, and is taken for a date-time. *)
Theorem utc_stamp_read (d : Date) (h m s : Z) :
  valid_date d = true -> 0 <= h < 24 -> 0 <= m < 60 -> 0 <= s < 60 ->
  let stamp := (Format.isoformat (mkDateTime d h m s 0 None) ++ "Z")%string in
  iso stamp = Ok (mkDateTime d h m s 0 (Some 0)) ∧
  parse_start (Some stamp) = Ok (mkDateTime d h m s 0 (Some 0), true).
Proof.
  intros Hd Hh Hm Hsec. pose proof (valid_date_bounds d Hd) as (Hy & Hmo & Hda).
  destruct d as [y mo da]. simpl in Hy, Hmo, Hda.
  unfold iso, parse_start.
  cbv beta iota delta [Format.isoformat Format.four_digits Format.format_time
                       two_digits String.append dt_date year month day hour
                       minute second microsecond utcoffset Z.eqb].
  set (y1 := y / 1000). set (y2 := y / 100 mod 10).
  set (y3 := y mod 100 / 10). set (y4 := y mod 100 mod 10).
  set (m1 := mo / 10). set (m2 := mo mod 10).
  set (d1 := da / 10). set (d2 := da mod 10).
  set (h1 := h / 10). set (h2 := h mod 10).
  set (n1 := m / 10). set (n2 := m mod 10).
  set (s1 := s / 10). set (s2 := s mod 10).
  assert (0 <= y1 <= 9 ∧ 0 <= y2 <= 9 ∧ 0 <= y3 <= 9 ∧ 0 <= y4 <= 9 ∧
          0 <= m1 <= 9 ∧ 0 <= m2 <= 9 ∧ 0 <= d1 <= 9 ∧ 0 <= d2 <= 9 ∧
          0 <= h1 <= 9 ∧ 0 <= h2 <= 9 ∧ 0 <= n1 <= 9 ∧ 0 <= n2 <= 9 ∧
          0 <= s1 <= 9 ∧ 0 <= s2 <= 9)
    as (?&?&?&?&?&?&?&?&?&?&?&?&?&?)
    by (unfold y1, y2, y3, y4, m1, m2, d1, d2, h1, h2, n1, n2, s1, s2;
        Z.div_mod_to_equations; lia).
  assert (Hyear : ((y1 * 10 + y2) * 10 + y3) * 10 + y4 = y)
    by (unfold y1, y2, y3, y4; Z.div_mod_to_equations; lia).
  assert (Hmonth : m1 * 10 + m2 = mo)
    by (unfold m1, m2; Z.div_mod_to_equations; lia).
  assert (Hday : d1 * 10 + d2 = da)
    by (unfold d1, d2; Z.div_mod_to_equations; lia).
  assert (Hhour : h1 * 10 + h2 = h)
    by (unfold h1, h2; Z.div_mod_to_equations; lia).
  assert (Hmin : n1 * 10 + n2 = m)
    by (unfold n1, n2; Z.div_mod_to_equations; lia).
  assert (Hs : s1 * 10 + s2 = s)
    by (unfold s1, s2; Z.div_mod_to_equations; lia).
  clearbody y1 y2 y3 y4 m1 m2 d1 d2 h1 h2 n1 n2 s1 s2.
  match goal with |- ?A ∧ _ => assert (Hiso : A) end.
  { read_digits. cbv beta iota delta [String.append].
    unfold Parse.fromisoformat. cbn -[digit_char Parse.digit Z.mul Z.add].
    rewrite parse_isoformat_date_digits, parse_isoformat_time_utc by done.
    cbn -[digit_char Parse.digit Z.mul Z.add valid_date Parse.valid_time].
    rewrite Hyear, Hmonth, Hday, Hhour, Hmin, Hs, Hd.
    assert (Parse.valid_time h m s 0 = true) as ->
      by (unfold Parse.valid_time; lia).
    done. }
  split; [exact Hiso|].
  match goal with |- context [Parse.contains ?c ?str] =>
    assert (HT : Parse.contains c str = true) by (by read_digits)
  end.
  rewrite HT, Hiso. done.
Qed.

Lemma utc_stamp_read_witness :
  valid_date (mkDate 2024 1 15) = true ∧ 0 <= 9 < 24 ∧ 0 <= 30 < 60 ∧
  0 <= 0 < 60 ∧
  let stamp :=
    (Format.isoformat (mkDateTime (mkDate 2024 1 15) 9 30 0 0 None) ++ "Z")%string in
  iso stamp = Ok (mkDateTime (mkDate 2024 1 15) 9 30 0 0 (Some 0)) ∧
  parse_start (Some stamp)
  = Ok (mkDateTime (mkDate 2024 1 15) 9 30 0 0 (Some 0), true).
Proof.
  assert (H2 : 0 <= 9 < 24) by lia. assert (H3 : 0 <= 30 < 60) by lia.
  assert (H4 : 0 <= 0 < 60) by lia.
  split; [reflexivity|]. split; [exact H2|]. split; [exact H3|].
  split; [exact H4|].
  exact (utc_stamp_read (mkDate 2024 1 15) 9 30 0 eq_refl H2 H3 H4).
Defined.

Example utc_stamp_sample :
  (Format.isoformat (mkDateTime (mkDate 2024 1 15) 9 30 0 0 None) ++ "Z")%string
  = "2024-01-15T09:30:00Z".
Proof. reflexivity. Qed.
